(** * litegl.js, [src/mesh.js]: GL.Buffer, GL.Mesh and the geometry processors

    A shallow embedding of the buffer container, the mesh container and the
    mesh-processing routines of litegl's [mesh.js], and the properties of
    them that the specification states.

    Layout of the development:
    - [JS]: JavaScript numbers (IEEE binary64, through Rocq's primitive
      floats) and the conversions typed arrays apply on a store;
    - [TA]: typed arrays and [subarray] views;
    - the state-and-exception monad the methods run in, and the device
      (WebGL context and console) they talk to;
    - [vec3]: the gl-matrix operations the processors call;
    - [Indexer], [Buffer] and [Mesh]: the methods, transcribed from the
      source;
    - the theorems. *)

From Stdlib Require Import ZArith Floats String Ascii Lia Bool.
From stdpp Require Import base option list gmap strings pretty.

#[local] Set Warnings "-inexact-float".
#[local] Open Scope string_scope.
#[local] Open Scope list_scope.
#[local] Open Scope Z_scope.

(* ===================================================================== *)
(** * JavaScript numbers *)
(* ===================================================================== *)

Module JS.

(** A JavaScript number is an IEEE binary64 value.  The values the code
    uses as lengths, loop counters and indices are integers of small
    magnitude, on which binary64 arithmetic is exact; they are carried as
    [Int z] so that index arithmetic is arithmetic on [Z].  Every other
    value is a primitive float.  [Int z] is only built for
    [|z| <= 2^53], the range where every integer is a binary64 value, and
    stands for the positive zero when [z = 0]. *)
Inductive num : Type :=
| Int (z : Z)
| Flt (f : float).

Definition safe_bound : Z := 2 ^ 53.

(** The binary64 value nearest to an integer (round to nearest, ties to
    even): exact on the safe range. *)
Definition Z2F (z : Z) : float :=
  SF2Prim (binary_normalize prec emax z 0 false).

Definition to_float (n : num) : float :=
  match n with
  | Int z => Z2F z
  | Flt f => f
  end.

(** The number an exact integer result denotes. *)
Definition of_Z (r : Z) : num :=
  if Z.abs r <=? safe_bound then Int r else Flt (Z2F r).

Definition NaN : num := Flt nan.

(** [undefined] read as an operand of an arithmetic operator is [NaN]. *)
Definition of_undefined (o : option num) : num := default NaN o.

Definition add (a b : num) : num :=
  match a, b with
  | Int x, Int y => of_Z (x + y)
  | _, _ => Flt (to_float a + to_float b)
  end.

Definition sub (a b : num) : num :=
  match a, b with
  | Int x, Int y => of_Z (x - y)
  | _, _ => Flt (to_float a - to_float b)
  end.

(** A zero product of a negative factor is the negative zero. *)
Definition mul (a b : num) : num :=
  match a, b with
  | Int x, Int y =>
      if (x * y =? 0) && ((x <? 0) || (y <? 0)) then Flt neg_zero
      else of_Z (x * y)
  | _, _ => Flt (to_float a * to_float b)
  end.

(** A quotient of integers is exact when the divisor divides the dividend. *)
Definition div (a b : num) : num :=
  match a, b with
  | Int x, Int y =>
      if negb (y =? 0) && (Z.rem x y =? 0) && negb ((x =? 0) && (y <? 0))
      then Int (Z.quot x y)
      else Flt (Z2F x / Z2F y)
  | _, _ => Flt (to_float a / to_float b)
  end.

Definition lt (a b : num) : bool :=
  match a, b with
  | Int x, Int y => x <? y
  | _, _ => PrimFloat.ltb (to_float a) (to_float b)
  end.

Definition le (a b : num) : bool :=
  match a, b with
  | Int x, Int y => x <=? y
  | _, _ => PrimFloat.leb (to_float a) (to_float b)
  end.

Definition gt (a b : num) : bool := lt b a.

(** [a == b] on numbers. *)
Definition eq (a b : num) : bool :=
  match a, b with
  | Int x, Int y => x =? y
  | _, _ => PrimFloat.eqb (to_float a) (to_float b)
  end.

Definition isNaN (a : num) : bool :=
  match a with
  | Int _ => false
  | Flt f => is_nan f
  end.

Definition is_finite (a : num) : bool :=
  match a with
  | Int _ => true
  | Flt f => negb (is_nan f) && negb (is_infinity f)
  end.

(** Truthiness of a number: every number but [0], [-0] and [NaN]. *)
Definition truthy (a : num) : bool :=
  match a with
  | Int z => negb (z =? 0)
  | Flt f => negb (is_nan f) && negb (is_zero f)
  end.

(** [Math.abs], [Math.sqrt], [Math.min], [Math.max]. *)
Definition abs (a : num) : num :=
  match a with
  | Int z => Int (Z.abs z)
  | Flt f => Flt (PrimFloat.abs f)
  end.

Definition sqrt (a : num) : num := Flt (PrimFloat.sqrt (to_float a)).

Definition fmin (x y : float) : float :=
  if is_nan x || is_nan y then nan
  else if PrimFloat.ltb x y then x
  else if PrimFloat.ltb y x then y
  else if get_sign x then x else y.

Definition fmax (x y : float) : float :=
  if is_nan x || is_nan y then nan
  else if PrimFloat.ltb x y then y
  else if PrimFloat.ltb y x then x
  else if get_sign x then y else x.

Definition min (a b : num) : num :=
  match a, b with
  | Int x, Int y => Int (Z.min x y)
  | _, _ => Flt (fmin (to_float a) (to_float b))
  end.

Definition max (a b : num) : num :=
  match a, b with
  | Int x, Int y => Int (Z.max x y)
  | _, _ => Flt (fmax (to_float a) (to_float b))
  end.

(** ** Conversions *)

(** The integer part of a finite float, rounded toward zero; [0] for
    [NaN] and the infinities, as [ToInt32] and its relatives want it. *)
Definition trunc_float (f : float) : Z :=
  match Prim2SF f with
  | S754_finite s m e =>
      let v := match e with
               | Z0 => Zpos m
               | Zpos p => Z.shiftl (Zpos m) e
               | Zneg p => Z.shiftr (Zpos m) (Zpos p)
               end in
      if s then - v else v
  | _ => 0
  end.

Definition trunc (a : num) : Z :=
  match a with
  | Int z => z
  | Flt f => trunc_float f
  end.

(** [ToUintN] and [ToIntN]: the integer part, modulo [2^n]. *)
Definition wrap_unsigned (n : Z) (z : Z) : Z := z mod 2 ^ n.

Definition wrap_signed (n : Z) (z : Z) : Z :=
  let u := z mod 2 ^ n in
  if u <? 2 ^ (n - 1) then u else u - 2 ^ n.

(** [x | 0]. *)
Definition ToInt32 (a : num) : Z := wrap_signed 32 (trunc a).

(** [Math.fround]: the nearest binary32 value, as a binary64 value. *)
Definition fround (f : float) : float :=
  match Prim2SF f with
  | S754_finite s m e => SF2Prim (binary_round 24 128 s m e)
  | _ => f
  end.

(** [ToUint8Clamp]: clamp to [0, 255], ties to even. *)
Definition clamp_uint8 (a : num) : Z :=
  match a with
  | Int z => Z.max 0 (Z.min 255 z)
  | Flt f =>
      if is_nan f then 0
      else if PrimFloat.leb f 0 then 0
      else if PrimFloat.leb 255 f then 255
      else
        let q := trunc_float f in
        let r := (f - Z2F q)%float in
        if PrimFloat.ltb r 0.5 then q
        else if PrimFloat.ltb 0.5 r then q + 1
        else if Z.even q then q else q + 1
  end.

(** [ToIntegerOrInfinity] followed by the clamping of a relative index
    into [0, len], as [subarray] applies it to each of its arguments. *)
Definition relative_index (len : Z) (a : num) : Z :=
  match a with
  | Int k => if k <? 0 then Z.max (len + k) 0 else Z.min k len
  | Flt f =>
      if is_nan f then 0
      else if is_infinity f then (if get_sign f then 0 else len)
      else
        let k := trunc_float f in
        if k <? 0 then Z.max (len + k) 0 else Z.min k len
  end.

(** [ToIndex] for the length of a new typed array: [None] is a
    [RangeError]. *)
Definition to_index (a : num) : option nat :=
  match a with
  | Int k => if k <? 0 then None else Some (Z.to_nat k)
  | Flt f =>
      if is_nan f then Some 0%nat
      else if is_infinity f then None
      else
        let k := trunc_float f in
        if (k <? 0) || (safe_bound <=? k) then None else Some (Z.to_nat k)
  end.

(** A number used as a property key ([o[x]]) names the element [k] of an
    array when it is the non-negative integer [k]. *)
Definition as_index (a : num) : option nat :=
  match a with
  | Int k => if k <? 0 then None else Some (Z.to_nat k)
  | Flt f =>
      let k := trunc_float f in
      if negb (is_nan f) && negb (is_infinity f) && PrimFloat.eqb (Z2F k) f && (0 <=? k)
      then Some (Z.to_nat k) else None
  end.

End JS.

Export JS(num, Int, Flt).

Declare Scope js_scope.
Delimit Scope js_scope with js.
Bind Scope js_scope with num.
Infix "+" := JS.add : js_scope.
Infix "-" := JS.sub : js_scope.
Infix "*" := JS.mul : js_scope.
Infix "/" := JS.div : js_scope.
Infix "<" := JS.lt : js_scope.
Infix ">" := JS.gt : js_scope.
Infix "<=" := JS.le : js_scope.
Coercion Int : Z >-> num.


(* ===================================================================== *)
(** * Typed arrays *)
(* ===================================================================== *)

Module TA.

Inductive ArrayKind : Type :=
| Int8Array | Uint8Array | Uint8ClampedArray
| Int16Array | Uint16Array
| Int32Array | Uint32Array
| Float32Array | Float64Array.

#[global] Instance ArrayKind_eq_dec : EqDecision ArrayKind.
Proof. solve_decision. Defined.

(** A typed array: its constructor and its elements.  Two views of one
    [ArrayBuffer] are kept apart by [View] below. *)
Record TypedArray : Type := mk {
  kind : ArrayKind;
  elems : list num
}.

(** The conversion a typed array applies to a number stored in it. *)
Definition coerce (k : ArrayKind) (v : num) : num :=
  match k with
  | Int8Array => Int (JS.wrap_signed 8 (JS.trunc v))
  | Uint8Array => Int (JS.wrap_unsigned 8 (JS.trunc v))
  | Uint8ClampedArray => Int (JS.clamp_uint8 v)
  | Int16Array => Int (JS.wrap_signed 16 (JS.trunc v))
  | Uint16Array => Int (JS.wrap_unsigned 16 (JS.trunc v))
  | Int32Array => Int (JS.wrap_signed 32 (JS.trunc v))
  | Uint32Array => Int (JS.wrap_unsigned 32 (JS.trunc v))
  | Float32Array => Flt (JS.fround (JS.to_float v))
  | Float64Array => Flt (JS.to_float v)
  end.

(** The elements of a typed array are values of its kind. *)
Definition wf (a : TypedArray) : Prop :=
  Forall (fun v => coerce (kind a) v = v) (elems a).

Definition BYTES_PER_ELEMENT (k : ArrayKind) : Z :=
  match k with
  | Int8Array | Uint8Array | Uint8ClampedArray => 1
  | Int16Array | Uint16Array => 2
  | Int32Array | Uint32Array | Float32Array => 4
  | Float64Array => 8
  end.

Definition length (a : TypedArray) : Z := Z.of_nat (List.length (elems a)).

Definition byteLength (a : TypedArray) : Z :=
  length a * BYTES_PER_ELEMENT (kind a).

(** [new K(array)]: every element converted. *)
Definition of_list (k : ArrayKind) (xs : list num) : TypedArray :=
  mk k (map (coerce k) xs).

(** [new K(n)]: [n] zeros. *)
Definition zeros (k : ArrayKind) (n : nat) : TypedArray :=
  mk k (replicate n (coerce k (Int 0))).

(** [a[i]]: [None] is [undefined]. *)
Definition get (a : TypedArray) (i : Z) : option num :=
  if i <? 0 then None else elems a !! Z.to_nat i.

(** [a[i] = v]: the converted value is stored; a store out of range is
    dropped. *)
Definition set (a : TypedArray) (i : Z) (v : num) : TypedArray :=
  if i <? 0 then a
  else mk (kind a) (<[Z.to_nat i := coerce (kind a) v]> (elems a)).

(** [a.set(src, offset)]: [None] is the [RangeError] of a source that
    does not fit. *)
Definition set_from (a : TypedArray) (src : list num) (offset : Z) : option TypedArray :=
  if (offset <? 0) || (length a <? offset + Z.of_nat (List.length src)) then None
  else
    Some (mk (kind a)
            (take (Z.to_nat offset) (elems a)
             ++ map (coerce (kind a)) src
             ++ drop (Z.to_nat offset + List.length src) (elems a))).

(** A view made by [a.subarray(begin, end)]: a window on the elements of
    [a], which reads and writes [a] itself. *)
Record View : Type := mkView {
  v_off : Z;
  v_len : Z
}.

Definition subarray (a : TypedArray) (b e : num) : View :=
  let len := length a in
  let b' := JS.relative_index len b in
  let e' := JS.relative_index len e in
  mkView b' (Z.max (e' - b') 0).

(** [v.subarray(begin, end)] on a view: a window inside the window. *)
Definition subview (v : View) (b e : num) : View :=
  let b' := JS.relative_index (v_len v) b in
  let e' := JS.relative_index (v_len v) e in
  mkView (v_off v + b') (Z.max (e' - b') 0).

Definition view_get (a : TypedArray) (v : View) (k : Z) : option num :=
  if (0 <=? k) && (k <? v_len v) then get a (v_off v + k) else None.

Definition view_set (a : TypedArray) (v : View) (k : Z) (x : num) : TypedArray :=
  if (0 <=? k) && (k <? v_len v) then set a (v_off v + k) x else a.

(** The elements a view shows. *)
Definition view_elems (a : TypedArray) (v : View) : list num :=
  take (Z.to_nat (v_len v)) (drop (Z.to_nat (v_off v)) (elems a)).

(** The name of the constructor. *)
Definition class_name (k : ArrayKind) : string :=
  match k with
  | Int8Array => "Int8Array"
  | Uint8Array => "Uint8Array"
  | Uint8ClampedArray => "Uint8ClampedArray"
  | Int16Array => "Int16Array"
  | Uint16Array => "Uint16Array"
  | Int32Array => "Int32Array"
  | Uint32Array => "Uint32Array"
  | Float32Array => "Float32Array"
  | Float64Array => "Float64Array"
  end.

Definition all_kinds : list ArrayKind :=
  [Int8Array; Uint8Array; Uint8ClampedArray; Int16Array; Uint16Array;
   Int32Array; Uint32Array; Float32Array; Float64Array].

(** [global[name]], for the names of the typed-array constructors. *)
Definition class_of_name (name : string) : option ArrayKind :=
  List.find (fun k => String.eqb (class_name k) name) all_kinds.

End TA.

Export TA(ArrayKind, Int8Array, Uint8Array, Uint8ClampedArray, Int16Array,
          Uint16Array, Int32Array, Uint32Array, Float32Array, Float64Array,
          TypedArray, View).

(** What a variable of the code may hold where it expects array data:
    nothing ([null] or [undefined]), a plain [Array] of numbers, or a typed
    array. *)
Inductive Data : Type :=
| NoData
| PlainArray (xs : list num)
| Typed (a : TypedArray).

(* ===================================================================== *)
(** * The device and the monad of the methods *)
(* ===================================================================== *)

Inductive Target : Type := ARRAY_BUFFER | ELEMENT_ARRAY_BUFFER.
Inductive Usage : Type := STATIC_DRAW | DYNAMIC_DRAW | STREAM_DRAW.
Inductive GLType : Type :=
| BYTE | UNSIGNED_BYTE | SHORT | UNSIGNED_SHORT | INT | UNSIGNED_INT | FLOAT.

#[global] Instance Target_eq_dec : EqDecision Target.
Proof. solve_decision. Defined.
#[global] Instance GLType_eq_dec : EqDecision GLType.
Proof. solve_decision. Defined.

(** A range of the bytes of an array's storage, as
    [new Uint8Array(a.buffer, start, size)] shows it. *)
Record ByteRange : Type := mkByteRange {
  br_array : TypedArray;
  br_start : Z;
  br_size : Z
}.

(** What the code does to the outside: calls on the WebGL context and
    lines on the console, in the order they happen. *)
Inductive Event : Type :=
| console_log (msg : string)
| console_warn (msg : string)
| console_error (msg : string)
| gl_createBuffer (handle : option nat)
| gl_bindBuffer (target : option Target) (handle : option nat)
| gl_bufferData (target : option Target) (data : TypedArray) (usage : Usage)
| gl_bufferSubData (target : option Target) (start : Z) (view : ByteRange)
| gl_deleteBuffer (handle : option nat).

(** The ambient state: [global.gl] (is there a current context), whether
    that context is lost ([createBuffer] answers [null]), the next fresh
    buffer handle, [GL.debug], and the events so far. *)
Record World : Type := mkWorld {
  global_gl : bool;
  context_lost : bool;
  next_handle : nat;
  debug : bool;
  events : list Event
}.

Definition emit (e : Event) (w : World) : World :=
  mkWorld (global_gl w) (context_lost w) (next_handle w) (debug w) (events w ++ [e]).

(** A thrown value: the string the code throws, or an exception of the
    engine. *)
Inductive Exn : Type :=
| Thrown (msg : string)
| TypeError
| RangeError.

Inductive Result (A : Type) : Type :=
| Ok (a : A)
| Throw (e : Exn).
Arguments Ok {A} a.
Arguments Throw {A} e.

(** A computation over a state [S] that may throw; the state reached at
    the throw is kept, as a mutation done before a [throw] is. *)
Definition M (S A : Type) : Type := S -> Result A * S.

Definition ret {S A} (a : A) : M S A := fun s => (Ok a, s).

Definition bind {S A B} (m : M S A) (k : A -> M S B) : M S B :=
  fun s =>
    match m s with
    | (Ok a, s') => k a s'
    | (Throw e, s') => (Throw e, s')
    end.

Definition throw {S A} (e : Exn) : M S A := fun s => (Throw e, s).
Definition get {S} : M S S := fun s => (Ok s, s).
Definition put {S} (s : S) : M S unit := fun _ => (Ok tt, s).
Definition modify {S} (f : S -> S) : M S unit := fun s => (Ok tt, f s).

Notation "x <- m ;; k" := (bind m (fun x => k))
  (at level 100, m at next level, right associativity).
Notation "m ;;; k" := (bind m (fun _ => k))
  (at level 100, right associativity).

(** Run a computation on one component of the state. *)
Definition zoom {S T A} (proj : S -> T) (inj : T -> S -> S) (m : M T A) : M S A :=
  fun s =>
    match m (proj s) with
    | (r, t') => (r, inj t' s)
    end.

(** The part of a state that is the world. *)
Class HasWorld (S : Type) : Type := {
  world_of : S -> World;
  with_world : World -> S -> S
}.

#[global] Instance World_HasWorld : HasWorld World :=
  {| world_of := fun w => w; with_world := fun w _ => w |}.

#[global] Instance pair_HasWorld {T} : HasWorld (T * World) :=
  {| world_of := snd; with_world := fun w s => (fst s, w) |}.

Definition log_event {S} `{HasWorld S} (e : Event) : M S unit :=
  modify (fun s => with_world (emit e (world_of s)) s).

Definition the_world {S} `{HasWorld S} : M S World :=
  fun s => (Ok (world_of s), s).

(** [gl.createBuffer()]: a fresh handle, or [null] on a lost context. *)
Definition gl_create_buffer {S} `{HasWorld S} : M S (option nat) :=
  w <- the_world;;
  if context_lost w then
    log_event (gl_createBuffer None);;; ret None
  else
    let h := next_handle w in
    modify (fun s =>
      let w := world_of s in
      with_world (mkWorld (global_gl w) (context_lost w) (Datatypes.S (next_handle w))
                          (debug w) (events w ++ [gl_createBuffer (Some h)])) s);;;
    ret (Some h).

(** Loops: [fuel] bounds the number of iterations. *)
Fixpoint for_each {S A} (xs : list A) (body : A -> M S unit) : M S unit :=
  match xs with
  | [] => ret tt
  | x :: xs' => body x;;; for_each xs' body
  end.

(** Run a method on an object of its own: the world is threaded through,
    and the object as the method left it is returned with the result. *)
Definition on_new {S T A} `{HasWorld S} (obj : T) (m : M (T * World) A) : M S (A * T) :=
  fun s =>
    match m (obj, world_of s) with
    | (Ok a, (obj', w')) => (Ok (a, obj'), with_world w' s)
    | (Throw e, (_, w')) => (Throw e, with_world w' s)
    end.

(* ===================================================================== *)
(** * gl-matrix: vec3 *)
(* ===================================================================== *)

(** The [vec3] functions of gl-matrix that [mesh.js] calls.  gl-matrix is
    a library litegl depends on; the definitions follow its reference
    implementation.  Each function computes its components in binary64;
    storing them in the [out] array is the caller's step, since [out] is
    sometimes a [Float32Array] of its own and sometimes a view. *)
Module vec3.

Definition t : Type := num * num * num.

(** The three components of a view; a component the view does not have is
    [undefined], which every operation below reads as [NaN]. *)
Definition read (a : TypedArray) (v : View) : t :=
  (JS.of_undefined (TA.view_get a v 0),
   JS.of_undefined (TA.view_get a v 1),
   JS.of_undefined (TA.view_get a v 2)).

(** [out[0] = x; out[1] = y; out[2] = z] on a view. *)
Definition write (a : TypedArray) (v : View) (x : t) : TypedArray :=
  let '(x0, x1, x2) := x in
  TA.view_set (TA.view_set (TA.view_set a v 0 x0) v 1 x1) v 2 x2.

(** The same stores on a [Float32Array] of three elements, as
    [vec3.create()] makes it. *)
Definition f32 (x : t) : t :=
  let '(x0, x1, x2) := x in
  (TA.coerce Float32Array x0, TA.coerce Float32Array x1, TA.coerce Float32Array x2).

Definition create : t := f32 (Int 0, Int 0, Int 0).

Definition add (a b : t) : t :=
  let '(a0, a1, a2) := a in
  let '(b0, b1, b2) := b in
  (a0 + b0, a1 + b1, a2 + b2)%js.

Definition subtract (a b : t) : t :=
  let '(a0, a1, a2) := a in
  let '(b0, b1, b2) := b in
  (a0 - b0, a1 - b1, a2 - b2)%js.

Definition scale (a : t) (b : num) : t :=
  let '(a0, a1, a2) := a in
  (a0 * b, a1 * b, a2 * b)%js.

Definition cross (a b : t) : t :=
  let '(ax, ay, az) := a in
  let '(bx, by', bz) := b in
  (ay * bz - az * by', az * bx - ax * bz, ax * by' - ay * bx)%js.

Definition dot (a b : t) : num :=
  let '(a0, a1, a2) := a in
  let '(b0, b1, b2) := b in
  (a0 * b0 + a1 * b1 + a2 * b2)%js.

Definition squaredDistance (a b : t) : num :=
  let '(a0, a1, a2) := a in
  let '(b0, b1, b2) := b in
  let x := (b0 - a0)%js in
  let y := (b1 - a1)%js in
  let z := (b2 - a2)%js in
  (x * x + y * y + z * z)%js.

Definition length (a : t) : num :=
  let '(x, y, z) := a in
  JS.sqrt (x * x + y * y + z * z)%js.

Definition min (a b : t) : t :=
  let '(a0, a1, a2) := a in
  let '(b0, b1, b2) := b in
  (JS.min a0 b0, JS.min a1 b1, JS.min a2 b2).

Definition max (a b : t) : t :=
  let '(a0, a1, a2) := a in
  let '(b0, b1, b2) := b in
  (JS.max a0 b0, JS.max a1 b1, JS.max a2 b2).

(** [vec3.normalize(out, a)] with [out] and [a] the same array, the only
    way [mesh.js] calls it: [None] when the squared length is not
    positive, and [out] is left as it is. *)
Definition normalize (a : t) : option t :=
  let '(x, y, z) := a in
  let len := (x * x + y * y + z * z)%js in
  if (len > Int 0)%js then
    let len := (Int 1 / JS.sqrt len)%js in
    Some (x * len, y * len, z * len)%js
  else None.

End vec3.

(* ===================================================================== *)
(** * GL.Buffer *)
(* ===================================================================== *)

Module Buffer.

(** The WebGL buffer object, with the fields [upload] stores inside it. *)
Record WebGLBuffer : Type := mkWebGLBuffer {
  handle : nat;
  length : option Z;
  wb_spacing : option num;
  gl_type : option GLType
}.

Record t : Type := mk {
  gl : bool;                       (* this.gl: a context, or none *)
  buffer : option WebGLBuffer;     (* this.buffer *)
  target : option Target;
  attribute : option string;
  normalize : bool;
  data : Data;
  spacing : num;
  stream_type : option Usage;
  name : option string
}.

Definition set_buffer (wb : option WebGLBuffer) (b : t) : t :=
  mk (gl b) wb (target b) (attribute b) (normalize b) (data b) (spacing b)
     (stream_type b) (name b).
Definition set_target (x : option Target) (b : t) : t :=
  mk (gl b) (buffer b) x (attribute b) (normalize b) (data b) (spacing b)
     (stream_type b) (name b).
Definition set_attribute (x : option string) (b : t) : t :=
  mk (gl b) (buffer b) (target b) x (normalize b) (data b) (spacing b)
     (stream_type b) (name b).
Definition set_normalize (x : bool) (b : t) : t :=
  mk (gl b) (buffer b) (target b) (attribute b) x (data b) (spacing b)
     (stream_type b) (name b).
Definition set_data (x : Data) (b : t) : t :=
  mk (gl b) (buffer b) (target b) (attribute b) (normalize b) x (spacing b)
     (stream_type b) (name b).
Definition set_spacing (x : num) (b : t) : t :=
  mk (gl b) (buffer b) (target b) (attribute b) (normalize b) (data b) x
     (stream_type b) (name b).
Definition set_name (x : option string) (b : t) : t :=
  mk (gl b) (buffer b) (target b) (attribute b) (normalize b) (data b) (spacing b)
     (stream_type b) x.

(** The state of a method of a buffer: [this] and the world. *)
Definition St : Type := t * World.

Definition this : M St t := fun s => (Ok (fst s), s).
Definition update (f : t -> t) : M St unit := modify (fun s => (f (fst s), snd s)).

(** [x || y] on an optional value. *)
Definition or_else {A} (x : option A) (y : A) : A := default y x.

(** The [switch] of [upload] on the constructor of the data. *)
Definition gl_type_of (k : ArrayKind) : option GLType :=
  match k with
  | Int8Array => Some BYTE
  | Uint8ClampedArray | Uint8Array => Some UNSIGNED_BYTE
  | Int16Array => Some SHORT
  | Uint16Array => Some UNSIGNED_SHORT
  | Int32Array => Some INT
  | Uint32Array => Some UNSIGNED_INT
  | Float32Array => Some FLOAT
  | Float64Array => None
  end.

Definition int32_msg : string :=
  "WebGL does not support UINT32 or INT32 as vertex buffer types, converting to FLOAT".

(** [GL.Buffer.prototype.upload] *)
Definition upload (stream_type_arg : option Usage) : M St unit :=
  b <- this;;
  let spacing := if JS.truthy (spacing b) then spacing b else Int 3 in
  if negb (gl b) then ret tt
  else
    match data b with
    | NoData => throw (Thrown "No data supplied")
    | PlainArray _ => throw (Thrown "Buffers must be typed arrays")
    | Typed data =>
        wb <- match buffer b with
              | Some wb => ret (Some wb)
              | None =>
                  h <- gl_create_buffer;;
                  ret (option_map (fun h => mkWebGLBuffer h None None None) h)
              end;;
        update (set_buffer wb);;;
        match wb with
        | None => ret tt (* the context is lost *)
        | Some wb =>
            let wb := mkWebGLBuffer (handle wb) (Some (TA.length data)) (Some spacing)
                                    (gl_type wb) in
            update (set_buffer (Some wb));;;
            match gl_type_of (TA.kind data) with
            | None => throw (Thrown "unsupported buffer type")
            | Some ty =>
                let widen :=
                  bool_decide (target b = Some ARRAY_BUFFER)
                  && (bool_decide (ty = INT) || bool_decide (ty = UNSIGNED_INT)) in
                (if widen then log_event (console_warn int32_msg) else ret tt);;;
                let ty' := if widen then FLOAT else ty in
                let data' := if widen then TA.of_list Float32Array (TA.elems data)
                             else data in
                update (set_buffer
                          (Some (mkWebGLBuffer (handle wb) (length wb) (wb_spacing wb)
                                               (Some ty'))));;;
                log_event (gl_bindBuffer (target b) (Some (handle wb)));;;
                log_event (gl_bufferData (target b) data'
                             (or_else stream_type_arg
                                (or_else (stream_type b) STATIC_DRAW)))
            end
        end
    end.

(** The arguments [gl] may be given as: [null], [undefined], a context. *)
Inductive GLArg : Type := gl_null | gl_undefined | gl_context.

(** [new GL.Buffer(target, data, spacing, stream_type, gl)] *)
Definition new {S} `{HasWorld S} (target : option Target) (data : Data)
    (spacing : option num) (stream_type : option Usage) (gl : GLArg) : M S t :=
  w <- the_world;;
  (if debug w then log_event (console_log "GL.Buffer created") else ret tt);;;
  let gl := match gl with
            | gl_null => false
            | gl_undefined => global_gl w
            | gl_context => true
            end in
  let spacing := match spacing with
                 | Some s => if JS.truthy s then s else Int 3
                 | None => Int 3
                 end in
  let b := mk gl None target None false data spacing None None in
  let has_data := match data with NoData => false | _ => true end in
  if has_data && gl then
    r <- on_new b (upload stream_type);;
    ret (snd r)
  else ret b.

(** [GL.Buffer.prototype.uploadRange] *)
Definition uploadRange (start size : Z) : M St unit :=
  b <- this;;
  match data b with
  | NoData => throw (Thrown "No data stored in this buffer")
  | PlainArray _ => throw (Thrown "Buffers must be typed arrays")
  | Typed data =>
      if (start <? 0) || (size <? 0) || (TA.byteLength data <? start + size)
      then throw RangeError
      else if negb (gl b) then throw TypeError
      else
        log_event (gl_bindBuffer (target b) (option_map handle (buffer b)));;;
        log_event (gl_bufferSubData (target b) start (mkByteRange data start size))
  end.

Section SetData.

(** [new Uint8Array(dst.buffer).set(new Uint8Array(src.buffer), offset)]:
    the bytes of [src] written over the bytes of [dst] from the byte
    [offset] on.  What the elements of [dst] are afterwards depends on the
    byte encoding of the two kinds, which is left open. *)
Variable set_bytes : TypedArray -> TypedArray -> Z -> TypedArray.

(** [GL.Buffer.prototype.setData].  [same_array] tells whether [data] is
    the very array the buffer holds ([this.data != data] compares
    identities). *)
Definition setData (data : Data) (same_array : bool) (offset : option Z) : M St unit :=
  match data with
  | NoData => throw TypeError
  | PlainArray _ => throw (Thrown "Data must be typed array")
  | Typed new_data =>
      let offset := or_else offset 0 in
      b <- this;;
      let stored_length :=
        match Buffer.data b with
        | NoData => None
        | PlainArray xs => Some (Z.of_nat (List.length xs))
        | Typed a => Some (TA.length a)
        end in
      match stored_length with
      | None =>
          update (set_data data);;;
          upload None
      | Some len =>
          if len <? TA.length new_data
          then throw (Thrown "buffer is not big enough, you cannot set data to a smaller buffer")
          else if same_array then ret tt
          else
            match Buffer.data b with
            | Typed old =>
                if len =? TA.length new_data then
                  match TA.set_from old (TA.elems new_data) 0 with
                  | Some a => update (set_data (Typed a));;; upload None
                  | None => throw RangeError
                  end
                else if (offset <? 0) || (TA.byteLength old <? offset + TA.byteLength new_data)
                then throw RangeError
                else
                  update (set_data (Typed (set_bytes old new_data offset)));;;
                  uploadRange offset (TA.byteLength new_data)
            | _ => throw TypeError
            end
      end
  end.

End SetData.

(** The object [toJSON] makes. *)
Record JSON : Type := mkJSON {
  data_type : string;
  j_data : list num;
  j_target : option Target;
  j_attribute : option string;
  j_spacing : num
}.

(** Modelled from the spec: [getClassName] and the [toJSON] method litegl
    gives to typed arrays are defined outside [mesh.js].  The
    serialization "encodes numeric kind tag ... and storage contents":
    the tag is the name of the constructor of the data and the contents
    are its elements as a plain array. *)
Definition getClassName (a : TypedArray) : string := TA.class_name (TA.kind a).
Definition typed_array_toJSON (a : TypedArray) : list num := TA.elems a.

(** [GL.Buffer.prototype.toJSON] *)
Definition toJSON : M St (option JSON) :=
  b <- this;;
  match data b with
  | NoData =>
      log_event (console_error "cannot serialize a mesh without data");;;
      ret None
  | PlainArray _ => throw TypeError
  | Typed a =>
      ret (Some (mkJSON (getClassName a) (typed_array_toJSON a) (target b)
                        (attribute b) (spacing b)))
  end.

(** [GL.Buffer.prototype.fromJSON].  [global[o.data_type]] is looked up
    among the typed-array constructors; any other name is taken not to be
    a property of the global object. *)
Definition fromJSON (o : JSON) : M St unit :=
  let data_type := or_else (TA.class_of_name (data_type o)) Float32Array in
  update (set_data (Typed (TA.of_list data_type (j_data o))));;;
  update (set_target (j_target o));;;
  update (set_spacing (if JS.truthy (j_spacing o) then j_spacing o else Int 3));;;
  update (set_attribute (j_attribute o));;;
  upload (Some STATIC_DRAW).

(** [GL.Buffer.prototype.delete]: [gl.deleteBuffer] of a handle that is
    [null] is accepted by WebGL and does nothing. *)
Definition delete : M St unit :=
  b <- this;;
  if negb (gl b) then throw TypeError
  else
    log_event (gl_deleteBuffer (option_map handle (buffer b)));;;
    update (set_buffer None).

(** [GL.Buffer.prototype.clone].  With [share] every property of [this]
    is copied to the new buffer.  Without it the data would be copied by
    [new global[ this.data.constructor ]( this.data )]: the key of that
    lookup is the constructor itself, which as a property key is its
    source text, and the global object has no property of that name, so
    that [new] is applied to [undefined]. *)
Definition clone (share : bool) : M St t :=
  b <- this;;
  buffer <- new None NoData None None gl_undefined;;
  if share then ret b
  else
    let buffer :=
      match target b with
      | Some x => set_target (Some x) buffer
      | None => buffer
      end in
    let buffer :=
      if gl b
      then mk true (Buffer.buffer buffer) (target buffer) (attribute buffer)
              (normalize buffer) (data buffer) (spacing buffer) (stream_type buffer)
              (name buffer)
      else buffer in
    let buffer := if JS.truthy (spacing b) then set_spacing (spacing b) buffer else buffer in
    match data b with
    | NoData => ret buffer
    | _ => throw TypeError
    end.

End Buffer.

(* ===================================================================== *)
(** * JavaScript objects used as dictionaries *)
(* ===================================================================== *)

(** The properties of an object in the order [for (var k in o)] visits
    them, which is the order they were first set in. *)
Definition Obj (V : Type) : Type := list (string * V).

Fixpoint obj_get {V} (o : Obj V) (k : string) : option V :=
  match o with
  | [] => None
  | (k', v) :: o' => if String.eqb k' k then Some v else obj_get o' k
  end.

Fixpoint obj_set {V} (o : Obj V) (k : string) (v : V) : Obj V :=
  match o with
  | [] => [(k, v)]
  | (k', v') :: o' =>
      if String.eqb k' k then (k', v) :: o' else (k', v') :: obj_set o' k v
  end.

Definition obj_keys {V} (o : Obj V) : list string := map fst o.

(** [delete o[k]] *)
Definition obj_delete {V} (o : Obj V) (k : string) : Obj V :=
  List.filter (fun kv => negb (String.eqb (fst kv) k)) o.

(** The values [a, a + step, ...] below [stop] that a counting [for] loop
    goes through. *)
Definition count_up (a stop step : Z) : list Z :=
  map (fun k => a + step * Z.of_nat k)
      (seq 0 (Z.to_nat ((stop - a + step - 1) / step))).

(* ===================================================================== *)
(** * GL.Indexer *)
(* ===================================================================== *)

Module Indexer.

(** [this.map] holds, under the JSON text of an object, the position of
    the object in [this.unique]. *)
Record t (A : Type) : Type := mk {
  unique : list A;
  indices : list num;
  map : Obj nat
}.
Arguments mk {A}.
Arguments unique {A}.
Arguments indices {A}.
Arguments map {A}.

(** [new GL.Indexer()] *)
Definition new {A} : t A := mk [] [] [].

Section Add.

Context {A : Type}.

(** [JSON.stringify], a builtin. [key in this.map] also sees the
    properties [this.map] inherits from [Object.prototype]; none of their
    names is a JSON text, so that the own keys decide. *)
Variable JSON_stringify : A -> string.

(** [GL.Indexer.prototype.add]: the position returned, and the indexer. *)
Definition add (obj : A) (ix : t A) : nat * t A :=
  let key := JSON_stringify obj in
  match obj_get (map ix) key with
  | Some k => (k, ix)
  | None =>
      let k := List.length (unique ix) in
      (k, mk (unique ix ++ [obj]) (indices ix) (obj_set (map ix) key k))
  end.

End Add.

End Indexer.

(* ===================================================================== *)
(** * GL.Mesh: the container *)
(* ===================================================================== *)

Module Mesh.

(** An entry of [Mesh.common_buffers]. *)
Record StreamInfo : Type := mkStreamInfo {
  si_spacing : Z;
  si_attribute : string;
  si_normalize : bool;
  si_type : option ArrayKind
}.

Definition common_buffers : Obj StreamInfo :=
  [ ("vertices", mkStreamInfo 3 "a_vertex" false None);
    ("vertices2D", mkStreamInfo 2 "a_vertex2D" false None);
    ("normals", mkStreamInfo 3 "a_normal" true None);
    ("coords", mkStreamInfo 2 "a_coord" false None);
    ("coords1", mkStreamInfo 2 "a_coord1" false None);
    ("coords2", mkStreamInfo 2 "a_coord2" false None);
    ("colors", mkStreamInfo 4 "a_color" true None);
    ("tangents", mkStreamInfo 3 "a_tangent" false None);
    ("bone_indices", mkStreamInfo 4 "a_bone_indices" false (Some Uint8Array));
    ("weights", mkStreamInfo 4 "a_weights" true None);
    ("extra", mkStreamInfo 1 "a_extra" false None);
    ("extra2", mkStreamInfo 2 "a_extra2" false None);
    ("extra3", mkStreamInfo 3 "a_extra3" false None);
    ("extra4", mkStreamInfo 4 "a_extra4" false None) ].

Definition default_datatype : ArrayKind := Float32Array.

(** A group of [info.groups]. *)
Record Group : Type := mkGroup {
  g_name : string;
  g_start : num;
  g_length : num;
  g_material : string
}.

(** A bone: its name and its matrix. *)
Definition Bone : Type := string * list num.

Record t : Type := mk {
  gl : bool;                       (* this.gl: a context, or undefined *)
  vertexBuffers : Obj Buffer.t;
  indexBuffers : Obj Buffer.t;
  groups : list Group;             (* this.info.groups *)
  bones : option (list Bone)       (* this.bones *)
}.

Definition set_vertexBuffers (x : Obj Buffer.t) (m : t) : t :=
  mk (gl m) x (indexBuffers m) (groups m) (bones m).
Definition set_indexBuffers (x : Obj Buffer.t) (m : t) : t :=
  mk (gl m) (vertexBuffers m) x (groups m) (bones m).

Definition St : Type := t * World.

Definition this : M St t := fun s => (Ok (fst s), s).
Definition update (f : t -> t) : M St unit := modify (fun s => (f (fst s), snd s)).

(** The [gl] argument a mesh hands to the buffers it makes: [this.gl]. *)
Definition gl_arg (m : t) : Buffer.GLArg :=
  if gl m then Buffer.gl_context else Buffer.gl_undefined.

(** Call a method of the vertex buffer [name], which stays in the mesh
    as the method left it, also when it throws. *)
Definition on_vertex_buffer {A} (name : string) (m : M Buffer.St A) : M St A :=
  fun s =>
    match obj_get (vertexBuffers (fst s)) name with
    | None => (Throw TypeError, s)
    | Some b =>
        match m (b, snd s) with
        | (r, (b', w')) =>
            (r, (set_vertexBuffers (obj_set (vertexBuffers (fst s)) name b') (fst s), w'))
        end
    end.

(** The [length] of what a variable holds as array data; [None] is the
    [TypeError] of reading it from [null]. *)
Definition data_length (d : Data) : option Z :=
  match d with
  | NoData => None
  | PlainArray xs => Some (Z.of_nat (List.length xs))
  | Typed a => Some (TA.length a)
  end.

(** [Mesh.prototype.getNumVertices] *)
Definition getNumVertices : M St num :=
  m <- this;;
  match obj_get (vertexBuffers m) "vertices" with
  | None => ret (Int 0)
  | Some b =>
      match data_length (Buffer.data b) with
      | None => throw TypeError
      | Some len => ret (Int len / Buffer.spacing b)%js
      end
  end.

(** Falsy strings: [null], [undefined] and the empty string. *)
Definition string_truthy (s : option string) : bool :=
  match s with
  | Some s => negb (String.eqb s EmptyString)
  | None => false
  end.

Definition num_truthy (n : option num) : bool :=
  match n with
  | Some n => JS.truthy n
  | None => false
  end.

Definition is_integer_kind (k : ArrayKind) : bool :=
  match k with
  | Uint8Array | Int8Array | Uint16Array | Int16Array | Uint32Array | Int32Array => true
  | _ => false
  end.

(** [Mesh.prototype.createVertexBuffer] *)
Definition createVertexBuffer (name : string) (attribute : option string)
    (buffer_spacing : option num) (buffer_data : Data) (stream_type : option Usage)
  : M St Buffer.t :=
  let common := obj_get common_buffers name in
  let attribute :=
    match common with
    | Some c => if string_truthy attribute then attribute else Some (si_attribute c)
    | None => attribute
    end in
  if negb (string_truthy attribute)
  then throw (Thrown "Buffer added to mesh without attribute name")
  else
    let buffer_spacing :=
      match common with
      | Some c =>
          if num_truthy buffer_spacing then buffer_spacing
          else if negb (si_spacing c =? 0) then Some (Int (si_spacing c))
          else Some (Int 3)
      | None => buffer_spacing
      end in
    buffer_data <-
      match buffer_data with
      | NoData =>
          num <- getNumVertices;;
          if negb (JS.truthy num)
          then throw (Thrown "Cannot create an empty buffer in a mesh without vertices (vertices are needed to know the size)")
          else
            match JS.to_index (num * JS.of_undefined buffer_spacing)%js with
            | Some n => ret (Typed (TA.zeros default_datatype n))
            | None => throw RangeError
            end
      | d => ret d
      end;;
    match buffer_data with
    | Typed a =>
        m <- this;;
        buffer <- Buffer.new (Some ARRAY_BUFFER) buffer_data buffer_spacing stream_type
                    (gl_arg m);;
        let buffer := Buffer.set_attribute attribute (Buffer.set_name (Some name) buffer) in
        let buffer :=
          if is_integer_kind (TA.kind a)
             && match common with Some c => si_normalize c | None => false end
          then Buffer.set_normalize true buffer else buffer in
        update (fun m => set_vertexBuffers (obj_set (vertexBuffers m) name buffer) m);;;
        ret buffer
    | _ => throw (Thrown "Buffer data MUST be typed array")
    end.

(** [Mesh.prototype.updateVertexBuffer] *)
Definition updateVertexBuffer (name : string) (attribute : option string)
    (buffer_spacing : num) (buffer_data : Data) (stream_type : option Usage)
  : M St unit :=
  m <- this;;
  match obj_get (vertexBuffers m) name with
  | None => log_event (console_log ("buffer not found: " ++ name)%string)
  | Some _ =>
      match data_length buffer_data with
      | None => throw TypeError
      | Some len =>
          if len =? 0 then ret tt
          else
            on_vertex_buffer name
              (Buffer.update (Buffer.set_attribute attribute);;;
               Buffer.update (Buffer.set_spacing buffer_spacing);;;
               Buffer.update (Buffer.set_data buffer_data);;;
               Buffer.upload stream_type)
      end
  end.

(** The width of the indices of a mesh of [num_vertices] vertices, as
    both [addBuffers] and [createIndexBuffer] choose it. *)
Definition index_datatype (num_vertices : num) : ArrayKind :=
  if (num_vertices > Int (256 * 256))%js then Uint32Array else Uint16Array.

(** [Mesh.prototype.createIndexBuffer] *)
Definition createIndexBuffer (name : string) (buffer_data : Data)
    (stream_type : option Usage) : M St Buffer.t :=
  m <- this;;
  buffer_data <-
    match buffer_data with
    | NoData => throw TypeError
    | PlainArray xs =>
        match obj_get (vertexBuffers m) "vertices" with
        | None => ret buffer_data
        | Some vertices =>
            match data_length (Buffer.data vertices) with
            | None => throw TypeError
            | Some len =>
                let num_vertices := (Int len / Int 3)%js in
                ret (Typed (TA.of_list (index_datatype num_vertices) xs))
            end
        end
    | Typed _ => ret buffer_data
    end;;
  buffer <- Buffer.new (Some ELEMENT_ARRAY_BUFFER) buffer_data (Some (Int 0)) stream_type
              (gl_arg m);;
  update (fun m => set_indexBuffers (obj_set (indexBuffers m) name buffer) m);;;
  ret buffer.

(** A value of [vertexbuffers] or [indexbuffers] handed to [addBuffers]. *)
Inductive Payload : Type :=
| p_null                              (* null, undefined *)
| p_buffer (b : Buffer.t)             (* a GL.Buffer *)
| p_typed (a : TypedArray)            (* a typed array *)
| p_numbers (xs : list num)           (* a flat Array of numbers *)
| p_nested (xs : list (list num)).    (* an Array of Arrays of numbers *)

(** The first steps of both loops of [addBuffers] on a payload that is
    not a buffer: [typeof(data[0]) != "number"] selects the linearization,
    which flattens one level; it also turns an empty array of either sort
    into an empty [Array]. *)
Definition linearize (p : Payload) : Data :=
  match p with
  | p_null => NoData
  | p_buffer b => Buffer.data b
  | p_typed a => match TA.elems a with [] => PlainArray [] | _ => Typed a end
  | p_numbers xs => PlainArray xs
  | p_nested xs => PlainArray (concat xs)
  end.

(** Whether the linearization loop runs on a value, and the length it
    counts to. *)
Definition linearized_length (d : Data) (p : Payload) : option Z :=
  match p with
  | p_nested xs => Some (Z.of_nat (List.length xs))
  | _ =>
      match d with
      | PlainArray [] | NoData => Some 0
      | Typed a => match TA.elems a with [] => Some 0 | _ => None end
      | _ => None
      end
  end.

Definition is_buffer (p : Payload) : bool :=
  match p with p_buffer _ => true | _ => false end.

Definition is_null (p : Payload) : bool :=
  match p with p_null => true | _ => false end.

(** The body of the first loop of [addBuffers], for the entry [i]; the
    running [num_vertices] goes in and comes out. *)
Definition addBuffers_vertex (stream_type : option Usage) (num_vertices : num)
    (entry : string * Payload) : M St num :=
  let '(i, p) := entry in
  if is_null p then ret num_vertices
  else
    let data :=
      match p with
      | p_buffer b => Buffer.data b
      | _ => linearize p
      end in
    let stream_info := obj_get common_buffers i in
    match data with
    | NoData => throw TypeError
    | _ =>
        let data :=
          match data with
          | PlainArray xs =>
              let datatype :=
                match stream_info with
                | Some (mkStreamInfo _ _ _ (Some ty)) => ty
                | _ => default_datatype
                end in
              TA.of_list datatype xs
          | Typed a => a
          | NoData => TA.zeros default_datatype 0
          end in
        let num_vertices :=
          if String.eqb i "vertices" then (Int (TA.length data) / Int 3)%js
          else num_vertices in
        let spacing :=
          match stream_info with
          | Some c => if negb (si_spacing c =? 0) then Int (si_spacing c)
                      else (Int (TA.length data) / num_vertices)%js
          | None => (Int (TA.length data) / num_vertices)%js
          end in
        let attribute :=
          match stream_info with
          | Some c => if string_truthy (Some (si_attribute c)) then si_attribute c
                      else ("a_" ++ i)%string
          | None => ("a_" ++ i)%string
          end in
        m <- this;;
        match obj_get (vertexBuffers m) i with
        | Some _ => updateVertexBuffer i (Some attribute) spacing (Typed data) stream_type
        | None =>
            createVertexBuffer i (Some attribute) (Some spacing) (Typed data) stream_type;;;
            ret tt
        end;;;
        ret num_vertices
    end.

(** The body of the second loop.  The linearization loop of this one
    counts with the variable [i] that holds the name, so that after it the
    buffer is stored under the number the loop stopped at. *)
Definition addBuffers_index (num_vertices : num) (entry : string * Payload)
  : M St unit :=
  let '(i, p) := entry in
  if is_null p then ret tt
  else
    let data :=
      match p with
      | p_buffer b => Buffer.data b
      | p_typed a => Typed a
      | p_numbers xs => PlainArray xs
      | p_nested xs => PlainArray (concat xs)
      | p_null => NoData
      end in
    match data with
    | NoData => throw TypeError
    | _ =>
        let '(i, data) :=
          match linearized_length data p with
          | Some len =>
              (pretty (10000 * ((len + 9999) / 10000)),
               match data with
               | Typed _ => PlainArray []
               | d => d
               end)
          | None => (i, data)
          end in
        let data :=
          match data with
          | PlainArray xs => Typed (TA.of_list (index_datatype num_vertices) xs)
          | d => d
          end in
        createIndexBuffer i data None;;;
        ret tt
    end.

Fixpoint fold_M {S A B} (f : A -> B -> M S A) (xs : list B) (a : A) : M S A :=
  match xs with
  | [] => ret a
  | x :: xs' => a' <- f a x;; fold_M f xs' a'
  end.

(** [Mesh.prototype.addBuffers] *)
Definition addBuffers (vertexbuffers indexbuffers : Obj Payload)
    (stream_type : option Usage) : M St unit :=
  m <- this;;
  num_vertices <-
    match obj_get (vertexBuffers m) "vertices" with
    | None => ret (Int 0)
    | Some b =>
        match data_length (Buffer.data b) with
        | None => throw TypeError
        | Some len => ret (Int len / Int 3)%js
        end
    end;;
  num_vertices <- fold_M (addBuffers_vertex stream_type) vertexbuffers num_vertices;;
  for_each indexbuffers (addBuffers_index num_vertices).


(** [linearizeArray(array)] on an [Array] of vectors, with no class
    given: a [Float32Array] of the components, as many per vector as the
    first vector has. *)
Definition linearizeArray {S} (array : list (list num)) : M S TypedArray :=
  match array with
  | [] => throw TypeError
  | first :: _ =>
      let components := List.length first in
      ret (TA.of_list Float32Array
             (concat (map (fun row =>
                             map (fun j => JS.of_undefined (row !! j)) (seq 0 components))
                          array)))
  end.

(** The typed array a variable holds, where the code calls a typed-array
    method on it. *)
Definition typed {S} (d : Data) : M S TypedArray :=
  match d with
  | Typed a => ret a
  | _ => throw TypeError
  end.

(** ** computeIndices *)

Record Welding : Type := mkWelding {
  new_vertices : list (list num);
  new_normals : list (list num);
  new_coords : list (list num);
  indices : list num;
  indexer : gmap Z (list Z)
}.

(** The three components of a vector held as the elements of a view. *)
Definition vec3_of (v : list num) : vec3.t :=
  (JS.of_undefined (v !! 0%nat), JS.of_undefined (v !! 1%nat), JS.of_undefined (v !! 2%nat)).

Definition weld_threshold : num := Flt 0.01.

(** The search of [computeIndices] among the candidates of a bucket,
    from position [j] on: the position it stops at, which is the length
    of the bucket when no candidate is near. [None] is the [TypeError] of
    a candidate that is no vertex. *)
Fixpoint find_candidate (new_vertices : list (list num)) (v : list num)
    (candidates : list Z) (j : Z) : option Z :=
  match candidates with
  | [] => Some j
  | c :: rest =>
      match new_vertices !! Z.to_nat c with
      | None => None
      | Some v2 =>
          if (vec3.squaredDistance (vec3_of v) (vec3_of v2) < weld_threshold)%js
          then Some j
          else find_candidate new_vertices v rest (j + 1)
      end
  end.

(** [old_data.subarray(i*n, (i+1)*n)], as the vector it shows. *)
Definition vector_at {S} (old_data : Data) (i n : Z) : M S (list num) :=
  a <- typed old_data;;
  ret (TA.view_elems a (TA.subarray a (Int (i * n)) (Int ((i + 1) * n)))).

(** [(v[0] * 1000)|0]: the key of the bucket of a vertex. *)
Definition bucket_key (v : list num) : Z :=
  JS.ToInt32 (JS.of_undefined (v !! 0%nat) * Int 1000)%js.

(** [if(old_data) rows.push( old_data.subarray(i*n, (i+1)*n) )] *)
Definition push_vector {S} (old_data : Data) (i n : Z) (rows : list (list num))
  : M S (list (list num)) :=
  match old_data with
  | NoData => ret rows
  | d => v <- vector_at d i n;; ret (rows ++ [v])
  end.

(** The body of the loop of [computeIndices] for the vertex [i]. *)
Definition computeIndices_step (old_vertices_data old_normals_data old_coords_data : Data)
    (st : Welding) (i : Z) : M St Welding :=
  v <- vector_at old_vertices_data i 3;;
  let key := bucket_key v in
  let candidates := indexer st !! key in
  j <- match candidates with
       | Some cs =>
           match find_candidate (new_vertices st) v cs 0 with
           | Some j => ret j
           | None => throw TypeError
           end
       | None => ret 0
       end;;
  let welded :=
    match candidates with
    | Some cs => negb (j =? Z.of_nat (List.length cs))
    | None => false
    end in
  if welded
  then (* indices.push(j) in the search, then continue *)
    ret (mkWelding (new_vertices st) (new_normals st) (new_coords st)
                   (indices st ++ [Int j]) (indexer st))
  else
    let index := j in
    let bucket := match candidates with Some cs => cs ++ [index] | None => [index] end in
    ns <- push_vector old_normals_data i 3 (new_normals st);;
    cs <- push_vector old_coords_data i 2 (new_coords st);;
    ret (mkWelding (new_vertices st ++ [v]) ns cs (indices st ++ [Int index])
                   (<[key := bucket]> (indexer st))).

(** The data of the buffer [name], when the buffer is there and holds
    some. *)
Definition buffer_data (o : Obj Buffer.t) (name : string) : Data :=
  match obj_get o name with
  | Some b => Buffer.data b
  | None => NoData
  end.

(** The values [i] of a loop [for (i = 0; i < l; ++i)], [l] at most
    [bound]. *)
Definition loop_below (l : num) (bound : Z) : list Z :=
  filter (fun i => (Int i < l)%js = true) (count_up 0 bound 1).

(** [if(old_data) this.createVertexBuffer(name, attribute, spacing,
    linearizeArray(rows))] *)
Definition create_stream (old_data : Data) (name attribute : string) (spacing : Z)
    (rows : list (list num)) : M St unit :=
  match old_data with
  | NoData => ret tt
  | _ =>
      a <- linearizeArray rows;;
      createVertexBuffer name (Some attribute) (Some (Int spacing)) (Typed a) None;;;
      ret tt
  end.

(** [Mesh.prototype.computeIndices] *)
Definition computeIndices : M St unit :=
  m <- this;;
  match obj_get (vertexBuffers m) "vertices" with
  | None => throw TypeError
  | Some old_vertices_buffer =>
      let old_normals := buffer_data (vertexBuffers m) "normals" in
      let old_coords := buffer_data (vertexBuffers m) "coords" in
      let old_vertices_data := Buffer.data old_vertices_buffer in
      match data_length old_vertices_data with
      | None => throw TypeError
      | Some len =>
          let l := (Int len / Int 3)%js in
          st <- fold_M (computeIndices_step old_vertices_data old_normals old_coords)
                       (loop_below l len)
                       (mkWelding [] [] [] [] ∅);;
          update (set_vertexBuffers []);;;
          vs <- linearizeArray (new_vertices st);;
          createVertexBuffer "vertices" (Some "a_vertex") (Some (Int 3)) (Typed vs) None;;;
          create_stream old_normals "normals" "a_normal" 3 (new_normals st);;;
          create_stream old_coords "coords" "a_coord" 2 (new_coords st);;;
          createIndexBuffer "triangles" (PlainArray (indices st)) None;;;
          ret tt
      end
  end.

(** ** computeNormals *)

(** [vec3.normalize(v, v)] on a [Float32Array] of three elements. *)
Definition normalize_f32 (v : vec3.t) : vec3.t :=
  match vec3.normalize v with
  | Some u => vec3.f32 u
  | None => v
  end.

(** [vec3.normalize(n, n)] on a view of [a]. *)
Definition normalize_view (a : TypedArray) (n : View) : TypedArray :=
  match vec3.normalize (vec3.read a n) with
  | Some u => vec3.write a n u
  | None => a
  end.

(** [vec3.add(n, n, temp)] on a view of [a]. *)
Definition add_to_view (a : TypedArray) (n : View) (temp : vec3.t) : TypedArray :=
  vec3.write a n (vec3.add (vec3.read a n) temp).

(** [x.subarray(i, i + 3)] *)
Definition triple_at (x : TypedArray) (i : num) : View :=
  TA.subarray x i (i + Int 3)%js.

(** Where the three corners of the triangle of the iteration [a] start in
    the arrays of vectors: [i1*3, i2*3, i3*3] with the indices read from
    [triangles], or [a*3, a*3+3, a*3+6] without them. *)
Definition corners (triangles : option (list num)) (a : Z) : num * num * num :=
  match triangles with
  | Some t =>
      let i1 := JS.of_undefined (t !! Z.to_nat a) in
      let i2 := JS.of_undefined (t !! Z.to_nat (a + 1)) in
      let i3 := JS.of_undefined (t !! Z.to_nat (a + 2)) in
      (i1 * Int 3, i2 * Int 3, i3 * Int 3)%js
  | None => (Int (a * 3), Int (a * 3 + 3), Int (a * 3 + 6))
  end.

(** The normal of the plane of a triangle, as the loop of
    [computeNormals] leaves it in [temp]. *)
Definition plane_normal (v1 v2 v3 : vec3.t) : vec3.t :=
  let temp := vec3.f32 (vec3.subtract v2 v1) in
  let temp2 := vec3.f32 (vec3.subtract v3 v1) in
  let temp := vec3.f32 (vec3.cross temp temp2) in
  normalize_f32 temp.

(** The body of the first loop of [computeNormals]. *)
Definition computeNormals_step {S} (triangles : option (list num)) (vertices : Data)
    (normals : TypedArray) (a : Z) : M S TypedArray :=
  vs <- typed vertices;;
  let '(c1, c2, c3) := corners triangles a in
  let v1 := vec3.read vs (triple_at vs c1) in
  let v2 := vec3.read vs (triple_at vs c2) in
  let v3 := vec3.read vs (triple_at vs c3) in
  let n1 := triple_at normals c1 in
  let n2 := triple_at normals c2 in
  let n3 := triple_at normals c3 in
  let temp := plane_normal v1 v2 v3 in
  let normals := add_to_view normals n1 temp in
  let normals := add_to_view normals n2 temp in
  let normals := add_to_view normals n3 temp in
  ret normals.

(** The elements of the data of an index buffer, or nothing when it has
    no data. *)
Definition index_values (d : Data) : option (list num) :=
  match d with
  | NoData => None
  | PlainArray xs => Some xs
  | Typed a => Some (TA.elems a)
  end.

(** The array of normals [computeNormals] builds from the vertices and
    the triangles. *)
Definition computeNormals_array {S} (vertices : Data) (len : Z)
    (triangles : option (list num)) : M S TypedArray :=
  let normals := TA.zeros Float32Array (Z.to_nat len) in
  let l := match triangles with
           | Some t => Z.of_nat (List.length t)
           | None => len
           end in
  normals <- fold_M (computeNormals_step triangles vertices) (count_up 0 l 3) normals;;
  match triangles with
  | Some _ =>
      ret (fold_left (fun normals a =>
                        normalize_view normals (TA.subarray normals (Int a) (Int (a + 3))))
                     (count_up 0 (TA.length normals) 3) normals)
  | None => ret normals
  end.

(** [Mesh.prototype.computeNormals] *)
Definition computeNormals (stream_type : option Usage) : M St (option Buffer.t) :=
  m <- this;;
  match obj_get (vertexBuffers m) "vertices" with
  | None =>
      log_event (console_error "Cannot compute normals of a mesh without vertices");;;
      ret None
  | Some vertices_buffer =>
      let vertices := Buffer.data vertices_buffer in
      match data_length vertices with
      | None => throw TypeError
      | Some len =>
          let triangles :=
            match obj_get (indexBuffers m) "triangles" with
            | Some b => index_values (Buffer.data b)
            | None => None
            end in
          normals <- computeNormals_array vertices len triangles;;
          match obj_get (vertexBuffers m) "normals" with
          | Some _ =>
              on_vertex_buffer "normals"
                (Buffer.update (Buffer.set_data (Typed normals));;;
                 Buffer.upload stream_type;;;
                 b <- Buffer.this;;
                 ret (Some b))
          | None =>
              b <- createVertexBuffer "normals" (Some "a_normal") (Some (Int 3))
                     (Typed normals) None;;
              ret (Some b)
          end
      end
  end.

(** ** computeTangents *)

Record Tangents : Type := mkTangents {
  tan1 : TypedArray;     (* tan2 is the view [tan2_view] of it *)
  tangents : TypedArray
}.

(** [w[0]] and [w[1]] of a view on the texture coordinates. *)
Definition read2 (a : TypedArray) (v : View) : num * num :=
  (JS.of_undefined (TA.view_get a v 0), JS.of_undefined (TA.view_get a v 1)).

(** The body of the first loop of [computeTangents]. *)
Definition computeTangents_step {S} (vertices uvs : Data) (triangles : list num)
    (tan2 : View) (tan1 : TypedArray) (a : Z) : M S TypedArray :=
  let i1 := JS.of_undefined (triangles !! Z.to_nat a) in
  let i2 := JS.of_undefined (triangles !! Z.to_nat (a + 1)) in
  let i3 := JS.of_undefined (triangles !! Z.to_nat (a + 2)) in
  vs <- typed vertices;;
  let '(v1x, v1y, v1z) := vec3.read vs (triple_at vs (i1 * Int 3)%js) in
  let '(v2x, v2y, v2z) := vec3.read vs (triple_at vs (i2 * Int 3)%js) in
  let '(v3x, v3y, v3z) := vec3.read vs (triple_at vs (i3 * Int 3)%js) in
  ws <- typed uvs;;
  let pair_at i := read2 ws (TA.subarray ws (i * Int 2)%js (i * Int 2 + Int 2)%js) in
  let '(w1s, w1t) := pair_at i1 in
  let '(w2s, w2t) := pair_at i2 in
  let '(w3s, w3t) := pair_at i3 in
  let x1 := (v2x - v1x)%js in
  let x2 := (v3x - v1x)%js in
  let y1 := (v2y - v1y)%js in
  let y2 := (v3y - v1y)%js in
  let z1 := (v2z - v1z)%js in
  let z2 := (v3z - v1z)%js in
  let s1 := (w2s - w1s)%js in
  let s2 := (w3s - w1s)%js in
  let t1 := (w2t - w1t)%js in
  let t2 := (w3t - w1t)%js in
  let den := (s1 * t2 - s2 * t1)%js in
  let r := if (JS.abs den < Flt 0.000000001)%js then Flt 0 else (Flt 1 / den)%js in
  let sdir := vec3.f32 ((t2 * x1 - t1 * x2) * r, (t2 * y1 - t1 * y2) * r,
                        (t2 * z1 - t1 * z2) * r)%js in
  let tdir := vec3.f32 ((s1 * x2 - s2 * x1) * r, (s1 * y2 - s2 * y1) * r,
                        (s1 * z2 - s2 * z1) * r)%js in
  let whole := TA.mkView 0 (TA.length tan1) in
  let in1 i := TA.subview whole (i * Int 3)%js (i * Int 3 + Int 3)%js in
  let in2 i := TA.subview tan2 (i * Int 3)%js (i * Int 3 + Int 3)%js in
  let tan1 := add_to_view tan1 (in1 i1) sdir in
  let tan1 := add_to_view tan1 (in1 i2) sdir in
  let tan1 := add_to_view tan1 (in1 i3) sdir in
  let tan1 := add_to_view tan1 (in2 i1) tdir in
  let tan1 := add_to_view tan1 (in2 i2) tdir in
  let tan1 := add_to_view tan1 (in2 i3) tdir in
  ret tan1.

(** The body of the second loop of [computeTangents]. *)
Definition computeTangents_vertex {S} (normals : Data) (tan1 : TypedArray) (tan2 : View)
    (tangents : TypedArray) (a : Z) : M S TypedArray :=
  ns <- typed normals;;
  let n := vec3.read ns (TA.subarray ns (Int a) (Int (a + 3))) in
  let t := vec3.read tan1 (TA.subarray tan1 (Int a) (Int (a + 3))) in
  (* Gram-Schmidt orthogonalize *)
  let temp := vec3.f32 (vec3.scale n (vec3.dot n t)) in
  let temp := vec3.f32 (vec3.subtract t temp) in
  let temp := normalize_f32 temp in
  (* Calculate handedness *)
  let temp2 := vec3.f32 (vec3.cross n t) in
  let w := if (vec3.dot temp2 (vec3.read tan1 (TA.subview tan2 (Int a) (Int (a + 3))))
               < Flt 0)%js
           then Flt (-1) else Flt 1 in
  let '(t0, t1, t2) := temp in
  match TA.set_from tangents [t0; t1; t2; w] (JS.trunc (Int a / Int 3 * Int 4)%js) with
  | Some tangents => ret tangents
  | None => throw RangeError
  end.

(** [new Float32Array(n)] *)
Definition new_Float32Array {S} (n : num) : M S TypedArray :=
  match JS.to_index n with
  | Some k => ret (TA.zeros Float32Array k)
  | None => throw RangeError
  end.

(** [Mesh.prototype.computeTangents] *)
Definition computeTangents : M St unit :=
  m <- this;;
  match obj_get (vertexBuffers m) "vertices" with
  | None => log_event (console_error "Cannot compute tangents of a mesh without vertices")
  | Some vertices_buffer =>
  match obj_get (vertexBuffers m) "normals" with
  | None => log_event (console_error "Cannot compute tangents of a mesh without normals")
  | Some normals_buffer =>
  match obj_get (vertexBuffers m) "coords" with
  | None => log_event (console_error "Cannot compute tangents of a mesh without uvs")
  | Some uvs_buffer =>
  match obj_get (indexBuffers m) "triangles" with
  | None => log_event (console_error "Cannot compute tangents of a mesh without indices")
  | Some triangles_buffer =>
      let vertices := Buffer.data vertices_buffer in
      let normals := Buffer.data normals_buffer in
      let uvs := Buffer.data uvs_buffer in
      match data_length vertices, data_length normals, data_length uvs with
      | Some len, Some _, Some _ =>
          let num_vertices := (Int len / Int 3)%js in
          tangents <- new_Float32Array (num_vertices * Int 4)%js;;
          tan1 <- new_Float32Array (num_vertices * Int 3 * Int 2)%js;;
          let tan2 := TA.subarray tan1 (num_vertices * Int 3)%js (Int (TA.length tan1)) in
          match index_values (Buffer.data triangles_buffer) with
          | None => throw TypeError
          | Some triangles =>
              tan1 <- fold_M (computeTangents_step vertices uvs triangles tan2)
                        (count_up 0 (Z.of_nat (List.length triangles)) 3) tan1;;
              tangents <- fold_M (computeTangents_vertex normals tan1 tan2)
                            (count_up 0 len 3) tangents;;
              createVertexBuffer "tangents" (Some "a_tangent") (Some (Int 4))
                (Typed tangents) None;;;
              ret tt
          end
      | _, _, _ => ret tt
      end
  end end end end.


(** ** computeBoundingBox *)

Section BoundingBox.

(** The bounding-box format [BBox] is defined outside [mesh.js]; the
    function below only creates one and hands the center and the half
    size it computed to [BBox.setCenterHalfsize]. *)
Context {BBox : Type}.
Variable BBox_create : BBox.
Variable BBox_setCenterHalfsize : BBox -> vec3.t -> vec3.t -> BBox.

(** The first loop over the mask: the index of the first marked vertex,
    [0] when there is none. *)
Fixpoint first_marked (mask : list num) (i : Z) : Z :=
  match mask with
  | [] => 0
  | x :: rest => if JS.truthy x then i else first_marked rest (i + 1)
  end.

(** [mask && !mask[i/3]] *)
Definition masked_out (mask : option (list num)) (i : Z) : bool :=
  match mask with
  | None => false
  | Some marks =>
      match marks !! Z.to_nat (i / 3) with
      | Some x => negb (JS.truthy x)
      | None => true
      end
  end.

(** The reduction: [min] and [max] after the loop over the vertices. *)
Definition reduce_min_max (vertices : TypedArray) (mask : option (list num)) (start : Z)
  : vec3.t * vec3.t :=
  let first := vec3.f32 (vec3.read vertices (triple_at vertices (Int (start * 3)))) in
  fold_left
    (fun '(min, max) i =>
       if masked_out mask i then (min, max)
       else
         let v := vec3.read vertices (TA.subarray vertices (Int i) (Int (i + 3))) in
         (vec3.f32 (vec3.min v min), vec3.f32 (vec3.max v max)))
    (count_up (start * 3) (TA.length vertices) 3)
    (first, first).

(** The vertex the reduction starts from, and the test
    [start == mask.length] that gives up on a mask. *)
Definition mask_start (mask : option (list num)) : Z :=
  match mask with
  | Some marks => first_marked marks 0
  | None => 0
  end.

Definition mask_rejected (mask : option (list num)) : bool :=
  match mask with
  | Some marks => mask_start mask =? Z.of_nat (List.length marks)
  | None => false
  end.

Definition has_NaN (v : vec3.t) : bool :=
  let '(x, y, z) := v in JS.isNaN x || JS.isNaN y || JS.isNaN z.

Definition NaN_warning : string := "Warning: GL.Mesh has NaN values in vertices".

(** [Mesh.computeBoundingBox]; [None] is the [undefined] of a bare
    [return]. *)
Definition computeBoundingBox (vertices : Data) (bb : option BBox)
    (mask : option (list num)) : M World (option BBox) :=
  match vertices with
  | NoData => ret None
  | _ =>
      let start := mask_start mask in
      let empty_mask := mask_rejected mask in
      if empty_mask then
        log_event (console_warn "mask contains only zeros, no vertices marked");;;
        ret None
      else
        vs <- typed vertices;;
        let '(min, max) := reduce_min_max vs mask start in
        reduced <-
          (if has_NaN min || has_NaN max then
             log_event (console_warn NaN_warning);;;
             ret (vec3.create, vec3.create)
           else ret (min, max));;
        let '(min, max) := reduced in
        let center := vec3.f32 (vec3.add min max) in
        let center := vec3.f32 (vec3.scale center (Flt 0.5)) in
        let half_size := vec3.f32 (vec3.subtract max center) in
        ret (Some (BBox_setCenterHalfsize (default BBox_create bb) center half_size))
  end.

End BoundingBox.

(** ** mergeMeshes *)

(** An element of the array given to [mergeMeshes]: the mesh, and the
    matrices given for its buffers under the names [<buffer>_matrix]. *)
Record MeshInfo : Type := mkMeshInfo {
  mi_mesh : t;
  mi_matrices : Obj (list num)
}.

(** What the first loop of [mergeMeshes] accumulates. *)
Record Sizes : Type := mkSizes {
  vertex_sizes : Obj num;          (* vertex_buffers, while it holds lengths *)
  index_sizes : Obj num;           (* index_buffers, while it holds lengths *)
  vertex_offsets : list num;
  current_vertex_offset : num;
  merged_groups : list Group;
  merged_bones : list Bone;
  bones_by_index : Obj num
}.

(** [if(!o[j]) o[j] = len; else o[j] += len;] *)
Definition add_size (o : Obj num) (j : string) (len : Z) : Obj num :=
  match obj_get o j with
  | Some n => if JS.truthy n then obj_set o j (n + Int len)%js else obj_set o j (Int len)
  | None => obj_set o j (Int len)
  end.

Definition add_sizes {S} (o : Obj num) (buffers : Obj Buffer.t) : M S (Obj num) :=
  fold_M (fun o '(j, b) =>
            match data_length (Buffer.data b) with
            | Some len => ret (add_size o j len)
            | None => throw TypeError
            end)
         buffers o.

(** The loop over [mesh.bones]: the merged bones, their indices by name,
    and [prev_bones_by_index] as the list of its values. *)
Definition add_bones (mesh_bones : list Bone) (bones : list Bone) (by_index : Obj num)
  : list Bone * Obj num * list num :=
  fold_left
    (fun '(bones, by_index, prev) b =>
       let '(bones, by_index) :=
         match obj_get by_index (fst b) with
         | Some n =>
             if JS.truthy n then (bones, by_index)
             else (bones ++ [b], obj_set by_index (fst b) (Int (Z.of_nat (List.length bones))))
         | None =>
             (bones ++ [b], obj_set by_index (fst b) (Int (Z.of_nat (List.length bones))))
         end in
       (bones, by_index, prev ++ [default (Int 0) (obj_get by_index (fst b))]))
    mesh_bones (bones, by_index, []).

(** [bones_buffer[j] = prev_bones_by_index[ bones_buffer[j] ]] for every
    [j]. *)
Definition remap_bones (prev : list num) (bones_buffer : Data) : Data :=
  let remap x :=
    JS.of_undefined (match JS.as_index x with
                     | Some k => prev !! k
                     | None => None
                     end) in
  match bones_buffer with
  | Typed a => Typed (TA.of_list (TA.kind a) (map remap (TA.elems a)))
  | PlainArray xs => PlainArray (map remap xs)
  | NoData => NoData
  end.

Definition no_bones_msg : string :=
  "cannot merge meshes, one contains bones, the other doesnt".

(** The body of the first loop of [mergeMeshes], for the mesh [i]; the
    state is the array of meshes, since the bone indices of a skinned
    mesh are rewritten in place. *)
Definition mergeMeshes_size (acc : Sizes) (i : nat) : M (list MeshInfo) Sizes :=
  meshes <- get;;
  match meshes !! i with
  | None => throw TypeError
  | Some mesh_info =>
      let mesh := mi_mesh mesh_info in
      let offset := current_vertex_offset acc in
      match obj_get (vertexBuffers mesh) "vertices" with
      | None => throw TypeError
      | Some vertices =>
          match data_length (Buffer.data vertices) with
          | None => throw TypeError
          | Some len =>
              let length := (Int len / Int 3)%js in
              vsizes <- add_sizes (vertex_sizes acc) (vertexBuffers mesh);;
              isizes <- add_sizes (index_sizes acc) (indexBuffers mesh);;
              let group := mkGroup ("mesh_" ++ pretty (Z.of_nat i))%string offset length EmptyString in
              skin <-
                match Mesh.bones mesh with
                | Some mesh_bones =>
                    let '(bones, by_index, prev) :=
                      add_bones mesh_bones (merged_bones acc) (bones_by_index acc) in
                    match obj_get (vertexBuffers mesh) "bone_indices" with
                    | None => throw TypeError
                    | Some bone_indices =>
                        match Buffer.data bone_indices with
                        | NoData => throw TypeError
                        | d =>
                            let bone_indices := Buffer.set_data (remap_bones prev d) bone_indices in
                            let mesh :=
                              set_vertexBuffers
                                (obj_set (vertexBuffers mesh) "bone_indices" bone_indices) mesh in
                            put (<[i := mkMeshInfo mesh (mi_matrices mesh_info)]> meshes);;;
                            ret (bones, by_index)
                        end
                    end
                | None =>
                    match merged_bones acc with
                    | [] => ret (merged_bones acc, bones_by_index acc)
                    | _ => throw (Thrown no_bones_msg)
                    end
                end;;
              let '(bones, by_index) := skin in
              ret (mkSizes vsizes isizes (vertex_offsets acc ++ [offset])
                           (offset + length)%js
                           (merged_groups acc ++ [group]) bones by_index)
          end
      end
  end.

(** The options of [mergeMeshes]: [only_data], and the typed-array
    constructor given for a buffer name, [Some None] standing for
    [null]. *)
Record Options : Type := mkOptions {
  only_data : bool;
  datatypes : Obj (option ArrayKind)
}.

(** [new datatype(n)] *)
Definition new_array {S} (k : ArrayKind) (n : num) : M S TypedArray :=
  match JS.to_index n with
  | Some len => ret (TA.zeros k len)
  | None => throw RangeError
  end.

(** The loop that allocates the merged vertex buffers; [mesh] is the
    last mesh of the first loop, whose buffers give the kinds. *)
Definition allocate_vertex_buffers {S} (options : Options) (mesh : option t)
    (sizes : Obj num) : M S (Obj TypedArray) :=
  fold_M (fun out '(j, size) =>
            match obj_get (datatypes options) j with
            | Some None => ret out
            | given =>
                let datatype :=
                  match given with
                  | Some (Some k) => k
                  | _ =>
                      match mesh with
                      | Some mesh =>
                          match buffer_data (vertexBuffers mesh) j with
                          | Typed a => TA.kind a
                          | _ => Float32Array
                          end
                      | None => Float32Array
                      end
                  end in
                a <- new_array datatype size;;
                ret (obj_set out j a)
            end)
         sizes [].

(** The index kind [mergeMeshes] chooses. *)
Definition merged_index_datatype (current_vertex_offset : num) : ArrayKind :=
  if (current_vertex_offset < Int (256 * 256))%js then Uint16Array else Uint32Array.

Definition allocate_index_buffers {S} (current_vertex_offset : num) (sizes : Obj num)
  : M S (Obj TypedArray) :=
  fold_M (fun out '(j, size) =>
            a <- new_array (merged_index_datatype current_vertex_offset) size;;
            ret (obj_set out j a))
         sizes [].

Section Transforms.

(** [vec3.transformMat4(v, v, m)] and [vec2.transformMat3(v, v, m)] of
    gl-matrix, on the components of [v]. *)
Variable transformMat4 : list num -> vec3.t -> vec3.t.
Variable transformMat3 : list num -> num * num -> num * num.

(** [apply_transform] *)
Definition apply_transform (array : TypedArray) (start length : Z) (matrix : list num)
  : TypedArray :=
  fold_left (fun array i =>
               let v := TA.subarray array (Int i) (Int (i + 3)) in
               vec3.write array v (transformMat4 matrix (vec3.read array v)))
            (count_up start (start + length) 3) array.

(** [apply_transform2D] *)
Definition apply_transform2D (array : TypedArray) (start length : Z) (matrix : list num)
  : TypedArray :=
  fold_left (fun array i =>
               let v := TA.subarray array (Int i) (Int (i + 2)) in
               let '(x, y) := transformMat3 matrix (read2 array v) in
               TA.view_set (TA.view_set array v 0 x) v 1 y)
            (count_up start (start + length) 2) array.

(** [apply_offset] *)
Definition apply_offset (array : TypedArray) (start length : Z) (offset : option num)
  : TypedArray :=
  match offset with
  | None => array
  | Some offset =>
      if negb (JS.truthy offset) then array
      else
        fold_left (fun array i =>
                     TA.set array i (JS.of_undefined (TA.get array i) + offset)%js)
                  (count_up start (start + length) 1) array
  end.

(** The merged buffers while the last loop fills them. *)
Record Store : Type := mkStore {
  vertex_buffers : Obj TypedArray;
  index_buffers : Obj TypedArray;
  offsets : Obj Z
}.

Definition data_elems (d : Data) : list num :=
  match d with
  | NoData => []
  | PlainArray xs => xs
  | Typed a => TA.elems a
  end.

(** The body of the inner loop of the last loop over the vertex buffers
    of a mesh. *)
Definition store_vertex_buffer {S} (mesh_info : MeshInfo) (st : Store)
    (entry : string * Buffer.t) : M S Store :=
  let '(j, b) := entry in
  match obj_get (vertex_buffers st) j with
  | None => ret st
  | Some out =>
      let data := Buffer.data b in
      match data_length data, obj_get (offsets st) j with
      | Some len, Some off =>
          match TA.set_from out (data_elems data) off with
          | None => throw RangeError
          | Some out =>
              let out :=
                match obj_get (mi_matrices mesh_info) (j ++ "_matrix")%string with
                | Some matrix =>
                    if Z.of_nat (List.length matrix) =? 16
                    then apply_transform out off len matrix
                    else if Z.of_nat (List.length matrix) =? 9
                    then apply_transform2D out off len matrix
                    else out
                | None => out
                end in
              ret (mkStore (obj_set (vertex_buffers st) j out) (index_buffers st)
                           (obj_set (offsets st) j (off + len)))
          end
      | _, _ => throw TypeError
      end
  end.

(** The same for the index buffers of a mesh. *)
Definition store_index_buffer {S} (vertex_offset : option num) (st : Store)
    (entry : string * Buffer.t) : M S Store :=
  let '(j, b) := entry in
  let data := Buffer.data b in
  match obj_get (index_buffers st) j, data_length data, obj_get (offsets st) j with
  | Some out, Some len, Some off =>
      match TA.set_from out (data_elems data) off with
      | None => throw RangeError
      | Some out =>
          let out := apply_offset out off len vertex_offset in
          ret (mkStore (vertex_buffers st) (obj_set (index_buffers st) j out)
                       (obj_set (offsets st) j (off + len)))
      end
  | _, _, _ => throw TypeError
  end.

(** The body of the last loop of [mergeMeshes], for the mesh [i]. *)
Definition mergeMeshes_store {S} (vertex_offsets : list num) (st : Store)
    (entry : nat * MeshInfo) : M S Store :=
  let '(i, mesh_info) := entry in
  let mesh := mi_mesh mesh_info in
  st <- fold_M (store_vertex_buffer mesh_info) (vertexBuffers mesh) st;;
  fold_M (store_index_buffer (vertex_offsets !! i)) (indexBuffers mesh) st.

(** What [mergeMeshes] has built when it reaches its [return]. *)
Record Merged : Type := mkMerged {
  m_vertexBuffers : Obj TypedArray;
  m_indexBuffers : Obj TypedArray;
  m_groups : list Group;
  m_bones : list Bone
}.

(** [Mesh.mergeMeshes], up to its [return]: with [options.only_data] the
    function returns these buffers and groups as they are, and without it
    it hands them to [new GL.Mesh].  The state is the array of source
    meshes. *)
Definition mergeMeshes (options : Options) : M (list MeshInfo) Merged :=
  meshes <- get;;
  sizes <- fold_M mergeMeshes_size (seq 0 (List.length meshes))
             (mkSizes [] [] [] (Int 0) [] [] []);;
  meshes <- get;;
  vbs <- allocate_vertex_buffers options (option_map mi_mesh (last meshes))
           (vertex_sizes sizes);;
  ibs <- allocate_index_buffers (current_vertex_offset sizes) (index_sizes sizes);;
  let offsets := map (fun j => (j, 0)) (obj_keys vbs) in
  let offsets := fold_left (fun o j => obj_set o j 0) (obj_keys ibs) offsets in
  st <- fold_M (mergeMeshes_store (vertex_offsets sizes))
          (imap (fun i mesh_info => (i, mesh_info)) meshes)
          (mkStore vbs ibs offsets);;
  ret (mkMerged (vertex_buffers st) (index_buffers st) (merged_groups sizes)
                (merged_bones sizes)).

End Transforms.

(** ** The buffers of a mesh, one by one *)

(** Call a method of the index buffer [name]. *)
Definition on_index_buffer {A} (name : string) (m : M Buffer.St A) : M St A :=
  fun s =>
    match obj_get (indexBuffers (fst s)) name with
    | None => (Throw TypeError, s)
    | Some b =>
        match m (b, snd s) with
        | (r, (b', w')) =>
            (r, (set_indexBuffers (obj_set (indexBuffers (fst s)) name b') (fst s), w'))
        end
    end.

(** [Mesh.prototype.getVertexBuffer], [getBuffer] and [getIndexBuffer];
    [None] is [undefined]. *)
Definition getVertexBuffer (name : string) : M St (option Buffer.t) :=
  m <- this;; ret (obj_get (vertexBuffers m) name).

Definition getBuffer (name : string) : M St (option Buffer.t) :=
  m <- this;; ret (obj_get (vertexBuffers m) name).

Definition getIndexBuffer (name : string) : M St (option Buffer.t) :=
  m <- this;; ret (obj_get (indexBuffers m) name).

(** [Mesh.prototype.removeVertexBuffer] *)
Definition removeVertexBuffer (name : string) (free : bool) : M St unit :=
  m <- this;;
  match obj_get (vertexBuffers m) name with
  | None => ret tt
  | Some _ =>
      (if free then on_vertex_buffer name Buffer.delete else ret tt);;;
      update (fun m => set_vertexBuffers (obj_delete (vertexBuffers m) name) m)
  end.

(** [Mesh.prototype.removeIndexBuffer] *)
Definition removeIndexBuffer (name : string) (free : bool) : M St unit :=
  m <- this;;
  match obj_get (indexBuffers m) name with
  | None => ret tt
  | Some _ =>
      (if free then on_index_buffer name Buffer.delete else ret tt);;;
      update (fun m => set_indexBuffers (obj_delete (indexBuffers m) name) m)
  end.

(** [Mesh.prototype.upload]: the vertex buffers with the usage given, the
    index buffers without one. *)
Definition upload (buffer_type : option Usage) : M St unit :=
  m <- this;;
  for_each (obj_keys (vertexBuffers m))
    (fun attribute => on_vertex_buffer attribute (Buffer.upload buffer_type));;;
  m <- this;;
  for_each (obj_keys (indexBuffers m))
    (fun name => on_index_buffer name (Buffer.upload None)).


(** [Mesh.prototype.getNumTriangles] *)
Definition getNumTriangles : M St num :=
  m <- this;;
  match obj_get (indexBuffers m) "triangles" with
  | None => n <- getNumVertices;; ret (n / Int 3)%js
  | Some indices_buffer =>
      match data_length (Buffer.data indices_buffer) with
      | None => throw TypeError
      | Some len => ret (Int len / Int 3)%js
      end
  end.

(** ** flipNormals *)

(** [data[i] *= -1] for every [i]. *)
Definition negate_all (d : Data) : Data :=
  match d with
  | NoData => NoData
  | PlainArray xs => PlainArray (map (fun x => (x * Int (-1))%js) xs)
  | Typed a => Typed (TA.of_list (TA.kind a) (map (fun x => (x * Int (-1))%js) (TA.elems a)))
  end.

(** [tmp = data[i]; data[i] = data[i+1]; data[i+1] = tmp] on a typed
    array: an element read past the end is [undefined], and a store past
    the end is dropped. *)
Definition swap_pair (a : TypedArray) (i : Z) : TypedArray :=
  let tmp := TA.get a i in
  let a := TA.set a i (JS.of_undefined (TA.get a (i + 1))) in
  TA.set a (i + 1) (JS.of_undefined tmp).

(** The same on a plain [Array], where a store at the length of the array
    appends.  The [undefined] stored there when [i + 1] is the length is
    kept as [NaN], the number every use of the element converts it to. *)
Definition swap_pair_plain (xs : list num) (i : Z) : list num :=
  let tmp := JS.of_undefined (xs !! Z.to_nat i) in
  let xs := <[Z.to_nat i := JS.of_undefined (xs !! Z.to_nat (i + 1))]> xs in
  if (Z.to_nat (i + 1) <? List.length xs)%nat then <[Z.to_nat (i + 1) := tmp]> xs
  else xs ++ [tmp].

(** The loop that reverses the winding of the triangles. *)
Definition reverse_winding (d : Data) : Data :=
  match d with
  | NoData => NoData
  | PlainArray xs =>
      PlainArray (fold_left swap_pair_plain (count_up 0 (Z.of_nat (List.length xs)) 3) xs)
  | Typed a => Typed (fold_left swap_pair (count_up 0 (TA.length a) 3) a)
  end.

(** [Mesh.prototype.flipNormals] *)
Definition flipNormals (stream_type : option Usage) : M St unit :=
  m <- this;;
  match obj_get (vertexBuffers m) "normals" with
  | None => ret tt
  | Some normals_buffer =>
      match Buffer.data normals_buffer with
      | NoData => throw TypeError
      | data =>
          on_vertex_buffer "normals"
            (Buffer.update (Buffer.set_data (negate_all data));;;
             Buffer.upload stream_type);;;
          m <- this;;
          match obj_get (indexBuffers m) "triangles" with
          | None => computeIndices
          | Some _ => ret tt
          end;;;
          m <- this;;
          match obj_get (indexBuffers m) "triangles" with
          | None => throw TypeError
          | Some triangles_buffer =>
              match Buffer.data triangles_buffer with
              | NoData => throw TypeError
              | data =>
                  on_index_buffer "triangles"
                    (Buffer.update (Buffer.set_data (reverse_winding data));;;
                     Buffer.upload stream_type)
              end
          end
      end
  end.

(** ** explodeIndices *)

(** The first loop of [explodeIndices]: for every vertex buffer of the
    mesh an array of zeros, of the type and with the components per vertex
    that [Mesh.common_buffers] lists for its name. *)
Definition explodeIndices_allocate {S} (len : Z) (buffers : Obj Buffer.t)
  : M S (Obj TypedArray) :=
  fold_M (fun new_buffers '(i, _) =>
            match obj_get common_buffers i with
            | None => throw TypeError
            | Some info =>
                ret (obj_set new_buffers i
                       (TA.zeros (default Float32Array (si_type info))
                          (Z.to_nat (si_spacing info * len))))
            end)
         buffers [].

(** The body of the inner loop, for the index [index] at the position
    [i] and the vertex buffer [j]:
    [new_buffer.set( buffer.data.subarray( index*spacing, index*spacing + spacing ), i*spacing )] *)
Definition explodeIndices_copy {S} (i : Z) (index : num) (new_buffers : Obj TypedArray)
    (entry : string * Buffer.t) : M S (Obj TypedArray) :=
  let '(j, buffer) := entry in
  match obj_get common_buffers j, obj_get new_buffers j with
  | Some info, Some new_buffer =>
      let spacing :=
        if JS.truthy (Buffer.spacing buffer) then Buffer.spacing buffer
        else Int (si_spacing info) in
      data <- typed (Buffer.data buffer);;
      let source :=
        TA.view_elems data
          (TA.subarray data (index * spacing)%js (index * spacing + spacing)%js) in
      match JS.to_index (Int i * spacing)%js with
      | None => throw RangeError
      | Some offset =>
          match TA.set_from new_buffer source (Z.of_nat offset) with
          | Some a => ret (obj_set new_buffers j a)
          | None => throw RangeError
          end
      end
  | _, _ => throw TypeError
  end.

(** [Mesh.prototype.explodeIndices] *)
Definition explodeIndices (buffer_name : option string) : M St unit :=
  let buffer_name :=
    if string_truthy buffer_name then default "triangles" buffer_name else "triangles" in
  m <- this;;
  match obj_get (indexBuffers m) buffer_name with
  | None => ret tt
  | Some indices_buffer =>
      match index_values (Buffer.data indices_buffer) with
      | None => throw TypeError
      | Some indices =>
          new_buffers <-
            explodeIndices_allocate (Z.of_nat (List.length indices)) (vertexBuffers m);;
          new_buffers <-
            fold_M (fun new_buffers '(i, index) =>
                      fold_M (explodeIndices_copy i index) (vertexBuffers m) new_buffers)
                   (imap (fun i index => (Z.of_nat i, index)) indices) new_buffers;;
          for_each new_buffers
            (fun '(i, a) =>
               m <- this;;
               match obj_get (vertexBuffers m) i with
               | None => throw TypeError
               | Some old =>
                   createVertexBuffer i (Buffer.attribute old) (Some (Buffer.spacing old))
                     (Typed a) None;;;
                   ret tt
               end);;;
          update (fun m => set_indexBuffers (obj_delete (indexBuffers m) buffer_name) m)
      end
  end.

(** ** computeWireframe *)

(** The loop of the unindexed case: the three lines of every triplet of
    vertices. The loop counts [i] by 3 while [i < num_vertices], and
    [num_vertices] is at most [len]. *)
Definition wireframe_unindexed {S} (len : Z) (num_vertices : num) : M S TypedArray :=
  let num_triangles := (num_vertices / Int 3)%js in
  match JS.to_index (num_triangles * Int 6)%js with
  | None => throw RangeError
  | Some n =>
      ret (fold_left
             (fun buffer i =>
                let buffer := TA.set buffer (i * 2) (Int i) in
                let buffer := TA.set buffer (i * 2 + 1) (Int (i + 1)) in
                let buffer := TA.set buffer (i * 2 + 2) (Int (i + 1)) in
                let buffer := TA.set buffer (i * 2 + 3) (Int (i + 2)) in
                let buffer := TA.set buffer (i * 2 + 4) (Int (i + 2)) in
                TA.set buffer (i * 2 + 5) (Int i))
             (List.filter (fun i => (Int i < num_vertices)%js) (count_up 0 (len + 1) 3))
             (TA.zeros (index_datatype num_vertices) n))
  end.

Section Wireframe.

(** [JSON.stringify] on the arrays [[min, max]] the indexer is given. *)
Variable JSON_stringify : num * num -> string.

(** The body of the loop of the indexed case, for the triangle at [i]:
    every pair of neighbours of [data.subarray(i, i+3)] goes to the
    indexer, the smaller index first. *)
Definition wireframe_add_triangle (data : TypedArray) (indexer : Indexer.t (num * num))
    (i : Z) : Indexer.t (num * num) :=
  let t := TA.subarray data (Int i) (Int (i + 3)) in
  fold_left
    (fun indexer j =>
       let a := JS.of_undefined (TA.view_get data t j) in
       let b := JS.of_undefined (TA.view_get data t ((j + 1) mod TA.v_len t)) in
       snd (Indexer.add JSON_stringify (JS.min a b, JS.max a b) indexer))
    (count_up 0 (TA.v_len t) 1) indexer.

(** [Mesh.prototype.computeWireframe] *)
Definition computeWireframe : M St unit :=
  m <- this;;
  let index_buffer := obj_get (indexBuffers m) "triangles" in
  match obj_get (vertexBuffers m) "vertices" with
  | None => throw TypeError
  | Some vertices =>
      match data_length (Buffer.data vertices) with
      | None => throw TypeError
      | Some len =>
          let num_vertices := (Int len / Int 3)%js in
          buffer <-
            match index_buffer with
            | None => wireframe_unindexed len num_vertices
            | Some index_buffer =>
                indexer <-
                  match Buffer.data index_buffer with
                  | NoData => throw TypeError
                  | PlainArray [] => ret Indexer.new
                  | PlainArray _ => throw TypeError
                  | Typed data =>
                      ret (fold_left (wireframe_add_triangle data)
                             (count_up 0 (TA.length data) 3) Indexer.new)
                  end;;
                let unique := Indexer.unique indexer in
                fold_M (fun buffer '(i, (a, b)) =>
                          match TA.set_from buffer [a; b] (Z.of_nat i * 2) with
                          | Some buffer => ret buffer
                          | None => throw RangeError
                          end)
                       (imap (fun i obj => (i, obj)) unique)
                       (TA.zeros (index_datatype num_vertices) (List.length unique * 2))
            end;;
          createIndexBuffer "wireframe" (Typed buffer) None;;;
          ret tt
      end
  end.

End Wireframe.

End Mesh.

(* ================================================================= *)
(** * Vocabulary of the statements *)

(** The usage hint [upload] passes to the driver: the argument, else the one
    recorded on the buffer, else [STATIC_DRAW]. *)
Definition upload_usage (st : option Usage) (b : Buffer.t) : Usage :=
  Buffer.or_else st (Buffer.or_else (Buffer.stream_type b) STATIC_DRAW).

(** A buffer of 32-bit integers bound as a vertex attribute. *)
Definition int32_vertex_attribute (b : Buffer.t) (a : TypedArray) : Prop :=
  Buffer.target b = Some ARRAY_BUFFER /\
  (TA.kind a = Int32Array \/ TA.kind a = Uint32Array).

(** The kinds of typed array [upload] has an element type for. *)
Definition supported_kind (k : ArrayKind) : Prop := Buffer.gl_type_of k <> None.

(** The index buffer [addBuffers] stores a flat array of numbers under:
    the name it was given under, and ["0"] for the empty array. *)
Definition index_buffer_name (name : string) (xs : list num) : string :=
  match xs with
  | [] => "0"
  | _ => name
  end.

(** The vector [[0,0,0]]. *)
Definition zero3 : vec3.t := (Flt 0, Flt 0, Flt 0).

(** A world with a live context, before any call. *)
Definition w0 : World := mkWorld true false 0 false [].

(** A buffer that only holds data: no context, no handle, spacing 3. *)
Definition plain_buffer (target : Target) (a : TypedArray) : Buffer.t :=
  Buffer.mk false None (Some target) None false (Typed a) (Int 3) None None.

(** Two meshes of one vertex each, without and with bones. *)
Definition unskinned_mesh : Mesh.t :=
  Mesh.mk false
    [("vertices", plain_buffer ARRAY_BUFFER (TA.of_list Float32Array [Int 0; Int 0; Int 0]))]
    [] [] None.

Definition skinned_mesh : Mesh.t :=
  Mesh.mk false
    [("vertices", plain_buffer ARRAY_BUFFER (TA.of_list Float32Array [Int 1; Int 1; Int 1]));
     ("bone_indices", plain_buffer ARRAY_BUFFER (TA.of_list Uint8Array [Int 0; Int 0; Int 0; Int 0]))]
    [] [] (Some [("root", [])]).

(** The options [{only_data: true}]. *)
Definition only_data_options : Mesh.Options := Mesh.mkOptions true [].

(** The number of vertices [mergeMeshes] counts for one mesh. *)
Definition vertex_count (mesh_info : Mesh.MeshInfo) : num :=
  match obj_get (Mesh.vertexBuffers (Mesh.mi_mesh mesh_info)) "vertices" with
  | Some b =>
      match Mesh.data_length (Buffer.data b) with
      | Some len => (Int len / Int 3)%js
      | None => Int 0
      end
  | None => Int 0
  end.

(** The total of the vertices of the meshes, added up in order. *)
Definition total_vertex_count (meshes : list Mesh.MeshInfo) : num :=
  fold_left (fun total mesh_info => (total + vertex_count mesh_info)%js) meshes (Int 0).

(** Every array of the object is of the kind [k]. *)
Definition all_of_kind (k : ArrayKind) (o : Obj TypedArray) : Prop :=
  forall j a, obj_get o j = Some a -> TA.kind a = k.

(** The diagnostics of the processors on a mesh without positions. *)
Definition no_vertices_for_normals : string :=
  "Cannot compute normals of a mesh without vertices".
Definition no_vertices_for_tangents : string :=
  "Cannot compute tangents of a mesh without vertices".

(** A vertex stream of a mesh holds a typed array, or nothing once its
    data was freed. *)
Definition typed_or_nothing (d : Data) : Prop :=
  match d with
  | PlainArray _ => False
  | _ => True
  end.

(** The three elements from [off] on, and the three stores there. *)
Definition read3 (a : TypedArray) (off : Z) : vec3.t :=
  (JS.of_undefined (TA.get a off), JS.of_undefined (TA.get a (off + 1)),
   JS.of_undefined (TA.get a (off + 2))).

Definition write3 (a : TypedArray) (off : Z) (x : vec3.t) : TypedArray :=
  let '(x0, x1, x2) := x in
  TA.set (TA.set (TA.set a off x0) (off + 1) x1) (off + 2) x2.

Definition coerce3 (k : ArrayKind) (x : vec3.t) : vec3.t :=
  let '(x0, x1, x2) := x in (TA.coerce k x0, TA.coerce k x1, TA.coerce k x2).

(** The vertex [i] of an array of vectors. *)
Definition vertex (a : TypedArray) (i : Z) : vec3.t :=
  vec3.read a (Mesh.triple_at a (Int (3 * i))).

(** The triangles of a mesh without indices: the triplets of consecutive
    vertices at the values the loop of [computeNormals] counts through. *)
Definition unindexed_triangles (len : Z) : list (Z * Z * Z) :=
  map (fun a => (a, a + 1, a + 2)) (count_up 0 len 3).

(** The data of an index buffer that lists the triangles [tris]. *)
Definition index_data (tris : list (Z * Z * Z)) : list num :=
  concat (map (fun '(i1, i2, i3) => [Int i1; Int i2; Int i3]) tris).

(** A corner [i] of a triangle of plane normal [n] adds [n] to the
    accumulator of the vertex [k] when it is that vertex. *)
Definition add_corner (k : Z) (n : vec3.t) (acc : vec3.t) (i : Z) : vec3.t :=
  if i =? k then vec3.f32 (vec3.add acc n) else acc.

(** One triangle, as the loop of [computeNormals] treats it: the unit
    plane normal goes to the accumulator of each of its corners. *)
Definition add_triangle (vs : TypedArray) (k : Z) (acc : vec3.t) (tri : Z * Z * Z)
  : vec3.t :=
  let '(i1, i2, i3) := tri in
  let n := Mesh.plane_normal (vertex vs i1) (vertex vs i2) (vertex vs i3) in
  add_corner k n (add_corner k n (add_corner k n acc i1) i2) i3.

(** The accumulator of the vertex [k] after the triangles [tris]: every
    triangle adds its unit plane normal once per corner at [k]. *)
Definition accumulated_normal (vs : TypedArray) (tris : list (Z * Z * Z)) (k : Z)
  : vec3.t :=
  fold_left (add_triangle vs k) tris vec3.create.

(** The array of normals of a mesh of [n] vertices, while it is filled. *)
Definition normals_array (n : Z) (ns : TypedArray) : Prop :=
  TA.kind ns = Float32Array /\ TA.length ns = 3 * n.

(** The iteration [a] of the loop works on the triangle [tri]. *)
Definition iteration_of (triangles : option (list num)) (a : Z) (tri : Z * Z * Z) : Prop :=
  let '(i1, i2, i3) := tri in
  Mesh.corners triangles a = (Int (3 * i1), Int (3 * i2), Int (3 * i3)) /\
  (0 <= i1 /\ 3 * i1 + 3 <= JS.safe_bound) /\
  (0 <= i2 /\ 3 * i2 + 3 <= JS.safe_bound) /\
  (0 <= i3 /\ 3 * i3 + 3 <= JS.safe_bound).

(** The index buffer only names vertices of a mesh of [n] vertices. *)
Definition in_range (n : Z) (tri : Z * Z * Z) : Prop :=
  let '(i1, i2, i3) := tri in 0 <= i1 < n /\ 0 <= i2 < n /\ 0 <= i3 < n.

(** The cross product of the two edges of a triangle, not normalized. *)
Definition edge_cross (v1 v2 v3 : vec3.t) : vec3.t :=
  vec3.f32 (vec3.cross (vec3.f32 (vec3.subtract v2 v1)) (vec3.f32 (vec3.subtract v3 v1))).

(** One triangle with its cross product left at its length. *)
Definition add_triangle_by_area (vs : TypedArray) (k : Z) (acc : vec3.t) (tri : Z * Z * Z)
  : vec3.t :=
  let '(i1, i2, i3) := tri in
  let n := edge_cross (vertex vs i1) (vertex vs i2) (vertex vs i3) in
  add_corner k n (add_corner k n (add_corner k n acc i1) i2) i3.

(** The normal of the vertex [k] as the specification has it: the
    cross products of its triangles added up, then normalized. *)
Definition area_weighted_normal (vs : TypedArray) (tris : list (Z * Z * Z)) (k : Z)
  : vec3.t :=
  Mesh.normalize_f32 (fold_left (add_triangle_by_area vs k) tris vec3.create).

(** Two triangles of areas 1/2 and 1 that meet at the vertex 0. *)
Definition two_triangles_vertices : TypedArray :=
  TA.of_list Float32Array
    [Int 0; Int 0; Int 0;  Int 1; Int 0; Int 0;  Int 0; Int 1; Int 0;  Int 0; Int 0; Int 2].

Definition two_triangles : list (Z * Z * Z) := [(0, 1, 2); (0, 2, 3)].

Definition two_triangles_mesh : Mesh.t :=
  Mesh.mk false
    [("vertices", plain_buffer ARRAY_BUFFER two_triangles_vertices)]
    [("triangles", plain_buffer ELEMENT_ARRAY_BUFFER
                     (TA.of_list Uint16Array (index_data two_triangles)))]
    [] None.

(** The triangle (0,0,0), (1,0,0), (0,1,0) with its index buffer. *)
Definition one_triangle : Mesh.t :=
  Mesh.mk false
    [("vertices", plain_buffer ARRAY_BUFFER
        (TA.of_list Float32Array
           [Int 0; Int 0; Int 0;  Int 1; Int 0; Int 0;  Int 0; Int 1; Int 0]))]
    [("triangles", plain_buffer ELEMENT_ARRAY_BUFFER
        (TA.of_list Uint16Array [Int 0; Int 1; Int 2]))]
    [] None.

(** A vertex buffer of 32-bit integers bound to a context. *)
Definition int32_buffer : Buffer.t :=
  Buffer.mk true None (Some ARRAY_BUFFER) None false
    (Typed (TA.of_list Int32Array [Int 1; Int 2; Int 3])) (Int 3) None None.

(** The gl-matrix transforms are missing from the source; the identity stands for them
    where a run needs one. *)
Definition keep4 (_ : list num) (v : vec3.t) : vec3.t := v.
Definition keep3 (_ : list num) (v : num * num) : num * num := v.

(** One vertex with a NaN coordinate. *)
Definition nan_vertices : TypedArray := TA.of_list Float32Array [Flt nan; Int 0; Int 0].

(** ** Vocabulary of the further properties *)

(** The data [upload] hands to the driver, and the element type it
    records. *)
Definition uploaded_data (b : Buffer.t) (a : TypedArray) : TypedArray :=
  if bool_decide (Buffer.target b = Some ARRAY_BUFFER)
     && (bool_decide (TA.kind a = Int32Array) || bool_decide (TA.kind a = Uint32Array))
  then TA.of_list Float32Array (TA.elems a) else a.

(** The events of an [upload] that finds a handle on the buffer. *)
Definition upload_events (st : option Usage) (b : Buffer.t) (a : TypedArray) (h : nat)
  : list Event :=
  (if bool_decide (Buffer.target b = Some ARRAY_BUFFER)
      && (bool_decide (TA.kind a = Int32Array) || bool_decide (TA.kind a = Uint32Array))
   then [console_warn Buffer.int32_msg] else [])
  ++ [gl_bindBuffer (Buffer.target b) (Some h);
      gl_bufferData (Buffer.target b) (uploaded_data b a) (upload_usage st b)].

(** The spacing the constructor of a buffer records. *)
Definition spacing_or_3 (spacing : option num) : num :=
  match spacing with
  | Some s => if JS.truthy s then s else Int 3
  | None => Int 3
  end.

(** What the welding loop of [computeIndices] keeps true: the candidates
    of every bucket and the indices emitted so far are positions of kept
    vertices, no bucket is longer than the list of kept vertices, every
    kept vertex has three components, and the optional streams have rows
    as soon as a vertex is kept. *)
Record welding_ok (nd cd : Data) (st : Mesh.Welding) : Prop := mk_welding_ok {
  wo_buckets : forall key cs, Mesh.indexer st !! key = Some cs ->
    Forall (fun c => 0 <= c < Z.of_nat (List.length (Mesh.new_vertices st))) cs /\
    (List.length cs <= List.length (Mesh.new_vertices st))%nat;
  wo_indices : Forall (fun x => exists j, x = Int j /\
                          0 <= j < Z.of_nat (List.length (Mesh.new_vertices st)))
                      (Mesh.indices st);
  wo_rows : Forall (fun r => List.length r = 3%nat) (Mesh.new_vertices st);
  wo_normals : Mesh.new_vertices st <> [] -> nd <> NoData -> Mesh.new_normals st <> [];
  wo_coords : Mesh.new_vertices st <> [] -> cd <> NoData -> Mesh.new_coords st <> []
}.

(** The world after the constructor of a buffer that gets no data. *)
Definition after_new_buffer (w : World) : World :=
  if debug w then emit (console_log "GL.Buffer created") w else w.

(** The world after a list of events. *)
Definition emit_all (es : list Event) (w : World) : World :=
  fold_left (fun w e => emit e w) es w.


(** The corners of the triangle [t] of an index array. *)
Definition corners_of (a : TypedArray) (t : Z) : option num * option num * option num :=
  (TA.get a (3 * t), TA.get a (3 * t + 1), TA.get a (3 * t + 2)).

(** A triangle with its normals. *)
Definition triangle_with_normals : Mesh.t :=
  Mesh.mk false
    [("vertices", plain_buffer ARRAY_BUFFER
        (TA.of_list Float32Array
           [Int 0; Int 0; Int 0;  Int 1; Int 0; Int 0;  Int 0; Int 1; Int 0]));
     ("normals", plain_buffer ARRAY_BUFFER
        (TA.of_list Float32Array
           [Int 0; Int 0; Int 1;  Int 0; Int 0; Int 1;  Int 0; Int 0; Int 1]))]
    [("triangles", plain_buffer ELEMENT_ARRAY_BUFFER
        (TA.of_list Uint16Array [Int 0; Int 1; Int 2]))]
    [] None.

(** The components [explodeIndices] copies for the indices [indices]:
    [spacing] components for each index, from the vertex it names. *)
Definition gathered (spacing : Z) (xs : list num) (indices : list Z) : list num :=
  concat (map (fun j => take (Z.to_nat spacing) (drop (Z.to_nat (j * spacing)) xs)) indices).

(** The array of a stream while [explodeIndices] fills it: the components
    of the indices gone through, and zeros for the [rest] to come. *)
Definition exploding (k : ArrayKind) (spacing : Z) (xs : list num) (done : list Z)
    (rest : nat) : TypedArray :=
  TA.mk k (map (TA.coerce k) (gathered spacing xs done)
           ++ replicate (Z.to_nat spacing * rest) (TA.coerce k (Int 0))).

Definition stream_info (j : string) : Mesh.StreamInfo :=
  default (Mesh.mkStreamInfo 0 EmptyString false None) (obj_get Mesh.common_buffers j).

Definition data_elems (b : Buffer.t) : list num :=
  match Buffer.data b with Typed d => TA.elems d | _ => [] end.

Definition exploding_stream (indices : list Z) (p : nat) (e : string * Buffer.t)
  : string * TypedArray :=
  (e.1, exploding (default Float32Array (Mesh.si_type (stream_info e.1)))
          (Mesh.si_spacing (stream_info e.1)) (data_elems e.2)
          (take p indices) (List.length indices - p)).

(** A vertex buffer [explodeIndices] can go through: a stream of a listed
    name that holds [n] vertices in a typed array, with the spacing of the
    list. *)
Definition explodable (n : Z) (e : string * Buffer.t) : Prop :=
  exists c d,
    obj_get Mesh.common_buffers e.1 = Some c /\
    Buffer.data e.2 = Typed d /\
    Buffer.spacing e.2 = Int (Mesh.si_spacing c) /\
    TA.length d = Mesh.si_spacing c * n.

(** The name [explodeIndices] looks the index buffer up under:
    [buffer_name || "triangles"]. *)
Definition name_or_triangles (buffer_name : option string) : string :=
  if Mesh.string_truthy buffer_name then default "triangles" buffer_name else "triangles".

(** A vertex buffer rebuilt by [explodeIndices]: it has the name of the
    old one and the array filled for it. *)
Definition rebuilt (indices : list Z) (e e' : string * Buffer.t) : Prop :=
  e'.1 = e.1 /\
  Buffer.data e'.2 = Typed (exploding_stream indices (List.length indices) e).2.



(** The indexer after the objects [objs] were added to a new one. *)
Definition indexer_of {A} (JSON_stringify : A -> string) (objs : list A) : Indexer.t A :=
  fold_left (fun ix obj => snd (Indexer.add JSON_stringify obj ix)) objs Indexer.new.

(** The map of an indexer lists the texts of its objects, each once, with
    their positions. *)
Definition indexer_ok {A} (JSON_stringify : A -> string) (ix : Indexer.t A) : Prop :=
  NoDup (map JSON_stringify (Indexer.unique ix)) /\
  forall key k,
    obj_get (Indexer.map ix) key = Some k <->
    map JSON_stringify (Indexer.unique ix) !! k = Some key.

(** The line between two vertices, as the indexed case of
    [computeWireframe] names it: the smaller index first. *)
Definition edge (a b : Z) : num * num := (Int (Z.min a b), Int (Z.max a b)).

Definition triangle_edges (tris : list (Z * Z * Z)) : list (num * num) :=
  concat (map (fun '(i1, i2, i3) => [edge i1 i2; edge i2 i3; edge i3 i1]) tris).

(** The index data that lists the lines [edges]. *)
Definition line_data (edges : list (num * num)) : list num :=
  concat (map (fun '(a, b) => [a; b]) edges).

(** The text [JSON.stringify] writes for an array of two integers; it
    writes [null] for NaN and the infinities. *)
Definition integer_text (a : num) : string :=
  match a with
  | Int z => pretty z
  | Flt _ => "null"
  end.

Definition json_of_pair (obj : num * num) : string :=
  "[" +:+ integer_text obj.1 +:+ "," +:+ integer_text obj.2 +:+ "]".

(** The lines of [t] triangles without indices: the sides of every
    triplet of consecutive vertices. *)
Definition unindexed_lines (t : nat) : list (num * num) :=
  concat (map (fun k => let i := 3 * Z.of_nat k in
                        [(Int i, Int (i + 1)); (Int (i + 1), Int (i + 2)); (Int (i + 2), Int i)])
              (seq 0 t)).

(* ================================================================= *)
(** * Proofs *)

Lemma SFleb_SFltb (x y : spec_float) : SFleb x y = true -> SFltb y x = false.
Proof.
  unfold SFleb, SFltb.
  destruct x as [sx|sx| |sx mx ex], y as [sy|sy| |sy my ey]; simpl;
    try destruct sx; try destruct sy; simpl; try congruence.
  - rewrite (Z.compare_antisym ex ey).
    destruct (ex ?= ey) eqn:E; simpl; try congruence.
    change (Pos.compare_cont Eq my mx) with (Pos.compare my mx).
    change (Pos.compare_cont Eq mx my) with (Pos.compare mx my).
    rewrite (Pos.compare_antisym mx my).
    destruct (Pos.compare mx my); simpl; congruence.
  - rewrite (Z.compare_antisym ex ey).
    destruct (ex ?= ey) eqn:E; simpl; try congruence.
    change (Pos.compare_cont Eq my mx) with (Pos.compare my mx).
    change (Pos.compare_cont Eq mx my) with (Pos.compare mx my).
    rewrite (Pos.compare_antisym mx my).
    destruct (Pos.compare mx my); simpl; congruence.
Qed.

Lemma leb_ltb (x y : float) : PrimFloat.leb x y = true -> PrimFloat.ltb y x = false.
Proof. rewrite leb_spec, ltb_spec. apply SFleb_SFltb. Qed.

Lemma le_not_gt (a b : num) : JS.le a b = true -> JS.gt a b = false.
Proof.
  unfold JS.gt, JS.le, JS.lt.
  destruct a, b; try apply leb_ltb.
  intros H. apply Z.leb_le in H. apply Z.ltb_ge. exact H.
Qed.

Lemma Prim2SF_finite_cases (f : float) :
  is_nan f = false -> is_infinity f = false ->
  (exists s, Prim2SF f = S754_zero s) \/ (exists s m e, Prim2SF f = S754_finite s m e).
Proof.
  intros Hn Hi. unfold Prim2SF. rewrite Hn, Hi.
  destruct (is_zero f); [left; eauto|].
  destruct (Z.frexp f) as [r e].
  destruct (shr_fexp _ _ _ _ _) as [sh e'].
  destruct (shr_m sh); [left|right|left]; eauto.
Qed.

Lemma sub_diag_finite (f : float) :
  is_nan f = false -> is_infinity f = false -> (f - f)%float = 0%float.
Proof.
  intros Hn Hi.
  rewrite <- (SF2Prim_Prim2SF (f - f)). rewrite sub_spec.
  destruct (Prim2SF_finite_cases f Hn Hi) as [[s ->]|(s & m & e & ->)].
  - destruct s; reflexivity.
  - unfold SF64sub, SFsub. rewrite Z.sub_diag. reflexivity.
Qed.

Ltac mstep :=
  cbv beta iota zeta delta
    [bind ret throw get put modify zoom log_event the_world gl_create_buffer on_new
     Buffer.this Buffer.update Mesh.this Mesh.update Buffer.or_else
     fst snd world_of with_world pair_HasWorld World_HasWorld default id
     Mesh.St Buffer.St] in *.
Ltac munfold := repeat (progress (mstep; simpl in *)).
(** The same without opening the [HasWorld] instances, so that calls of
    functions generic in the state keep their shape. *)
Ltac mstep' :=
  cbv beta iota zeta delta
    [bind ret throw get put modify zoom Buffer.this Buffer.update Mesh.this Mesh.update
     Buffer.or_else fst snd default id Mesh.St Buffer.St] in *.

(** ** [GL.Buffer]: upload, setData, toJSON and fromJSON *)

Lemma upload_spec st b w a ty :
  Buffer.gl b = true ->
  Buffer.data b = Typed a ->
  Buffer.gl_type_of (TA.kind a) = Some ty ->
  (Buffer.buffer b <> None \/ context_lost w = false) ->
  let widen := bool_decide (Buffer.target b = Some ARRAY_BUFFER)
               && (bool_decide (ty = INT) || bool_decide (ty = UNSIGNED_INT)) in
  exists h created w',
    Buffer.upload st (b, w) =
      (Ok tt,
       (Buffer.set_buffer
          (Some (Buffer.mkWebGLBuffer h (Some (TA.length a))
                   (Some (if JS.truthy (Buffer.spacing b) then Buffer.spacing b else Int 3))
                   (Some (if widen then FLOAT else ty)))) b, w')) /\
    events w' =
      events w ++ created
        ++ (if widen then [console_warn Buffer.int32_msg] else [])
        ++ [gl_bindBuffer (Buffer.target b) (Some h);
            gl_bufferData (Buffer.target b)
              (if widen then TA.of_list Float32Array (TA.elems a) else a)
              (upload_usage st b)] /\
    (created = [] \/ created = [gl_createBuffer (Some h)]).
Proof.
  intros Hgl Hdata Hty Hbuf widen.
  unfold Buffer.upload. munfold. rewrite Hgl, Hdata. munfold.
  destruct (Buffer.buffer b) as [wb|] eqn:Eb.
  - munfold. rewrite Hty. munfold. fold widen.
    exists (Buffer.handle wb), [].
    destruct widen; munfold; eexists; (split; [reflexivity|]); simpl;
      (split; [|left; reflexivity]); rewrite <- ?app_assoc; reflexivity.
  - destruct Hbuf as [Hbuf|Hlost]; [congruence|].
    rewrite Hlost. munfold. rewrite Hty. munfold. fold widen.
    exists (next_handle w), [gl_createBuffer (Some (next_handle w))].
    destruct widen; munfold; eexists; (split; [reflexivity|]); simpl;
      (split; [|right; reflexivity]); rewrite <- ?app_assoc; reflexivity.
Qed.

Lemma int32_vertex_attribute_widen b a ty :
  Buffer.gl_type_of (TA.kind a) = Some ty ->
  bool_decide (Buffer.target b = Some ARRAY_BUFFER)
    && (bool_decide (ty = INT) || bool_decide (ty = UNSIGNED_INT)) = true
  <-> int32_vertex_attribute b a.
Proof.
  intros Hty. unfold int32_vertex_attribute.
  rewrite andb_true_iff, orb_true_iff, !bool_decide_eq_true.
  destruct (TA.kind a); simpl in Hty; inversion Hty; subst; clear Hty;
    intuition congruence.
Qed.

(** C8. [upload] of a buffer of 32-bit integers (signed or unsigned) bound
    as a vertex attribute warns on the console, hands the driver the same
    values as a [Float32Array] and records the element type [FLOAT]; any
    other buffer is handed over as it is, with its own element type and
    without a warning. *)
Theorem upload_widens_int32_vertex_attributes
    (st : option Usage) (b : Buffer.t) (w : World) (a : TypedArray) (ty : GLType) :
  Buffer.gl b = true ->
  Buffer.data b = Typed a ->
  Buffer.gl_type_of (TA.kind a) = Some ty ->
  (Buffer.buffer b <> None \/ context_lost w = false) ->
  exists wb w' new,
    Buffer.upload st (b, w) = (Ok tt, (Buffer.set_buffer (Some wb) b, w')) /\
    events w' = events w ++ new /\
    (int32_vertex_attribute b a ->
       Buffer.gl_type wb = Some FLOAT /\
       last new = Some (gl_bufferData (Buffer.target b)
                          (TA.of_list Float32Array (TA.elems a)) (upload_usage st b)) /\
       In (console_warn Buffer.int32_msg) new) /\
    (~ int32_vertex_attribute b a ->
       Buffer.gl_type wb = Some ty /\
       last new = Some (gl_bufferData (Buffer.target b) a (upload_usage st b)) /\
       forall msg, ~ In (console_warn msg) new).
Proof.
  intros Hgl Hdata Hty Hbuf.
  destruct (upload_spec st b w a ty Hgl Hdata Hty Hbuf) as (h & created & w' & Hrun & Hev & Hcr).
  pose proof (int32_vertex_attribute_widen b a ty Hty) as Hw.
  cbv zeta in Hrun, Hev.
  remember (bool_decide (Buffer.target b = Some ARRAY_BUFFER)
            && (bool_decide (ty = INT) || bool_decide (ty = UNSIGNED_INT))) as wd eqn:E in *.
  destruct wd.
  - eexists _, w', _. split; [exact Hrun|]. split; [exact Hev|]. split.
    + intros _. simpl. split; [reflexivity|]. split.
      * destruct Hcr as [-> | ->]; reflexivity.
      * apply in_or_app. right. left. reflexivity.
    + intros Hn. exfalso. apply Hn, Hw. reflexivity.
  - eexists _, w', _. split; [exact Hrun|]. split; [exact Hev|]. split.
    + intros Hi. apply Hw in Hi. discriminate.
    + intros _. simpl. split; [reflexivity|]. split.
      * destruct Hcr as [-> | ->]; reflexivity.
      * intros msg Hin. apply in_app_or in Hin.
        destruct Hin as [Hin|Hin].
        -- destruct Hcr as [-> | ->]; simpl in Hin; intuition discriminate.
        -- simpl in Hin. intuition discriminate.
Qed.

(** C4. [setData] with a typed array strictly longer than the storage of
    the buffer throws, and leaves the buffer (data, length, metadata) and
    the world as they were: nothing is uploaded. *)
Theorem setData_longer_payload_throws
    (set_bytes : TypedArray -> TypedArray -> Z -> TypedArray)
    (b : Buffer.t) (w : World) (old new : TypedArray) (same : bool) (offset : option Z) :
  Buffer.data b = Typed old ->
  TA.length old < TA.length new ->
  Buffer.setData set_bytes (Typed new) same offset (b, w)
  = (Throw (Thrown "buffer is not big enough, you cannot set data to a smaller buffer"),
     (b, w)).
Proof.
  intros Hdata Hlen.
  unfold Buffer.setData. munfold. rewrite Hdata.
  apply Z.ltb_lt in Hlen. rewrite Hlen. reflexivity.
Qed.

Lemma class_of_name_class_name (k : ArrayKind) : TA.class_of_name (TA.class_name k) = Some k.
Proof. destruct k; reflexivity. Qed.

Lemma of_list_wf (a : TypedArray) : TA.wf a -> TA.of_list (TA.kind a) (TA.elems a) = a.
Proof.
  destruct a as [k xs]. unfold TA.wf, TA.of_list. simpl. intros H.
  f_equal. induction H; simpl; [reflexivity|]. congruence.
Qed.

(** C5. [fromJSON] of the object [toJSON] returns rebuilds, in any buffer,
    the spacing, the attribute, the target and the data of the serialized
    buffer: the same kind of array with the same elements. *)
Theorem toJSON_fromJSON_round_trip
    (b : Buffer.t) (w : World) (a : TypedArray) (into : Buffer.t) (w1 : World) :
  Buffer.data b = Typed a ->
  TA.wf a ->
  supported_kind (TA.kind a) ->
  JS.truthy (Buffer.spacing b) = true ->
  exists o b' w',
    Buffer.toJSON (b, w) = (Ok (Some o), (b, w)) /\
    Buffer.fromJSON o (into, w1) = (Ok tt, (b', w')) /\
    Buffer.spacing b' = Buffer.spacing b /\
    Buffer.attribute b' = Buffer.attribute b /\
    Buffer.target b' = Buffer.target b /\
    Buffer.data b' = Typed a.
Proof.
  intros Hdata Hwf Hk Hsp.
  destruct (Buffer.gl_type_of (TA.kind a)) as [ty|] eqn:Hty; [|now elim Hk].
  exists (Buffer.mkJSON (TA.class_name (TA.kind a)) (TA.elems a) (Buffer.target b)
            (Buffer.attribute b) (Buffer.spacing b)).
  assert (Hto : Buffer.toJSON (b, w) = (Ok (Some (Buffer.mkJSON (TA.class_name (TA.kind a))
            (TA.elems a) (Buffer.target b) (Buffer.attribute b) (Buffer.spacing b))), (b, w))).
  { unfold Buffer.toJSON. mstep. rewrite Hdata. reflexivity. }
  unfold Buffer.fromJSON. mstep.
  cbv beta iota delta [Buffer.data_type Buffer.j_data Buffer.j_target Buffer.j_attribute
                       Buffer.j_spacing].
  rewrite class_of_name_class_name, Hsp, (of_list_wf a Hwf). mstep.
  set (b1 := Buffer.set_attribute _ _).
  assert (Hb1 : Buffer.data b1 = Typed a) by reflexivity.
  assert (Hfields : forall wb, let b' := Buffer.set_buffer wb b1 in
            Buffer.spacing b' = Buffer.spacing b /\ Buffer.attribute b' = Buffer.attribute b /\
            Buffer.target b' = Buffer.target b /\ Buffer.data b' = Typed a).
  { intros wb. repeat split. }
  destruct (Buffer.gl b1) eqn:Hgl1.
  - (* the receiving buffer has a context: the data is uploaded *)
    destruct (Buffer.buffer b1) as [wb|] eqn:Hbuf1; [|destruct (context_lost w1) eqn:Hl].
    + destruct (upload_spec (Some STATIC_DRAW) b1 w1 a ty Hgl1 Hb1 Hty) as (h & cr & w' & Hrun & _).
      { left. congruence. }
      rewrite Hrun. eexists _, _. split; [exact Hto|]. split; [reflexivity|]. apply Hfields.
    + (* a lost context: upload gives up after createBuffer *)
      unfold Buffer.upload. mstep. rewrite Hgl1. cbn [negb]. rewrite Hb1. mstep.
      rewrite Hbuf1. mstep. rewrite Hl. mstep.
      eexists _, _. split; [exact Hto|]. split; [reflexivity|]. apply (Hfields None).
    + destruct (upload_spec (Some STATIC_DRAW) b1 w1 a ty Hgl1 Hb1 Hty) as (h & cr & w' & Hrun & _).
      { right. exact Hl. }
      rewrite Hrun. eexists _, _. split; [exact Hto|]. split; [reflexivity|]. apply Hfields.
  - unfold Buffer.upload. mstep. rewrite Hgl1. cbn [negb]. mstep.
    eexists _, _. split; [exact Hto|]. split; [reflexivity|].
    replace b1 with (Buffer.set_buffer (Buffer.buffer b1) b1) by (destruct b1; reflexivity).
    apply Hfields.
Qed.

Lemma obj_get_set_eq {V} (o : Obj V) k v : obj_get (obj_set o k v) k = Some v.
Proof.
  induction o as [|[k' v'] o IH]; simpl.
  - now rewrite String.eqb_refl.
  - destruct (String.eqb k' k) eqn:E; simpl; rewrite E; [reflexivity|exact IH].
Qed.

Lemma obj_get_set_ne {V} (o : Obj V) k k' v : k <> k' -> obj_get (obj_set o k v) k' = obj_get o k'.
Proof.
  intros Hne. induction o as [|[k0 v0] o IH]; simpl.
  - destruct (String.eqb k k') eqn:E; [apply String.eqb_eq in E; contradiction|reflexivity].
  - destruct (String.eqb k0 k) eqn:E; simpl.
    + apply String.eqb_eq in E. subst k0.
      destruct (String.eqb k k') eqn:E'; [apply String.eqb_eq in E'; contradiction|reflexivity].
    + destruct (String.eqb k0 k'); [reflexivity|exact IH].
Qed.

(** [new GL.Buffer] on a typed array of a supported kind never throws and
    keeps the array as the data of the buffer. *)
Lemma Buffer_new_typed {T} target (a : TypedArray) spacing st glarg (s : T * World) ty :
  Buffer.gl_type_of (TA.kind a) = Some ty ->
  exists b w',
    Buffer.new target (Typed a) spacing st glarg s = (Ok b, (fst s, w')) /\
    Buffer.data b = Typed a /\ Buffer.target b = target /\
    Buffer.attribute b = None /\ Buffer.name b = None.
Proof.
  intros Hty. destruct s as [t w]. unfold Buffer.new. mstep.
  set (sp := match spacing with Some s0 => if JS.truthy s0 then s0 else Int 3 | None => Int 3 end).
  assert (Hup : forall w1, exists wb w',
            Buffer.upload st (Buffer.mk true None target None false (Typed a) sp None None, w1)
            = (Ok tt, (Buffer.set_buffer wb
                         (Buffer.mk true None target None false (Typed a) sp None None), w'))).
  { intros w1. set (b1 := Buffer.mk true None target None false (Typed a) sp None None).
    destruct (context_lost w1) eqn:Hl.
    - unfold Buffer.upload. mstep. cbn [Buffer.gl Buffer.data Buffer.buffer b1 negb].
      mstep. rewrite Hl. mstep. eexists _, _. reflexivity.
    - destruct (upload_spec st b1 w1 a ty eq_refl eq_refl Hty (or_intror Hl))
        as (h & cr & w' & Hrun & _).
      eexists _, _. exact Hrun. }
  destruct (debug w); mstep;
    (destruct glarg; [| destruct (global_gl _) |]); cbn [andb]; mstep;
    try (eexists _, _; split; [reflexivity|]; repeat split; fail);
    match goal with |- context [Buffer.upload st (_, ?w1)] =>
      destruct (Hup w1) as (wb & w' & ->) end;
    mstep; eexists _, _; (split; [reflexivity|]); repeat split.
Qed.

Lemma index_kinds_supported (n : num) (xs : list num) :
  exists ty, Buffer.gl_type_of (TA.kind (TA.of_list (Mesh.index_datatype n) xs)) = Some ty.
Proof. unfold Mesh.index_datatype. destruct (JS.gt n _); simpl; eauto. Qed.

Lemma createIndexBuffer_typed name (a : TypedArray) st (m : Mesh.t) (w : World) ty :
  Buffer.gl_type_of (TA.kind a) = Some ty ->
  exists b w',
    Mesh.createIndexBuffer name (Typed a) st (m, w)
    = (Ok b, (Mesh.set_indexBuffers (obj_set (Mesh.indexBuffers m) name b) m, w')) /\
    Buffer.data b = Typed a.
Proof.
  intros Hty. unfold Mesh.createIndexBuffer. mstep'.
  destruct (Buffer_new_typed (Some ELEMENT_ARRAY_BUFFER) a (Some (Int 0)) st (Mesh.gl_arg m)
              (m, w) ty Hty) as (b & w' & Hnew & Hd & _).
  rewrite Hnew. mstep'. eauto.
Qed.

Lemma createIndexBuffer_plain name xs st (m : Mesh.t) (w : World) vb vs :
  obj_get (Mesh.vertexBuffers m) "vertices" = Some vb ->
  Buffer.data vb = Typed vs ->
  exists b w',
    Mesh.createIndexBuffer name (PlainArray xs) st (m, w)
    = (Ok b, (Mesh.set_indexBuffers (obj_set (Mesh.indexBuffers m) name b) m, w')) /\
    Buffer.data b
    = Typed (TA.of_list (Mesh.index_datatype (Int (TA.length vs) / Int 3)%js) xs).
Proof.
  intros Hvb Hvs.
  destruct (index_kinds_supported (Int (TA.length vs) / Int 3)%js xs) as [ty Hty].
  destruct (createIndexBuffer_typed name _ st m w ty Hty) as (b & w' & Hrun & Hd).
  exists b, w'. split; [|exact Hd].
  rewrite <- Hrun. unfold Mesh.createIndexBuffer. mstep.
  rewrite Hvb, Hvs. reflexivity.
Qed.

Lemma index_datatype_spec (n : num) :
  (JS.le n (Int 65536) = true -> Mesh.index_datatype n = Uint16Array) /\
  (JS.gt n (Int 65536) = true -> Mesh.index_datatype n = Uint32Array).
Proof.
  unfold Mesh.index_datatype. change (256 * 256) with 65536. split; intros H.
  - apply le_not_gt in H. now rewrite H.
  - now rewrite H.
Qed.

(** The body of the second loop of [addBuffers] on a flat array of
    numbers, at any vertex count the first loop leaves. *)
Lemma addBuffers_index_numbers (nv : num) name xs (m : Mesh.t) (w : World) :
  exists b w',
    Mesh.addBuffers_index nv (name, Mesh.p_numbers xs) (m, w)
    = (Ok tt, (Mesh.set_indexBuffers
                 (obj_set (Mesh.indexBuffers m) (index_buffer_name name xs) b) m, w')) /\
    Buffer.data b = Typed (TA.of_list (Mesh.index_datatype nv) xs).
Proof.
  destruct (index_kinds_supported nv xs) as [ty Hty].
  destruct (createIndexBuffer_typed (index_buffer_name name xs) _ None m w ty Hty)
    as (b & w' & Hrun & Hd).
  exists b, w'. split; [|exact Hd].
  unfold Mesh.addBuffers_index. cbn [Mesh.is_null]. mstep.
  destruct xs as [|x xs]; cbn [Mesh.linearized_length index_buffer_name] in *; mstep.
  - change (pretty (10000 * ((0 + 9999) / 10000))) with "0".
    rewrite Hrun. reflexivity.
  - rewrite Hrun. reflexivity.
Qed.

(** C7. The index buffer that [createIndexBuffer] and [addBuffers] build
    from a plain array of numbers is a [Uint16Array] when the mesh has at
    most 65536 vertices and a [Uint32Array] when it has more. *)
Theorem index_width_follows_vertex_count
    (m : Mesh.t) (w : World) (vb : Buffer.t) (vs : TypedArray)
    (name : string) (xs : list num) (stream_type : option Usage) :
  obj_get (Mesh.vertexBuffers m) "vertices" = Some vb ->
  Buffer.data vb = Typed vs ->
  let num_vertices := (Int (TA.length vs) / Int 3)%js in
  exists k,
    (JS.le num_vertices (Int 65536) = true -> k = Uint16Array) /\
    (JS.gt num_vertices (Int 65536) = true -> k = Uint32Array) /\
    (exists b m' w',
       Mesh.createIndexBuffer name (PlainArray xs) stream_type (m, w) = (Ok b, (m', w')) /\
       obj_get (Mesh.indexBuffers m') name = Some b /\
       Buffer.data b = Typed (TA.of_list k xs)) /\
    (exists b m' w',
       Mesh.addBuffers [] [(name, Mesh.p_numbers xs)] stream_type (m, w) = (Ok tt, (m', w')) /\
       obj_get (Mesh.indexBuffers m') (index_buffer_name name xs) = Some b /\
       Buffer.data b = Typed (TA.of_list k xs)).
Proof.
  intros Hvb Hvs nv. exists (Mesh.index_datatype nv).
  destruct (index_datatype_spec nv) as [H16 H32].
  split; [exact H16|]. split; [exact H32|]. split.
  - destruct (createIndexBuffer_plain name xs stream_type m w vb vs Hvb Hvs)
      as (b & w' & Hrun & Hd).
    eexists b, _, w'. split; [exact Hrun|]. split; [|exact Hd].
    apply obj_get_set_eq.
  - destruct (addBuffers_index_numbers nv name xs m w) as (b & w' & Hrun & Hd).
    exists b, (Mesh.set_indexBuffers
                 (obj_set (Mesh.indexBuffers m) (index_buffer_name name xs) b) m), w'.
    split; [|split; [apply obj_get_set_eq|exact Hd]].
    unfold Mesh.addBuffers. mstep. rewrite Hvb, Hvs. cbn [Mesh.data_length].
    mstep. cbn [Mesh.fold_M for_each]. mstep. fold nv.
    rewrite Hrun. reflexivity.
Qed.

(** ** [computeBoundingBox] *)

(** C6, amended. When a component of the reduced minimum or maximum is
    NaN, [computeBoundingBox] warns on the console and returns the box of
    center and half-size zero. *)
Theorem computeBoundingBox_resets_on_NaN
    {BBox : Type} (create : BBox) (setCenterHalfsize : BBox -> vec3.t -> vec3.t -> BBox)
    (vertices : TypedArray) (bb : option BBox) (mask : option (list num)) (w : World) :
  Mesh.mask_rejected mask = false ->
  Mesh.has_NaN (fst (Mesh.reduce_min_max vertices mask (Mesh.mask_start mask)))
  || Mesh.has_NaN (snd (Mesh.reduce_min_max vertices mask (Mesh.mask_start mask))) = true ->
  Mesh.computeBoundingBox create setCenterHalfsize (Typed vertices) bb mask w
  = (Ok (Some (setCenterHalfsize (default create bb) zero3 zero3)),
     emit (console_warn Mesh.NaN_warning) w).
Proof.
  intros Hmask Hnan. unfold Mesh.computeBoundingBox. rewrite Hmask.
  unfold Mesh.typed. mstep.
  destruct (Mesh.reduce_min_max vertices mask (Mesh.mask_start mask)) as [min max].
  cbn [fst snd] in Hnan. rewrite Hnan. mstep. reflexivity.
Qed.

Lemma float_neq (x y : float) : PrimFloat.Leibniz.eqb x y = false -> x <> y.
Proof.
  intros H E. apply FloatAxioms.Leibniz.eqb_spec in E. congruence.
Qed.

(** C6, counterexample. The reduced minimum of the single vertex
    [(Infinity, 0, 0)] has a component that is not finite, and
    [computeBoundingBox] neither resets the box nor warns: the center is
    [(Infinity, 0, 0)] and the half-size [(NaN, 0, 0)]. *)
Lemma computeBoundingBox_infinite_vertex :
  let vertices := TA.of_list Float32Array [Flt infinity; Int 0; Int 0] in
  let reduced := Mesh.reduce_min_max vertices None 0 in
  JS.is_finite (fst (fst (fst reduced))) = false /\
  Mesh.computeBoundingBox (zero3, zero3) (fun _ center half_size => (center, half_size))
    (Typed vertices) None None w0
  = (Ok (Some ((Flt infinity, Flt 0, Flt 0), (Flt nan, Flt 0, Flt 0))), w0).
Proof. split; vm_compute; reflexivity. Qed.

(** ** [mergeMeshes] *)

(** C3. [mergeMeshes] accepts a mesh without bones followed by a mesh
    with bones, and returns the bones of the second; in the other order it
    throws. *)
Lemma mergeMeshes_accepts_unskinned_before_skinned
    (transformMat4 : list num -> vec3.t -> vec3.t)
    (transformMat3 : list num -> num * num -> num * num) :
  (exists merged,
     fst (Mesh.mergeMeshes transformMat4 transformMat3 only_data_options
            [Mesh.mkMeshInfo unskinned_mesh []; Mesh.mkMeshInfo skinned_mesh []])
     = Ok merged /\ Mesh.m_bones merged = [("root", [])]) /\
  fst (Mesh.mergeMeshes transformMat4 transformMat3 only_data_options
         [Mesh.mkMeshInfo skinned_mesh []; Mesh.mkMeshInfo unskinned_mesh []])
  = Throw (Thrown Mesh.no_bones_msg).
Proof.
  split.
  - eexists. split; vm_compute; reflexivity.
  - vm_compute. reflexivity.
Qed.

(** Case analysis on what a hypothesis or the goal branches on. *)
Ltac case_match_hyp H :=
  match type of H with
  | context [match ?x with _ => _ end] =>
      lazymatch x with
      | context [match _ with _ => _ end] => fail
      | _ => destruct x eqn:?
      end
  | context [if ?x then _ else _] => destruct x eqn:?
  end.

Ltac inv_run H :=
  repeat (mstep; first [ discriminate H
                       | progress (injection H as H)
                       | case_match_hyp H ]).

Lemma fold_M_invariant {S A B} (P : A -> Prop) (f : A -> B -> M S A) xs :
  (forall a x s a' s', f a x s = (Ok a', s') -> P a -> P a') ->
  forall a s a' s', Mesh.fold_M f xs a s = (Ok a', s') -> P a -> P a'.
Proof.
  intros Hf. induction xs as [|x xs IH]; intros a s a' s' Hrun Ha; simpl in Hrun.
  - unfold ret in Hrun. congruence.
  - unfold bind in Hrun. destruct (f a x s) as [[a1|e] s1] eqn:E; [|discriminate].
    eapply IH; [exact Hrun|]. eapply Hf; eassumption.
Qed.

Lemma fold_M_state {S A B} (f : A -> B -> M S A) xs :
  (forall a x s r s', f a x s = (r, s') -> s' = s) ->
  forall a s r s', Mesh.fold_M f xs a s = (r, s') -> s' = s.
Proof.
  intros Hf. induction xs as [|x xs IH]; intros a s r s' Hrun; simpl in Hrun.
  - unfold ret in Hrun. congruence.
  - unfold bind in Hrun. destruct (f a x s) as [[a1|e] s1] eqn:E.
    + apply IH in Hrun. apply Hf in E. congruence.
    + apply Hf in E. congruence.
Qed.

Lemma add_sizes_state {S} o bufs (s : S) r s' :
  Mesh.add_sizes o bufs s = (r, s') -> s' = s.
Proof.
  unfold Mesh.add_sizes. apply fold_M_state.
  intros a [j b] s0 r0 s0' H. destruct (Mesh.data_length (Buffer.data b)); 
    unfold ret, throw in H; congruence.
Qed.

Lemma mergeMeshes_size_spec acc i ms acc' ms' :
  Mesh.mergeMeshes_size acc i ms = (Ok acc', ms') ->
  exists mi, ms !! i = Some mi /\
    Mesh.current_vertex_offset acc' = (Mesh.current_vertex_offset acc + vertex_count mi)%js /\
    List.length ms' = List.length ms /\
    forall j, j <> i -> ms' !! j = ms !! j.
Proof.
  intros H. unfold Mesh.mergeMeshes_size in H. mstep.
  destruct (ms !! i) as [mi|] eqn:Hi; [|discriminate].
  exists mi. split; [reflexivity|].
  unfold vertex_count.
  destruct (obj_get (Mesh.vertexBuffers (Mesh.mi_mesh mi)) "vertices") as [vb|]; [|discriminate].
  destruct (Mesh.data_length (Buffer.data vb)) as [len|]; [|discriminate].
  destruct (Mesh.add_sizes _ _ ms) as [[vsz|] s1] eqn:E1; [|discriminate].
  apply add_sizes_state in E1. subst s1.
  destruct (Mesh.add_sizes _ _ ms) as [[isz|] s2] eqn:E2; [|discriminate].
  apply add_sizes_state in E2. subst s2.
  destruct (Mesh.bones (Mesh.mi_mesh mi)) as [mesh_bones|].
  - destruct (Mesh.add_bones _ _ _) as [[bones by_index] prev].
    destruct (obj_get _ "bone_indices") as [bi|]; [|discriminate].
    destruct (Buffer.data bi) eqn:Hbi; [discriminate| |];
      mstep; injection H as <- <-; cbn [Mesh.current_vertex_offset];
      (split; [reflexivity|]); (split; [apply length_insert|]);
      intros j Hj; apply list_lookup_insert_ne; congruence.
  - destruct (Mesh.merged_bones acc); [|discriminate].
    mstep. injection H as <- <-. cbn [Mesh.current_vertex_offset]. auto.
Qed.

Lemma mergeMeshes_sizes_total n : forall k acc ms acc' ms',
  Mesh.fold_M Mesh.mergeMeshes_size (seq k n) acc ms = (Ok acc', ms') ->
  Mesh.current_vertex_offset acc'
  = fold_left (fun total mesh_info => (total + vertex_count mesh_info)%js)
      (take n (drop k ms)) (Mesh.current_vertex_offset acc).
Proof.
  induction n as [|n IH]; intros k acc ms acc' ms' H; simpl in H.
  - unfold ret in H. injection H as <- <-. reflexivity.
  - unfold bind in H.
    destruct (Mesh.mergeMeshes_size acc k ms) as [[acc1|] ms1] eqn:E; [|discriminate].
    apply mergeMeshes_size_spec in E. destruct E as (mi & Hk & Hcur & Hlen & Hsame).
    apply IH in H. rewrite H.
    rewrite (drop_S ms mi k Hk). cbn [take fold_left]. rewrite <- Hcur.
    f_equal. f_equal. apply list_eq. intros j.
    rewrite !lookup_drop. apply Hsame. lia.
Qed.

Lemma all_of_kind_set k o j a :
  all_of_kind k o -> TA.kind a = k -> all_of_kind k (obj_set o j a).
Proof.
  intros Ho Ha j' a' Hget. destruct (decide (j = j')) as [<-|Hne].
  - rewrite obj_get_set_eq in Hget. congruence.
  - rewrite obj_get_set_ne in Hget by exact Hne. eapply Ho, Hget.
Qed.

Lemma allocate_index_buffers_kind {S} total sizes (s : S) out s' :
  Mesh.allocate_index_buffers total sizes s = (Ok out, s') ->
  all_of_kind (Mesh.merged_index_datatype total) out.
Proof.
  intros H. unfold Mesh.allocate_index_buffers in H.
  eapply (fold_M_invariant (all_of_kind (Mesh.merged_index_datatype total))) in H;
    [exact H| |intros j a Hget; discriminate].
  intros o [j size] s0 o' s0' Hstep Ho.
  unfold Mesh.new_array in Hstep. mstep.
  destruct (JS.to_index size); [|discriminate].
  injection Hstep as <- <-. apply all_of_kind_set; [exact Ho|reflexivity].
Qed.

Lemma kind_set_from a src off a' : TA.set_from a src off = Some a' -> TA.kind a' = TA.kind a.
Proof.
  unfold TA.set_from. destruct (_ || _); [discriminate|]. intros [= <-]. reflexivity.
Qed.

Lemma kind_set a i v : TA.kind (TA.set a i v) = TA.kind a.
Proof. unfold TA.set. destruct (i <? 0); reflexivity. Qed.

Lemma kind_apply_offset a start len offset :
  TA.kind (Mesh.apply_offset a start len offset) = TA.kind a.
Proof.
  unfold Mesh.apply_offset. destruct offset as [offset|]; [|reflexivity].
  destruct (negb (JS.truthy offset)); [reflexivity|].
  generalize (count_up start (start + len) 1). intros l. revert a.
  induction l as [|i l IH]; intros a; simpl; [reflexivity|].
  rewrite IH. apply kind_set.
Qed.

Section StoreKinds.

Variable transformMat4 : list num -> vec3.t -> vec3.t.
Variable transformMat3 : list num -> num * num -> num * num.
Variable k : ArrayKind.

Lemma store_vertex_buffer_index_buffers {S} mesh_info st entry (s : S) st' s' :
  Mesh.store_vertex_buffer transformMat4 transformMat3 mesh_info st entry s = (Ok st', s') ->
  Mesh.index_buffers st' = Mesh.index_buffers st.
Proof.
  intros H. destruct entry as [j b]. unfold Mesh.store_vertex_buffer in H.
  inv_run H; subst; reflexivity.
Qed.

Lemma store_index_buffer_kind {S} vertex_offset st entry (s : S) st' s' :
  Mesh.store_index_buffer vertex_offset st entry s = (Ok st', s') ->
  all_of_kind k (Mesh.index_buffers st) -> all_of_kind k (Mesh.index_buffers st').
Proof.
  intros H Hk. destruct entry as [j b]. unfold Mesh.store_index_buffer in H.
  mstep.
  destruct (obj_get (Mesh.index_buffers st) j) as [out|] eqn:Hout; [|discriminate].
  destruct (Mesh.data_length (Buffer.data b)) as [len|]; [|discriminate].
  destruct (obj_get (Mesh.offsets st) j) as [off|]; [|discriminate].
  destruct (TA.set_from out _ off) as [out'|] eqn:Hset; [|discriminate].
  injection H as <- <-. cbn [Mesh.index_buffers].
  apply all_of_kind_set; [exact Hk|].
  rewrite kind_apply_offset, (kind_set_from _ _ _ _ Hset). eapply Hk, Hout.
Qed.

Lemma mergeMeshes_store_kind {S} vertex_offsets st entry (s : S) st' s' :
  Mesh.mergeMeshes_store transformMat4 transformMat3 vertex_offsets st entry s = (Ok st', s') ->
  all_of_kind k (Mesh.index_buffers st) -> all_of_kind k (Mesh.index_buffers st').
Proof.
  intros H Hk. destruct entry as [i mesh_info]. unfold Mesh.mergeMeshes_store in H.
  unfold bind in H.
  destruct (Mesh.fold_M (Mesh.store_vertex_buffer _ _ _) _ st s) as [[st1|] s1] eqn:E1;
    [|discriminate].
  eapply (fold_M_invariant (fun st => all_of_kind k (Mesh.index_buffers st))) in H;
    [exact H| |].
  - intros a x s0 a' s0'. apply store_index_buffer_kind.
  - eapply (fold_M_invariant
              (fun st => all_of_kind k (Mesh.index_buffers st))) in E1; [exact E1| |exact Hk].
    intros a x s0 a' s0' Hstep Ha.
    apply store_vertex_buffer_index_buffers in Hstep. now rewrite Hstep.
Qed.

End StoreKinds.

(** C10. The index buffers [mergeMeshes] returns are [Uint16Array]s
    exactly when the total of the vertices of the meshes is below 65536,
    and [Uint32Array]s otherwise; a total of exactly 65536 gives
    [Uint32Array]s. *)
Theorem mergeMeshes_index_width
    (transformMat4 : list num -> vec3.t -> vec3.t)
    (transformMat3 : list num -> num * num -> num * num)
    (options : Mesh.Options) (meshes meshes' : list Mesh.MeshInfo) (merged : Mesh.Merged) :
  Mesh.mergeMeshes transformMat4 transformMat3 options meshes = (Ok merged, meshes') ->
  forall name a,
    obj_get (Mesh.m_indexBuffers merged) name = Some a ->
    (TA.kind a = Uint16Array <-> JS.lt (total_vertex_count meshes) (Int 65536) = true) /\
    (TA.kind a = Uint16Array \/ TA.kind a = Uint32Array) /\
    (total_vertex_count meshes = Int 65536 -> TA.kind a = Uint32Array).
Proof.
  intros H name a Hget. unfold Mesh.mergeMeshes in H. unfold bind at 1 in H.
  unfold get at 1 in H. unfold bind at 1 in H.
  destruct (Mesh.fold_M Mesh.mergeMeshes_size _ _ meshes) as [[sizes|] ms1] eqn:E1;
    [|discriminate].
  apply mergeMeshes_sizes_total in E1.
  rewrite drop_0, firstn_all in E1. cbn [Mesh.current_vertex_offset] in E1.
  fold (total_vertex_count meshes) in E1.
  unfold bind at 1 in H. unfold get at 1 in H. unfold bind at 1 in H.
  destruct (Mesh.allocate_vertex_buffers _ _ _ ms1) as [[vbs|] ms2] eqn:E2; [|discriminate].
  unfold bind at 1 in H.
  destruct (Mesh.allocate_index_buffers _ _ ms2) as [[ibs|] ms3] eqn:E3; [|discriminate].
  apply allocate_index_buffers_kind in E3. rewrite E1 in E3.
  unfold bind at 1 in H.
  destruct (Mesh.fold_M (Mesh.mergeMeshes_store _ _ _) _ _ ms3) as [[st|] ms4] eqn:E4;
    [|discriminate].
  eapply (fold_M_invariant
            (fun st => all_of_kind (Mesh.merged_index_datatype (total_vertex_count meshes))
                         (Mesh.index_buffers st))) in E4; [| |exact E3].
  - unfold ret in H. injection H as <- <-. cbn [Mesh.m_indexBuffers] in Hget.
    apply E4 in Hget. rewrite Hget. unfold Mesh.merged_index_datatype.
    change (256 * 256) with 65536.
    split; [|split].
    + destruct (JS.lt _ _); split; congruence.
    + destruct (JS.lt _ _); auto.
    + intros ->. reflexivity.
  - intros st0 x s0 st0' s0'. apply mergeMeshes_store_kind.
Qed.

Lemma typed_state {S} d (s : S) r s' : Mesh.typed d s = (r, s') -> s' = s.
Proof. unfold Mesh.typed. destruct d; unfold ret, throw; congruence. Qed.

Lemma new_Float32Array_state {S} n (s : S) r s' :
  Mesh.new_Float32Array n s = (r, s') -> s' = s.
Proof. unfold Mesh.new_Float32Array. destruct (JS.to_index n); unfold ret, throw; congruence. Qed.

Lemma computeNormals_step_state {S} triangles vertices normals a (s : S) r s' :
  Mesh.computeNormals_step triangles vertices normals a s = (r, s') -> s' = s.
Proof.
  unfold Mesh.computeNormals_step, bind. intros H.
  destruct (Mesh.typed vertices s) as [[vs|] s1] eqn:E; apply typed_state in E; subst s1.
  - destruct (Mesh.corners triangles a) as [[c1 c2] c3]. unfold ret in H. congruence.
  - congruence.
Qed.

Lemma computeNormals_array_state {S} vertices len triangles (s : S) r s' :
  Mesh.computeNormals_array vertices len triangles s = (r, s') -> s' = s.
Proof.
  unfold Mesh.computeNormals_array, bind. intros H.
  destruct (Mesh.fold_M _ _ _ s) as [[normals|] s1] eqn:E.
  - apply fold_M_state in E; [|intros; eapply computeNormals_step_state; eassumption].
    subst s1. destruct triangles; unfold ret in H; congruence.
  - apply fold_M_state in E; [|intros; eapply computeNormals_step_state; eassumption].
    congruence.
Qed.

Lemma Buffer_new_state {T} target data spacing st glarg (s : T * World) r s' :
  Buffer.new target data spacing st glarg s = (r, s') -> fst s' = fst s.
Proof.
  destruct s as [t w]. unfold Buffer.new. mstep. intros H.
  destruct (debug w); mstep;
    repeat match type of H with
           | context [if ?c then _ else _] => destruct c; mstep
           | context [Buffer.upload ?st ?x] => destruct (Buffer.upload st x) as [[?|?] [? ?]]; mstep
           end;
    injection H as <- <-; reflexivity.
Qed.

Lemma createVertexBuffer_frame name attribute spacing a st (m : Mesh.t) (w : World) b m' w' :
  Mesh.createVertexBuffer name attribute spacing (Typed a) st (m, w) = (Ok b, (m', w')) ->
  m' = Mesh.set_vertexBuffers (obj_set (Mesh.vertexBuffers m) name b) m.
Proof.
  unfold Mesh.createVertexBuffer. intros H.
  destruct (negb (Mesh.string_truthy _)); [discriminate|].
  mstep'.
  match type of H with context [Buffer.new ?t ?d ?sp ?s ?g ?x] =>
    destruct (Buffer.new t d sp s g x) as [[b1|] [m1 w1]] eqn:E end; [|discriminate].
  apply Buffer_new_state in E. cbn [fst] in E. subst m1.
  injection H as <- <- <-. reflexivity.
Qed.

Lemma computeNormals_frame st (m : Mesh.t) (w : World) r m' w' :
  Mesh.computeNormals st (m, w) = (Ok r, (m', w')) ->
  obj_get (Mesh.vertexBuffers m') "vertices" = obj_get (Mesh.vertexBuffers m) "vertices".
Proof.
  unfold Mesh.computeNormals. mstep'. intros H.
  destruct (obj_get (Mesh.vertexBuffers m) "vertices") as [vb|] eqn:Hvb.
  - destruct (Mesh.data_length (Buffer.data vb)) as [len|]; [|discriminate].
    match type of H with context [Mesh.computeNormals_array ?v ?l ?t ?s] =>
      destruct (Mesh.computeNormals_array v l t s) as [[normals|] s1] eqn:E end;
      apply computeNormals_array_state in E; subst s1; [|discriminate].
    destruct (obj_get (Mesh.vertexBuffers m) "normals") as [nb|] eqn:Hnb.
    + unfold Mesh.on_vertex_buffer in H. cbn [fst snd] in H. rewrite Hnb in H.
      match type of H with context [let (_, _) := ?x in _] =>
        destruct x as [r1 [b1 w1]] end.
      injection H as _ <- _. cbn [Mesh.vertexBuffers Mesh.set_vertexBuffers].
      rewrite obj_get_set_ne by discriminate. exact Hvb.
    + match type of H with context [Mesh.createVertexBuffer ?n ?at' ?sp ?d ?s ?x] =>
        destruct (Mesh.createVertexBuffer n at' sp d s x) as [[b1|] [m1 w1]] eqn:E end;
        [|discriminate].
      apply createVertexBuffer_frame in E. injection H as _ <- _. subst m1.
      cbn [Mesh.vertexBuffers Mesh.set_vertexBuffers].
      rewrite obj_get_set_ne by discriminate. exact Hvb.
  - unfold log_event, modify in H. cbn in H. injection H as _ <- _. exact Hvb.
Qed.

Ltac state_preserved H :=
  cbv zeta in H; repeat case_match_hyp H;
  repeat match goal with
         | E : Mesh.typed _ _ = _ |- _ => apply typed_state in E
         end;
  unfold ret, throw in H; congruence.

Lemma computeTangents_step_state {S} vertices uvs triangles tan2 tan1 a (s : S) r s' :
  Mesh.computeTangents_step vertices uvs triangles tan2 tan1 a s = (r, s') -> s' = s.
Proof. unfold Mesh.computeTangents_step, bind. intros H. state_preserved H. Qed.

Lemma computeTangents_vertex_state {S} normals tan1 tan2 tangents a (s : S) r s' :
  Mesh.computeTangents_vertex normals tan1 tan2 tangents a s = (r, s') -> s' = s.
Proof. unfold Mesh.computeTangents_vertex, bind. intros H. state_preserved H. Qed.

Lemma computeTangents_frame (m : Mesh.t) (w : World) r m' w' :
  Mesh.computeTangents (m, w) = (Ok r, (m', w')) ->
  obj_get (Mesh.vertexBuffers m') "vertices" = obj_get (Mesh.vertexBuffers m) "vertices".
Proof.
  unfold Mesh.computeTangents. mstep'. intros H.
  assert (Hlog : forall e, log_event e (m, w) = (Ok r, (m', w')) -> m' = m).
  { intros e He. unfold log_event, modify in He. cbn in He. congruence. }
  destruct (obj_get (Mesh.vertexBuffers m) "vertices") as [vb|] eqn:Hvb;
    [|apply Hlog in H; subst; exact Hvb].
  destruct (obj_get (Mesh.vertexBuffers m) "normals") as [nb|];
    [|apply Hlog in H; subst; exact Hvb].
  destruct (obj_get (Mesh.vertexBuffers m) "coords") as [cb|];
    [|apply Hlog in H; subst; exact Hvb].
  destruct (obj_get (Mesh.indexBuffers m) "triangles") as [tb|];
    [|apply Hlog in H; subst; exact Hvb].
  destruct (Mesh.data_length (Buffer.data vb)) as [len|];
    [|injection H as _ <- _; exact Hvb].
  destruct (Mesh.data_length (Buffer.data nb));
    [|injection H as _ <- _; exact Hvb].
  destruct (Mesh.data_length (Buffer.data cb));
    [|injection H as _ <- _; exact Hvb].
  match type of H with context [Mesh.new_Float32Array ?n ?s] =>
    destruct (Mesh.new_Float32Array n s) as [[tangents|] s1] eqn:E end;
    apply new_Float32Array_state in E; subst s1; [|discriminate].
  match type of H with context [Mesh.new_Float32Array ?n ?s] =>
    destruct (Mesh.new_Float32Array n s) as [[tan1|] s1] eqn:E end;
    apply new_Float32Array_state in E; subst s1; [|discriminate].
  destruct (Mesh.index_values (Buffer.data tb)) as [triangles|]; [|discriminate].
  match type of H with context [Mesh.fold_M ?f ?l ?a ?s] =>
    destruct (Mesh.fold_M f l a s) as [[tan1'|] s1] eqn:E end;
    (apply fold_M_state in E;
       [|intros; eapply computeTangents_step_state; eassumption]); subst s1; [|discriminate].
  match type of H with context [Mesh.fold_M ?f ?l ?a ?s] =>
    destruct (Mesh.fold_M f l a s) as [[tangents'|] s1] eqn:E end;
    (apply fold_M_state in E;
       [|intros; eapply computeTangents_vertex_state; eassumption]); subst s1; [|discriminate].
  match type of H with context [Mesh.createVertexBuffer ?n ?at' ?sp ?d ?s ?x] =>
    destruct (Mesh.createVertexBuffer n at' sp d s x) as [[b1|] [m1 w1]] eqn:E end;
    [|discriminate].
  apply createVertexBuffer_frame in E. injection H as _ <- _. subst m1.
  cbn [Mesh.vertexBuffers Mesh.set_vertexBuffers].
  rewrite obj_get_set_ne by discriminate. exact Hvb.
Qed.

(** C9. [computeNormals] and [computeTangents] leave the buffer
    ["vertices"] of the mesh as it was; on a mesh without that buffer they
    write a diagnostic on the console and change nothing else. *)
Theorem processors_keep_the_positions :
  (forall st m w r m' w',
     Mesh.computeNormals st (m, w) = (Ok r, (m', w')) ->
     obj_get (Mesh.vertexBuffers m') "vertices" = obj_get (Mesh.vertexBuffers m) "vertices") /\
  (forall m w r m' w',
     Mesh.computeTangents (m, w) = (Ok r, (m', w')) ->
     obj_get (Mesh.vertexBuffers m') "vertices" = obj_get (Mesh.vertexBuffers m) "vertices") /\
  (forall st m w,
     obj_get (Mesh.vertexBuffers m) "vertices" = None ->
     Mesh.computeNormals st (m, w)
     = (Ok None, (m, emit (console_error no_vertices_for_normals) w))) /\
  (forall m w,
     obj_get (Mesh.vertexBuffers m) "vertices" = None ->
     Mesh.computeTangents (m, w)
     = (Ok tt, (m, emit (console_error no_vertices_for_tangents) w))).
Proof.
  split; [|split; [|split]].
  - intros. eapply computeNormals_frame; eassumption.
  - intros. eapply computeTangents_frame; eassumption.
  - intros st m w H. unfold Mesh.computeNormals. mstep. rewrite H. reflexivity.
  - intros m w H. unfold Mesh.computeTangents. mstep. rewrite H. reflexivity.
Qed.

Lemma sub_self_zero (a : num) :
  JS.is_finite a = true -> (a - a)%js = Int 0 \/ (a - a)%js = Flt 0.
Proof.
  destruct a as [z|f]; simpl.
  - intros _. left. rewrite Z.sub_diag. reflexivity.
  - intros H. apply andb_true_iff in H. destruct H as [Hn Hi].
    apply negb_true_iff in Hn, Hi. right. f_equal. apply sub_diag_finite; assumption.
Qed.

(** ** [computeIndices] *)

(** A vertex is within the welding threshold of itself when its
    coordinates are finite. *)
Lemma squaredDistance_self (x y z : num) :
  JS.is_finite x = true -> JS.is_finite y = true -> JS.is_finite z = true ->
  (vec3.squaredDistance (x, y, z) (x, y, z) < Mesh.weld_threshold)%js = true.
Proof.
  intros Hx Hy Hz. unfold vec3.squaredDistance.
  destruct (sub_self_zero x Hx) as [-> | ->], (sub_self_zero y Hy) as [-> | ->],
    (sub_self_zero z Hz) as [-> | ->]; vm_compute; reflexivity.
Qed.

Lemma vector_at_typed {S} (a : TypedArray) i n (s : S) :
  Mesh.vector_at (Typed a) i n s
  = (Ok (TA.view_elems a (TA.subarray a (Int (i * n)) (Int ((i + 1) * n)))), s).
Proof. reflexivity. Qed.

Lemma push_vector_ok {S} d i n rows (s : S) :
  typed_or_nothing d ->
  exists rows', Mesh.push_vector d i n rows s = (Ok rows', s) /\
    (d = NoData -> rows' = rows) /\ (d <> NoData -> rows' <> []).
Proof.
  destruct d as [|xs|a]; intros Hd; [|elim Hd|].
  - exists rows. repeat split; congruence.
  - eexists. split; [reflexivity|]. split; [discriminate|].
    intros _. destruct rows; discriminate.
Qed.

Lemma computeIndices_step_new vd nd cd st i v (s : Mesh.St) j bucket :
  Mesh.vector_at vd i 3 s = (Ok v, s) ->
  typed_or_nothing nd -> typed_or_nothing cd ->
  (Mesh.indexer st !! Mesh.bucket_key v = None /\ j = 0 /\ bucket = [0] \/
   exists cs, Mesh.indexer st !! Mesh.bucket_key v = Some cs /\
     Mesh.find_candidate (Mesh.new_vertices st) v cs 0 = Some (Z.of_nat (List.length cs)) /\
     j = Z.of_nat (List.length cs) /\ bucket = cs ++ [j]) ->
  exists ns cs,
    Mesh.computeIndices_step vd nd cd st i s
    = (Ok (Mesh.mkWelding (Mesh.new_vertices st ++ [v]) ns cs (Mesh.indices st ++ [Int j])
             (<[Mesh.bucket_key v := bucket]> (Mesh.indexer st))), s) /\
    (nd = NoData -> ns = Mesh.new_normals st) /\
    (nd <> NoData -> ns <> []) /\
    (cd = NoData -> cs = Mesh.new_coords st) /\
    (cd <> NoData -> cs <> []).
Proof.
  intros Hv Hnd Hcd Hkey.
  destruct (push_vector_ok nd i 3 (Mesh.new_normals st) s Hnd) as (ns & Hns & Hn1 & Hn2).
  destruct (push_vector_ok cd i 2 (Mesh.new_coords st) s Hcd) as (cs' & Hcs & Hc1 & Hc2).
  exists ns, cs'.
  unfold Mesh.computeIndices_step. unfold bind at 1. rewrite Hv. cbv zeta.
  destruct Hkey as [(Hnone & -> & ->)|(cs & Hsome & Hfind & -> & ->)].
  - rewrite Hnone. mstep'. rewrite Hns, Hcs. repeat split; eauto.
  - rewrite Hsome, Hfind. mstep'. rewrite Z.eqb_refl. cbn [negb]. rewrite Hns, Hcs.
    repeat split; eauto.
Qed.

Lemma computeIndices_step_weld vd nd cd st i v cs j (s : Mesh.St) :
  Mesh.vector_at vd i 3 s = (Ok v, s) ->
  Mesh.indexer st !! Mesh.bucket_key v = Some cs ->
  Mesh.find_candidate (Mesh.new_vertices st) v cs 0 = Some j ->
  j <> Z.of_nat (List.length cs) ->
  Mesh.computeIndices_step vd nd cd st i s
  = (Ok (Mesh.mkWelding (Mesh.new_vertices st) (Mesh.new_normals st) (Mesh.new_coords st)
           (Mesh.indices st ++ [Int j]) (Mesh.indexer st)), s).
Proof.
  intros Hv Hsome Hfind Hj.
  unfold Mesh.computeIndices_step. unfold bind at 1. rewrite Hv. cbv zeta.
  rewrite Hsome, Hfind. mstep'.
  apply Z.eqb_neq in Hj. rewrite Hj. reflexivity.
Qed.

Lemma createVertexBuffer_typed name attr sp (a : TypedArray) st (m : Mesh.t) (w : World) ty :
  attr <> EmptyString ->
  Buffer.gl_type_of (TA.kind a) = Some ty ->
  exists b w',
    Mesh.createVertexBuffer name (Some attr) (Some sp) (Typed a) st (m, w)
    = (Ok b, (Mesh.set_vertexBuffers (obj_set (Mesh.vertexBuffers m) name b) m, w')) /\
    Buffer.data b = Typed a.
Proof.
  intros Hattr Hty. unfold Mesh.createVertexBuffer.
  assert (Htr : Mesh.string_truthy (Some attr) = true).
  { unfold Mesh.string_truthy. apply negb_true_iff, String.eqb_neq, Hattr. }
  assert (Hat : match obj_get Mesh.common_buffers name with
                | Some c => if Mesh.string_truthy (Some attr) then Some attr
                            else Some (Mesh.si_attribute c)
                | None => Some attr
                end = Some attr).
  { rewrite Htr. destruct (obj_get Mesh.common_buffers name); reflexivity. }
  rewrite Hat, Htr. cbn [negb]. mstep'.
  match goal with |- context [Buffer.new ?t ?d ?sp' ?s ?g ?x] =>
    destruct (Buffer_new_typed t a sp' s g x ty Hty) as (b & w' & Hnew & Hd & _) end.
  rewrite Hnew. mstep'.
  eexists _, w'. split; [reflexivity|].
  destruct (_ && _); exact Hd.
Qed.

Lemma linearizeArray_nonempty {S} (rows : list (list num)) :
  rows <> [] -> exists a, Mesh.linearizeArray (S:=S) rows = ret a /\ TA.kind a = Float32Array.
Proof.
  destruct rows as [|first rest]; [congruence|]. intros _.
  eexists. split; reflexivity.
Qed.

Lemma create_stream_ok d name attr sp rows (m : Mesh.t) (w : World) :
  attr <> EmptyString ->
  (d <> NoData -> rows <> []) ->
  exists m' w',
    Mesh.create_stream d name attr sp rows (m, w) = (Ok tt, (m', w')) /\
    Mesh.indexBuffers m' = Mesh.indexBuffers m /\
    forall k, k <> name ->
      obj_get (Mesh.vertexBuffers m') k = obj_get (Mesh.vertexBuffers m) k.
Proof.
  intros Hattr Hrows. unfold Mesh.create_stream.
  assert (Hcreate : rows <> [] -> exists m' w',
            (a <- Mesh.linearizeArray rows;;
             Mesh.createVertexBuffer name (Some attr) (Some (Int sp)) (Typed a) None;;; ret tt)
              (m, w) = (Ok tt, (m', w')) /\
            Mesh.indexBuffers m' = Mesh.indexBuffers m /\
            forall k, k <> name ->
              obj_get (Mesh.vertexBuffers m') k = obj_get (Mesh.vertexBuffers m) k).
  { intros Hne. destruct (linearizeArray_nonempty (S:=Mesh.St) rows Hne) as (a & Hlin & Hk).
    rewrite Hlin. mstep'.
    destruct (createVertexBuffer_typed name attr (Int sp) a None m w FLOAT Hattr) as
      (b & w' & Hrun & _); [now rewrite Hk|].
    rewrite Hrun. eexists _, _. split; [reflexivity|]. split; [reflexivity|].
    intros k Hk'. cbn. apply obj_get_set_ne. congruence. }
  destruct d; [eexists _, _; repeat split| |]; apply Hcreate, Hrows; discriminate.
Qed.

Lemma computeIndices_finish (m : Mesh.t) (w : World) vb (a : TypedArray) st vs :
  obj_get (Mesh.vertexBuffers m) "vertices" = Some vb ->
  Buffer.data vb = Typed a ->
  Mesh.fold_M (Mesh.computeIndices_step (Typed a)
                 (Mesh.buffer_data (Mesh.vertexBuffers m) "normals")
                 (Mesh.buffer_data (Mesh.vertexBuffers m) "coords"))
    (Mesh.loop_below (Int (TA.length a) / Int 3)%js (TA.length a))
    (Mesh.mkWelding [] [] [] [] ∅) (m, w) = (Ok st, (m, w)) ->
  Mesh.linearizeArray (S:=Mesh.St) (Mesh.new_vertices st) = ret vs ->
  TA.kind vs = Float32Array ->
  (Mesh.buffer_data (Mesh.vertexBuffers m) "normals" <> NoData -> Mesh.new_normals st <> []) ->
  (Mesh.buffer_data (Mesh.vertexBuffers m) "coords" <> NoData -> Mesh.new_coords st <> []) ->
  exists m' w' vb' tb',
    Mesh.computeIndices (m, w) = (Ok tt, (m', w')) /\
    obj_get (Mesh.vertexBuffers m') "vertices" = Some vb' /\
    Buffer.data vb' = Typed vs /\
    obj_get (Mesh.indexBuffers m') "triangles" = Some tb' /\
    Buffer.data tb'
    = Typed (TA.of_list (Mesh.index_datatype (Int (TA.length vs) / Int 3)%js)
               (Mesh.indices st)).
Proof.
  intros Hvb Hdata Hfold Hlin Hkind Hn Hc.
  unfold Mesh.computeIndices. unfold bind at 1. unfold Mesh.this at 1. cbn [fst].
  rewrite Hvb. cbv zeta. rewrite Hdata. cbn [Mesh.data_length].
  unfold bind at 1. rewrite Hfold.
  unfold bind at 1. unfold Mesh.update, modify. cbn [fst snd].
  unfold bind at 1. rewrite Hlin. unfold ret at 1.
  set (m0 := Mesh.set_vertexBuffers [] m).
  destruct (createVertexBuffer_typed "vertices" "a_vertex" (Int 3) vs None m0 w FLOAT)
    as (b1 & w1 & Hrun1 & Hd1); [discriminate|now rewrite Hkind|].
  unfold bind at 1. rewrite Hrun1.
  set (m1 := Mesh.set_vertexBuffers _ m0).
  destruct (create_stream_ok (Mesh.buffer_data (Mesh.vertexBuffers m) "normals")
              "normals" "a_normal" 3 (Mesh.new_normals st) m1 w1)
    as (m2 & w2 & Hrun2 & Hi2 & Hv2); [discriminate|exact Hn|].
  unfold bind at 1. rewrite Hrun2.
  destruct (create_stream_ok (Mesh.buffer_data (Mesh.vertexBuffers m) "coords")
              "coords" "a_coord" 2 (Mesh.new_coords st) m2 w2)
    as (m3 & w3 & Hrun3 & Hi3 & Hv3); [discriminate|exact Hc|].
  unfold bind at 1. rewrite Hrun3.
  assert (Hv : obj_get (Mesh.vertexBuffers m3) "vertices" = Some b1).
  { rewrite Hv3, Hv2 by discriminate. apply obj_get_set_eq. }
  destruct (createIndexBuffer_plain "triangles" (Mesh.indices st) None m3 w3 b1 vs Hv Hd1)
    as (b4 & w4 & Hrun4 & Hd4).
  unfold bind at 1. rewrite Hrun4. unfold ret.
  eexists _, w4, b1, b4. split; [reflexivity|].
  cbn [Mesh.vertexBuffers Mesh.indexBuffers Mesh.set_indexBuffers].
  split; [exact Hv|]. split; [exact Hd1|]. split; [apply obj_get_set_eq|exact Hd4].
Qed.

Lemma loop_of_two_vertices : Mesh.loop_below (Int 6 / Int 3)%js 6 = [0; 1].
Proof. reflexivity. Qed.

(** The welding loop on two vertices: the first one opens a bucket, and
    the second one is either found there or added. *)
Lemma weld_two_vertices (a : TypedArray) nd cd x1 y1 z1 x2 y2 z2 (s : Mesh.St) :
  TA.elems a = [x1; y1; z1; x2; y2; z2] ->
  typed_or_nothing nd -> typed_or_nothing cd ->
  let near := (vec3.squaredDistance (x2, y2, z2) (x1, y1, z1) < Mesh.weld_threshold)%js in
  let same_bucket :=
    bool_decide (Mesh.bucket_key [x1; y1; z1] = Mesh.bucket_key [x2; y2; z2]) in
  exists st,
    Mesh.fold_M (Mesh.computeIndices_step (Typed a) nd cd) [0; 1]
      (Mesh.mkWelding [] [] [] [] ∅) s = (Ok st, s) /\
    Mesh.new_vertices st
    = (if same_bucket && near then [[x1; y1; z1]] else [[x1; y1; z1]; [x2; y2; z2]]) /\
    Mesh.indices st
    = [Int 0; Int (if same_bucket && negb near then 1 else 0)] /\
    (nd <> NoData -> Mesh.new_normals st <> []) /\
    (cd <> NoData -> Mesh.new_coords st <> []).
Proof.
  intros Helems Hnd Hcd near same_bucket.
  assert (Hv1 : Mesh.vector_at (Typed a) 0 3 s = (Ok [x1; y1; z1], s)).
  { rewrite vector_at_typed. destruct a as [k el]. cbn in Helems. subst el. reflexivity. }
  assert (Hv2 : Mesh.vector_at (Typed a) 1 3 s = (Ok [x2; y2; z2], s)).
  { rewrite vector_at_typed. destruct a as [k el]. cbn in Helems. subst el. reflexivity. }
  set (init := Mesh.mkWelding [] [] [] [] ∅).
  destruct (computeIndices_step_new (Typed a) nd cd init 0 [x1; y1; z1] s 0 [0] Hv1 Hnd Hcd)
    as (ns1 & cs1 & Hstep1 & Hn1 & Hn1' & Hc1 & Hc1').
  { left. split; [apply lookup_empty|]. split; reflexivity. }
  cbn [Mesh.fold_M]. unfold bind at 1. rewrite Hstep1. cbv beta iota.
  unfold bind at 1.
  set (st1 := Mesh.mkWelding _ ns1 cs1 _ _).
  unfold same_bucket. case_bool_decide as Hkey.
  - (* the second vertex falls in the bucket of the first *)
    assert (Hlook : Mesh.indexer st1 !! Mesh.bucket_key [x2; y2; z2] = Some [0]).
    { cbn. rewrite <- Hkey. apply lookup_insert_eq. }
    assert (Hfind : Mesh.find_candidate (Mesh.new_vertices st1) [x2; y2; z2] [0] 0
                    = if near then Some 0 else Some 1) by reflexivity.
    destruct near eqn:Hnear.
    + rewrite (computeIndices_step_weld (Typed a) nd cd st1 1 [x2; y2; z2] [0] 0 s Hv2 Hlook
                 Hfind) by discriminate.
      cbv beta iota. unfold ret. eexists. split; [reflexivity|]. cbn. repeat split; auto.
    + destruct (computeIndices_step_new (Typed a) nd cd st1 1 [x2; y2; z2] s 1 [0; 1]
                  Hv2 Hnd Hcd) as (ns2 & cs2 & Hstep2 & Hn2 & Hn2' & Hc2 & Hc2').
      { right. exists [0]. split; [exact Hlook|]. split; [exact Hfind|split; reflexivity]. }
      rewrite Hstep2. cbv beta iota. unfold ret.
      eexists. split; [reflexivity|]. cbn. repeat split; auto.
  - (* the second vertex opens a bucket of its own *)
    destruct (computeIndices_step_new (Typed a) nd cd st1 1 [x2; y2; z2] s 0 [0]
                Hv2 Hnd Hcd) as (ns2 & cs2 & Hstep2 & Hn2 & Hn2' & Hc2 & Hc2').
    { left. split; [|split; reflexivity].
      cbn. rewrite lookup_insert_ne by exact Hkey. apply lookup_empty. }
    rewrite Hstep2. cbv beta iota. unfold ret.
    eexists. split; [reflexivity|]. cbn. repeat split; auto.
Qed.

(** [computeIndices] on a mesh of two vertices: what the vertex and index
    buffers hold afterwards. *)
Lemma computeIndices_two_vertices (m : Mesh.t) (w : World) vb (a : TypedArray)
    x1 y1 z1 x2 y2 z2 :
  obj_get (Mesh.vertexBuffers m) "vertices" = Some vb ->
  Buffer.data vb = Typed a ->
  TA.elems a = [x1; y1; z1; x2; y2; z2] ->
  typed_or_nothing (Mesh.buffer_data (Mesh.vertexBuffers m) "normals") ->
  typed_or_nothing (Mesh.buffer_data (Mesh.vertexBuffers m) "coords") ->
  let near := (vec3.squaredDistance (x2, y2, z2) (x1, y1, z1) < Mesh.weld_threshold)%js in
  let same_bucket :=
    bool_decide (Mesh.bucket_key [x1; y1; z1] = Mesh.bucket_key [x2; y2; z2]) in
  exists m' w' vb' tb',
    Mesh.computeIndices (m, w) = (Ok tt, (m', w')) /\
    obj_get (Mesh.vertexBuffers m') "vertices" = Some vb' /\
    Buffer.data vb'
    = Typed (TA.of_list Float32Array
               (if same_bucket && near then [x1; y1; z1]
                else [x1; y1; z1; x2; y2; z2])) /\
    obj_get (Mesh.indexBuffers m') "triangles" = Some tb' /\
    Buffer.data tb'
    = Typed (TA.mk Uint16Array [Int 0; Int (if same_bucket && negb near then 1 else 0)]).
Proof.
  intros Hvb Hdata Helems Hnd Hcd near same_bucket.
  assert (Hlen : TA.length a = 6).
  { unfold TA.length. rewrite Helems. reflexivity. }
  destruct (weld_two_vertices a _ _ x1 y1 z1 x2 y2 z2 (m, w) Helems Hnd Hcd)
    as (st & Hfold & Hnv & Hidx & Hn & Hc).
  fold near same_bucket in Hnv, Hidx.
  assert (Hlin : exists vs, Mesh.linearizeArray (S:=Mesh.St) (Mesh.new_vertices st) = ret vs /\
            TA.kind vs = Float32Array /\ TA.length vs = (if same_bucket && near then 3 else 6) /\
            vs = TA.of_list Float32Array
                   (if same_bucket && near then [x1; y1; z1] else [x1; y1; z1; x2; y2; z2])).
  { rewrite Hnv. destruct (same_bucket && near); eexists; repeat split. }
  destruct Hlin as (vs & Hlin & Hk & Hvl & Hvs).
  destruct (computeIndices_finish m w vb a st vs Hvb Hdata) as
    (m' & w' & vb' & tb' & Hrun & Hv' & Hd' & Ht' & Htd'); auto.
  { rewrite Hlen. rewrite loop_of_two_vertices. exact Hfold. }
  exists m', w', vb', tb'. split; [exact Hrun|]. split; [exact Hv'|].
  split; [rewrite Hd', Hvs; reflexivity|]. split; [exact Ht'|].
  rewrite Htd', Hidx, Hvl. destruct (same_bucket && near), (same_bucket && negb near);
    reflexivity.
Qed.

(** C2, amended. [computeIndices] on two vertices of identical finite
    coordinates leaves one vertex, and both indices are 0; on two vertices
    whose squared distance, as [vec3.sqrDist] computes it, is at least
    0.01 it leaves both vertices. *)
Theorem computeIndices_welds_two_vertices :
  (forall (m : Mesh.t) (w : World) vb (a : TypedArray) x y z,
     obj_get (Mesh.vertexBuffers m) "vertices" = Some vb ->
     Buffer.data vb = Typed a ->
     TA.elems a = [x; y; z; x; y; z] ->
     JS.is_finite x = true -> JS.is_finite y = true -> JS.is_finite z = true ->
     typed_or_nothing (Mesh.buffer_data (Mesh.vertexBuffers m) "normals") ->
     typed_or_nothing (Mesh.buffer_data (Mesh.vertexBuffers m) "coords") ->
     exists m' w' vb' tb',
       Mesh.computeIndices (m, w) = (Ok tt, (m', w')) /\
       obj_get (Mesh.vertexBuffers m') "vertices" = Some vb' /\
       Buffer.data vb' = Typed (TA.of_list Float32Array [x; y; z]) /\
       obj_get (Mesh.indexBuffers m') "triangles" = Some tb' /\
       Buffer.data tb' = Typed (TA.mk Uint16Array [Int 0; Int 0])) /\
  (forall (m : Mesh.t) (w : World) vb (a : TypedArray) x1 y1 z1 x2 y2 z2,
     obj_get (Mesh.vertexBuffers m) "vertices" = Some vb ->
     Buffer.data vb = Typed a ->
     TA.elems a = [x1; y1; z1; x2; y2; z2] ->
     (Mesh.weld_threshold <= vec3.squaredDistance (x2, y2, z2) (x1, y1, z1))%js = true ->
     typed_or_nothing (Mesh.buffer_data (Mesh.vertexBuffers m) "normals") ->
     typed_or_nothing (Mesh.buffer_data (Mesh.vertexBuffers m) "coords") ->
     exists m' w' vb',
       Mesh.computeIndices (m, w) = (Ok tt, (m', w')) /\
       obj_get (Mesh.vertexBuffers m') "vertices" = Some vb' /\
       Buffer.data vb' = Typed (TA.of_list Float32Array [x1; y1; z1; x2; y2; z2])).
Proof.
  split.
  - intros m w vb a x y z Hvb Hdata Helems Hx Hy Hz Hnd Hcd.
    destruct (computeIndices_two_vertices m w vb a x y z x y z Hvb Hdata Helems Hnd Hcd)
      as (m' & w' & vb' & tb' & Hrun & Hv & Hd & Ht & Htd).
    rewrite (squaredDistance_self x y z Hx Hy Hz) in Hd, Htd.
    rewrite bool_decide_eq_true_2 in Hd, Htd by reflexivity.
    exists m', w', vb', tb'. auto.
  - intros m w vb a x1 y1 z1 x2 y2 z2 Hvb Hdata Helems Hfar Hnd Hcd.
    destruct (computeIndices_two_vertices m w vb a x1 y1 z1 x2 y2 z2 Hvb Hdata Helems Hnd Hcd)
      as (m' & w' & vb' & tb' & Hrun & Hv & Hd & _).
    apply le_not_gt in Hfar. unfold JS.gt in Hfar. rewrite Hfar, andb_false_r in Hd.
    exists m', w', vb'. auto.
Qed.

(** C2, counterexample. [computeIndices] on two vertices of identical
    coordinates [(Infinity, 0, 0)] leaves two vertices, with the indices 0
    and 1. *)
Lemma computeIndices_keeps_two_infinite_vertices :
  let a := TA.of_list Float32Array
             [Flt infinity; Int 0; Int 0; Flt infinity; Int 0; Int 0] in
  let m := Mesh.mk false [("vertices", plain_buffer ARRAY_BUFFER a)] [] [] None in
  exists m' w' vb' tb',
    Mesh.computeIndices (m, w0) = (Ok tt, (m', w')) /\
    obj_get (Mesh.vertexBuffers m') "vertices" = Some vb' /\
    Buffer.data vb' = Typed a /\
    obj_get (Mesh.indexBuffers m') "triangles" = Some tb' /\
    Buffer.data tb' = Typed (TA.mk Uint16Array [Int 0; Int 1]).
Proof. vm_compute. eexists _, _, _, _. repeat split. Qed.

(** ** Reading and writing the elements of a typed array *)

Lemma length_set a i v : TA.length (TA.set a i v) = TA.length a.
Proof.
  unfold TA.set, TA.length. destruct (i <? 0); [reflexivity|].
  cbn. now rewrite length_insert.
Qed.

Lemma get_set_eq a i v :
  0 <= i < TA.length a -> TA.get (TA.set a i v) i = Some (TA.coerce (TA.kind a) v).
Proof.
  unfold TA.get, TA.set, TA.length. intros H.
  destruct (i <? 0) eqn:E; [apply Z.ltb_lt in E; lia|]. cbn.
  apply list_lookup_insert_eq. lia.
Qed.

Lemma get_set_ne a i j v : i <> j -> TA.get (TA.set a i v) j = TA.get a j.
Proof.
  unfold TA.get, TA.set. intros H.
  destruct (j <? 0) eqn:Ej; [reflexivity|].
  destruct (i <? 0) eqn:Ei; [reflexivity|]. cbn.
  apply Z.ltb_ge in Ei, Ej. apply list_lookup_insert_ne. lia.
Qed.

Lemma kind_write3 a off x : TA.kind (write3 a off x) = TA.kind a.
Proof. destruct x as [[x0 x1] x2]. unfold write3. now rewrite !kind_set. Qed.

Lemma length_write3 a off x : TA.length (write3 a off x) = TA.length a.
Proof. destruct x as [[x0 x1] x2]. unfold write3. now rewrite !length_set. Qed.

Lemma read3_write3_eq a off x :
  0 <= off -> off + 3 <= TA.length a ->
  read3 (write3 a off x) off = coerce3 (TA.kind a) x.
Proof.
  intros H0 H1. destruct x as [[x0 x1] x2]. unfold read3, write3, coerce3.
  rewrite (get_set_ne _ (off + 2) off), (get_set_ne _ (off + 1) off) by lia.
  rewrite (get_set_ne _ (off + 2) (off + 1)) by lia.
  rewrite !get_set_eq by (rewrite ?length_set; lia).
  rewrite !kind_set. reflexivity.
Qed.

Lemma read3_write3_ne a off off' x :
  off' + 3 <= off \/ off + 3 <= off' ->
  read3 (write3 a off x) off' = read3 a off'.
Proof.
  intros H. destruct x as [[x0 x1] x2]. unfold read3, write3.
  rewrite !get_set_ne by lia. reflexivity.
Qed.

(** ** The views of the vertices *)

Lemma triple_at_vertex a n i :
  TA.length a = 3 * n -> 0 <= i < n -> 3 * n <= JS.safe_bound ->
  Mesh.triple_at a (Int (3 * i)) = TA.mkView (3 * i) 3.
Proof.
  intros Hlen Hi Hb. unfold Mesh.triple_at, TA.subarray, JS.add, JS.of_Z.
  assert ((Z.abs (3 * i + 3) <=? JS.safe_bound) = true) as -> by (apply Z.leb_le; lia).
  unfold JS.relative_index. rewrite Hlen.
  assert ((3 * i <? 0) = false) as -> by (apply Z.ltb_ge; lia).
  assert ((3 * i + 3 <? 0) = false) as -> by (apply Z.ltb_ge; lia).
  f_equal; lia.
Qed.

Lemma triple_at_outside a n i :
  TA.length a = 3 * n -> n <= i -> 0 <= n -> 3 * i + 3 <= JS.safe_bound ->
  Mesh.triple_at a (Int (3 * i)) = TA.mkView (3 * n) 0.
Proof.
  intros Hlen Hi Hn Hb. unfold Mesh.triple_at, TA.subarray, JS.add, JS.of_Z.
  assert ((Z.abs (3 * i + 3) <=? JS.safe_bound) = true) as -> by (apply Z.leb_le; lia).
  unfold JS.relative_index. rewrite Hlen.
  assert ((3 * i <? 0) = false) as -> by (apply Z.ltb_ge; lia).
  assert ((3 * i + 3 <? 0) = false) as -> by (apply Z.ltb_ge; lia).
  f_equal; lia.
Qed.

Lemma read_view3 a off : vec3.read a (TA.mkView off 3) = read3 a off.
Proof. unfold vec3.read, read3, TA.view_get. cbn. now rewrite Z.add_0_r. Qed.

Lemma write_view3 a off x : vec3.write a (TA.mkView off 3) x = write3 a off x.
Proof.
  destruct x as [[x0 x1] x2]. unfold vec3.write, write3, TA.view_set. cbn.
  now rewrite Z.add_0_r.
Qed.

Lemma read_view0 a off : vec3.read a (TA.mkView off 0) = (JS.NaN, JS.NaN, JS.NaN).
Proof. reflexivity. Qed.

Lemma write_view0 a off x : vec3.write a (TA.mkView off 0) x = a.
Proof. destruct x as [[x0 x1] x2]. reflexivity. Qed.

(** ** What [computeNormals] computes, vertex by vertex *)

Section Accumulate.

Variable n : Z.
Hypothesis n_nonneg : 0 <= n.
Hypothesis n_safe : 3 * n <= JS.safe_bound.

Lemma add_to_view_array ns i temp :
  normals_array n ns -> 0 <= i -> 3 * i + 3 <= JS.safe_bound ->
  normals_array n (Mesh.add_to_view ns (Mesh.triple_at ns (Int (3 * i))) temp).
Proof.
  intros [Hkind Hlen] Hi Hb. unfold Mesh.add_to_view.
  destruct (Z.lt_ge_cases i n) as [Hin|Hout].
  - rewrite (triple_at_vertex ns n i Hlen) by lia. rewrite write_view3.
    split; [now rewrite kind_write3|now rewrite length_write3].
  - rewrite (triple_at_outside ns n i Hlen) by lia. rewrite write_view0. now split.
Qed.

Lemma add_to_view_vertex ns i temp k :
  normals_array n ns -> 0 <= i -> 3 * i + 3 <= JS.safe_bound -> 0 <= k < n ->
  vertex (Mesh.add_to_view ns (Mesh.triple_at ns (Int (3 * i))) temp) k
  = add_corner k temp (vertex ns k) i.
Proof.
  intros Hns Hi Hb Hk.
  pose proof (add_to_view_array ns i temp Hns Hi Hb) as [_ Hlen'].
  destruct Hns as [Hkind Hlen]. revert Hlen'.
  unfold Mesh.add_to_view, vertex, add_corner.
  destruct (Z.lt_ge_cases i n) as [Hin|Hout].
  - rewrite (triple_at_vertex ns n i Hlen) by lia.
    rewrite write_view3, read_view3. intros Hlen'.
    rewrite (triple_at_vertex _ n k Hlen'), (triple_at_vertex ns n k Hlen) by lia.
    rewrite !read_view3.
    destruct (i =? k) eqn:E.
    + apply Z.eqb_eq in E. subst k. rewrite read3_write3_eq by lia.
      rewrite Hkind. destruct (vec3.add _ _) as [[x0 x1] x2]. reflexivity.
    + apply Z.eqb_neq in E. apply read3_write3_ne. lia.
  - rewrite (triple_at_outside ns n i Hlen) by lia.
    rewrite write_view0. intros _.
    assert ((i =? k) = false) as -> by (apply Z.eqb_neq; lia). reflexivity.
Qed.

Lemma triple_at_same_length a b c :
  TA.length a = TA.length b -> Mesh.triple_at a c = Mesh.triple_at b c.
Proof. unfold Mesh.triple_at, TA.subarray. now intros ->. Qed.

Lemma computeNormals_step_spec {S} triangles vs ns a tri (s : S) :
  iteration_of triangles a tri -> normals_array n ns ->
  exists ns',
    Mesh.computeNormals_step triangles (Typed vs) ns a s = (Ok ns', s) /\
    normals_array n ns' /\
    forall k, 0 <= k < n -> vertex ns' k = add_triangle vs k (vertex ns k) tri.
Proof.
  destruct tri as [[i1 i2] i3]. intros (Hc & [H1 B1] & [H2 B2] & [H3 B3]) Hns.
  unfold Mesh.computeNormals_step. unfold bind, Mesh.typed, ret. rewrite Hc.
  fold (vertex vs i1) (vertex vs i2) (vertex vs i3).
  set (N := Mesh.plane_normal _ _ _).
  set (ns1 := Mesh.add_to_view ns (Mesh.triple_at ns (Int (3 * i1))) N).
  assert (Hns1 : normals_array n ns1) by (apply add_to_view_array; assumption).
  rewrite (triple_at_same_length ns ns1 (Int (3 * i2)))
    by (destruct Hns, Hns1; congruence).
  set (ns2 := Mesh.add_to_view ns1 (Mesh.triple_at ns1 (Int (3 * i2))) N).
  assert (Hns2 : normals_array n ns2) by (apply add_to_view_array; assumption).
  rewrite (triple_at_same_length ns ns2 (Int (3 * i3)))
    by (destruct Hns, Hns2; congruence).
  set (ns3 := Mesh.add_to_view ns2 (Mesh.triple_at ns2 (Int (3 * i3))) N).
  assert (Hns3 : normals_array n ns3) by (apply add_to_view_array; assumption).
  exists ns3. split; [reflexivity|]. split; [exact Hns3|].
  intros k Hk. unfold add_triangle. fold N.
  unfold ns3. rewrite (add_to_view_vertex ns2 i3 N k Hns2 H3 B3 Hk).
  unfold ns2. rewrite (add_to_view_vertex ns1 i2 N k Hns1 H2 B2 Hk).
  unfold ns1. rewrite (add_to_view_vertex ns i1 N k Hns H1 B1 Hk).
  reflexivity.
Qed.

Lemma accumulate_loop {S} triangles vs (s : S) iterations tris :
  Forall2 (iteration_of triangles) iterations tris ->
  forall ns, normals_array n ns ->
  exists ns',
    Mesh.fold_M (Mesh.computeNormals_step triangles (Typed vs)) iterations ns s = (Ok ns', s) /\
    normals_array n ns' /\
    forall k, 0 <= k < n -> vertex ns' k = fold_left (add_triangle vs k) tris (vertex ns k).
Proof.
  induction 1 as [|a tri iterations tris Hit _ IH]; intros ns Hns.
  - exists ns. split; [reflexivity|]. split; [exact Hns|]. reflexivity.
  - destruct (computeNormals_step_spec triangles vs ns a tri s Hit Hns)
      as (ns1 & Hstep & Hns1 & Hv1).
    destruct (IH ns1 Hns1) as (ns' & Hfold & Hns' & Hv').
    exists ns'. split; [|split; [exact Hns'|]].
    + cbn [Mesh.fold_M]. unfold bind. rewrite Hstep. exact Hfold.
    + intros k Hk. rewrite (Hv' k Hk), (Hv1 k Hk). reflexivity.
Qed.

End Accumulate.

(** ** The loops of [computeNormals] *)

Lemma count_up_by_3 (m : nat) :
  count_up 0 (3 * Z.of_nat m) 3 = map (fun j => 3 * Z.of_nat j) (seq 0 m).
Proof.
  unfold count_up.
  replace (3 * Z.of_nat m - 0 + 3 - 1) with (Z.of_nat m * 3 + 2) by lia.
  rewrite Z.div_add_l by lia. change (2 / 3) with 0.
  rewrite Z.add_0_r, Nat2Z.id. apply map_ext. intros j. lia.
Qed.

Lemma index_data_length tris :
  List.length (index_data tris) = (3 * List.length tris)%nat.
Proof.
  induction tris as [|[[i1 i2] i3] tris IH]; [reflexivity|].
  unfold index_data in *. cbn [map concat]. rewrite length_app, IH. cbn. lia.
Qed.

Lemma index_data_lookup tris : forall i i1 i2 i3,
  tris !! i = Some (i1, i2, i3) ->
  index_data tris !! (3 * i)%nat = Some (Int i1) /\
  index_data tris !! (3 * i + 1)%nat = Some (Int i2) /\
  index_data tris !! (3 * i + 2)%nat = Some (Int i3).
Proof.
  induction tris as [|[[j1 j2] j3] tris IH]; intros i i1 i2 i3 H; [discriminate|].
  destruct i as [|i].
  - injection H as -> -> ->. repeat split.
  - cbn in H. apply IH in H. destruct H as (H1 & H2 & H3).
    replace (3 * S i)%nat with (S (S (S (3 * i)))) by lia.
    repeat split; assumption.
Qed.

Section Loops.

Variable n : Z.
Hypothesis n_nonneg : 0 <= n.
Hypothesis n_safe : 9 * n <= JS.safe_bound.

Lemma unindexed_iterations :
  Forall2 (iteration_of None) (count_up 0 (3 * n) 3) (unindexed_triangles (3 * n)).
Proof.
  unfold unindexed_triangles. apply Forall2_fmap_r, Forall_Forall2_diag.
  replace (3 * n) with (3 * Z.of_nat (Z.to_nat n)) by lia.
  rewrite count_up_by_3. apply Forall_forall. intros a Ha.
  apply list_elem_of_fmap in Ha. destruct Ha as (j & -> & Hj). apply elem_of_seq in Hj.
  unfold iteration_of, Mesh.corners.
  split; [f_equal; [f_equal|]; f_equal; lia|]. lia.
Qed.

Lemma mul_3_index i : 0 <= i -> 3 * i <= JS.safe_bound -> (Int i * Int 3)%js = Int (3 * i).
Proof.
  intros H0 Hb. unfold JS.mul, JS.of_Z.
  assert ((i <? 0) = false) as -> by (apply Z.ltb_ge; lia).
  change (3 <? 0) with false. rewrite andb_false_r.
  assert ((Z.abs (i * 3) <=? JS.safe_bound) = true) as -> by (apply Z.leb_le; lia).
  f_equal. lia.
Qed.

Lemma indexed_iterations tris :
  Forall (in_range n) tris ->
  Forall2 (iteration_of (Some (index_data tris)))
    (count_up 0 (Z.of_nat (List.length (index_data tris))) 3) tris.
Proof.
  intros Hrange. rewrite index_data_length.
  replace (Z.of_nat (3 * List.length tris)) with (3 * Z.of_nat (List.length tris)) by lia.
  rewrite count_up_by_3.
  apply Forall2_same_length_lookup_2.
  - now rewrite length_map, length_seq.
  - intros i a [[i1 i2] i3] Ha Htri.
    rewrite list_lookup_fmap in Ha.
    destruct (seq 0 (List.length tris) !! i) as [j|] eqn:Hj; [|discriminate].
    apply lookup_seq in Hj. destruct Hj as [-> _]. injection Ha as <-.
    rewrite Forall_forall in Hrange.
    assert (Hr : in_range n (i1, i2, i3))
      by (apply Hrange; eapply list_elem_of_lookup_2, Htri).
    destruct Hr as (R1 & R2 & R3).
    destruct (index_data_lookup tris i i1 i2 i3 Htri) as (L1 & L2 & L3).
    unfold iteration_of, Mesh.corners.
    replace (Z.to_nat (3 * Z.of_nat i)) with (3 * i)%nat by lia.
    replace (Z.to_nat (3 * Z.of_nat i + 1)) with (3 * i + 1)%nat by lia.
    replace (Z.to_nat (3 * Z.of_nat i + 2)) with (3 * i + 2)%nat by lia.
    rewrite L1, L2, L3. cbn [JS.of_undefined default from_option id].
    rewrite !mul_3_index by lia. split; [reflexivity|]. lia.
Qed.

Lemma zeros_normals_array : normals_array n (TA.zeros Float32Array (Z.to_nat (3 * n))).
Proof.
  split; [reflexivity|]. unfold TA.length, TA.zeros. cbn. rewrite length_replicate. lia.
Qed.

Lemma zeros_vertex k :
  0 <= k < n -> vertex (TA.zeros Float32Array (Z.to_nat (3 * n))) k = vec3.create.
Proof.
  intros Hk. unfold vertex.
  rewrite (triple_at_vertex _ n k) by (try apply zeros_normals_array; lia).
  rewrite read_view3. unfold read3, TA.get, TA.zeros. cbn [TA.elems].
  assert ((3 * k <? 0) = false) as -> by (apply Z.ltb_ge; lia).
  assert ((3 * k + 1 <? 0) = false) as -> by (apply Z.ltb_ge; lia).
  assert ((3 * k + 2 <? 0) = false) as -> by (apply Z.ltb_ge; lia).
  rewrite !lookup_replicate_2 by lia. reflexivity.
Qed.

(** The second loop: every vertex normal is normalized in place. *)
Lemma normalize_view_vertex ns j k :
  normals_array n ns -> 0 <= j < n -> 0 <= k < n ->
  let ns' := Mesh.normalize_view ns (TA.subarray ns (Int (3 * j)) (Int (3 * j + 3))) in
  normals_array n ns' /\
  vertex ns' k = if j =? k then Mesh.normalize_f32 (vertex ns k) else vertex ns k.
Proof.
  intros [Hkind Hlen] Hj Hk.
  assert (Hview : TA.subarray ns (Int (3 * j)) (Int (3 * j + 3)) = TA.mkView (3 * j) 3).
  { rewrite <- (triple_at_vertex ns n j Hlen) by lia.
    unfold Mesh.triple_at, JS.add, JS.of_Z.
    assert ((Z.abs (3 * j + 3) <=? JS.safe_bound) = true) as -> by (apply Z.leb_le; lia).
    reflexivity. }
  cbv zeta. rewrite Hview. unfold Mesh.normalize_view, Mesh.normalize_f32, vertex.
  rewrite read_view3.
  rewrite (triple_at_vertex ns n k Hlen) by lia. rewrite read_view3.
  destruct (j =? k) eqn:E.
  - apply Z.eqb_eq in E. subst k.
    destruct (vec3.normalize (read3 ns (3 * j))) as [u|].
    + rewrite write_view3. split; [split; [now rewrite kind_write3|now rewrite length_write3]|].
      rewrite (triple_at_vertex _ n j) by (rewrite ?length_write3; lia).
      rewrite read_view3, read3_write3_eq by lia. rewrite Hkind.
      destruct u as [[u0 u1] u2]. reflexivity.
    + split; [now split|]. rewrite (triple_at_vertex ns n j Hlen) by lia.
      now rewrite read_view3.
  - apply Z.eqb_neq in E.
    destruct (vec3.normalize (read3 ns (3 * j))) as [u|].
    + rewrite write_view3. split; [split; [now rewrite kind_write3|now rewrite length_write3]|].
      rewrite (triple_at_vertex _ n k) by (rewrite ?length_write3; lia).
      rewrite read_view3. apply read3_write3_ne. lia.
    + split; [now split|]. rewrite (triple_at_vertex ns n k Hlen) by lia.
      now rewrite read_view3.
Qed.

Lemma normalize_pass (p : nat) : forall ns,
  normals_array n ns -> Z.of_nat p <= n ->
  let ns' := fold_left
               (fun normals a =>
                  Mesh.normalize_view normals (TA.subarray normals (Int a) (Int (a + 3))))
               (map (fun j => 3 * Z.of_nat j) (seq 0 p)) ns in
  normals_array n ns' /\
  forall k, 0 <= k < n ->
    vertex ns' k = if k <? Z.of_nat p then Mesh.normalize_f32 (vertex ns k) else vertex ns k.
Proof.
  induction p as [|p IH]; intros ns Hns Hp.
  - cbn [seq map fold_left]. split; [exact Hns|]. intros k Hk.
    assert ((k <? Z.of_nat 0) = false) as -> by (apply Z.ltb_ge; lia). reflexivity.
  - rewrite seq_S, map_app, fold_left_app. cbn [map fold_left plus].
    destruct (IH ns Hns ltac:(lia)) as [Hns1 Hv1]. cbv zeta in Hns1, Hv1.
    set (ns1 := fold_left _ _ ns) in *.
    split.
    + apply (normalize_view_vertex ns1 (Z.of_nat p) 0 Hns1); lia.
    + intros k Hk.
      rewrite (proj2 (normalize_view_vertex ns1 (Z.of_nat p) k Hns1 ltac:(lia) Hk)).
      rewrite (Hv1 k Hk).
      destruct (Z.of_nat p =? k) eqn:E1.
      * apply Z.eqb_eq in E1. subst k.
        assert ((Z.of_nat p <? Z.of_nat p) = false) as -> by (apply Z.ltb_ge; lia).
        assert ((Z.of_nat p <? Z.of_nat (S p)) = true) as -> by (apply Z.ltb_lt; lia).
        reflexivity.
      * apply Z.eqb_neq in E1.
        destruct (k <? Z.of_nat p) eqn:E2.
        -- assert ((k <? Z.of_nat (S p)) = true) as -> by (apply Z.ltb_lt; apply Z.ltb_lt in E2; lia).
           reflexivity.
        -- assert ((k <? Z.of_nat (S p)) = false) as -> by (apply Z.ltb_ge; apply Z.ltb_ge in E2; lia).
           reflexivity.
Qed.

End Loops.

Lemma upload_typed_ok st b w (a : TypedArray) ty :
  Buffer.data b = Typed a ->
  Buffer.gl_type_of (TA.kind a) = Some ty ->
  exists wb w', Buffer.upload st (b, w) = (Ok tt, (Buffer.set_buffer wb b, w')).
Proof.
  intros Hdata Hty.
  destruct (Buffer.gl b) eqn:Hgl.
  - destruct (Buffer.buffer b) as [wb|] eqn:Hb; [|destruct (context_lost w) eqn:Hl].
    + destruct (upload_spec st b w a ty Hgl Hdata Hty) as (h & cr & w' & Hrun & _).
      { left. congruence. }
      eexists _, _. exact Hrun.
    + unfold Buffer.upload. mstep. rewrite Hgl. cbn [negb]. rewrite Hdata. mstep.
      rewrite Hb. mstep. rewrite Hl. mstep. eexists _, _. reflexivity.
    + destruct (upload_spec st b w a ty Hgl Hdata Hty (or_intror Hl))
        as (h & cr & w' & Hrun & _).
      eexists _, _. exact Hrun.
  - unfold Buffer.upload. mstep. rewrite Hgl. cbn [negb]. mstep.
    exists (Buffer.buffer b), w. destruct b; reflexivity.
Qed.

(** The array of normals, for a mesh of [n] vertices. *)
Lemma computeNormals_array_spec {S} (vs : TypedArray) (n : Z) (s : S) :
  TA.length vs = 3 * n -> 0 <= n -> 9 * n <= JS.safe_bound ->
  (exists normals,
     Mesh.computeNormals_array (Typed vs) (3 * n) None s = (Ok normals, s) /\
     TA.kind normals = Float32Array /\
     forall k, 0 <= k < n ->
       vertex normals k = accumulated_normal vs (unindexed_triangles (3 * n)) k) /\
  (forall tris, Forall (in_range n) tris ->
   exists normals,
     Mesh.computeNormals_array (Typed vs) (3 * n) (Some (index_data tris)) s
     = (Ok normals, s) /\
     TA.kind normals = Float32Array /\
     forall k, 0 <= k < n ->
       vertex normals k = Mesh.normalize_f32 (accumulated_normal vs tris k)).
Proof.
  intros Hlen Hn Hsafe.
  assert (Hsafe3 : 3 * n <= JS.safe_bound) by lia.
  pose proof (zeros_normals_array n Hn) as Hz.
  split.
  - destruct (accumulate_loop n Hn Hsafe3 None vs s _ _ (unindexed_iterations n Hn Hsafe) _ Hz)
      as (ns & Hfold & [Hk Hl] & Hv).
    exists ns. unfold Mesh.computeNormals_array. unfold bind. rewrite Hfold.
    split; [reflexivity|]. split; [exact Hk|].
    intros k Hkr. rewrite (Hv k Hkr), (zeros_vertex n Hn Hsafe k Hkr). reflexivity.
  - intros tris Hrange.
    destruct (accumulate_loop n Hn Hsafe3 (Some (index_data tris)) vs s _ _
                (indexed_iterations n Hsafe tris Hrange) _ Hz)
      as (ns & Hfold & Hns & Hv).
    unfold Mesh.computeNormals_array. unfold bind. rewrite Hfold. unfold ret.
    destruct Hns as [Hk Hl].
    pose proof (normalize_pass n Hsafe (Z.to_nat n) ns (conj Hk Hl) ltac:(lia)) as Hpass.
    cbv zeta in Hpass. rewrite <- count_up_by_3 in Hpass.
    replace (3 * Z.of_nat (Z.to_nat n)) with (TA.length ns) in Hpass by lia.
    destruct Hpass as [[Hk' Hl'] Hv'].
    eexists. split; [reflexivity|]. split; [exact Hk'|].
    intros k Hkr. rewrite (Hv' k Hkr).
    assert ((k <? Z.of_nat (Z.to_nat n)) = true) as -> by (apply Z.ltb_lt; lia).
    rewrite (Hv k Hkr), (zeros_vertex n Hn Hsafe k Hkr). reflexivity.
Qed.

Lemma store_normals st (m : Mesh.t) (w : World) (normals : TypedArray) :
  TA.kind normals = Float32Array ->
  exists b m' w',
    match obj_get (Mesh.vertexBuffers m) "normals" with
    | Some _ =>
        Mesh.on_vertex_buffer "normals"
          (Buffer.update (Buffer.set_data (Typed normals));;;
           Buffer.upload st;;;
           b <- Buffer.this;;
           ret (Some b))
    | None =>
        b <- Mesh.createVertexBuffer "normals" (Some "a_normal") (Some (Int 3))
               (Typed normals) None;;
        ret (Some b)
    end (m, w) = (Ok (Some b), (m', w')) /\
    obj_get (Mesh.vertexBuffers m') "normals" = Some b /\
    Buffer.data b = Typed normals.
Proof.
  intros Hkind.
  destruct (obj_get (Mesh.vertexBuffers m) "normals") as [nb|] eqn:Hnb.
  - unfold Mesh.on_vertex_buffer. cbn [fst snd]. rewrite Hnb. mstep'.
    destruct (upload_typed_ok st (Buffer.set_data (Typed normals) nb) w normals FLOAT)
      as (wb & w' & Hup); [reflexivity|now rewrite Hkind|].
    rewrite Hup. eexists _, _, _. split; [reflexivity|].
    split; [apply obj_get_set_eq|reflexivity].
  - destruct (createVertexBuffer_typed "normals" "a_normal" (Int 3) normals None m w FLOAT)
      as (b & w' & Hrun & Hd); [discriminate|now rewrite Hkind|].
    unfold bind. rewrite Hrun. unfold ret.
    eexists _, _, _. split; [reflexivity|]. split; [apply obj_get_set_eq|exact Hd].
Qed.

(** C1, amended. The normal [computeNormals] stores for a vertex is the
    sum of the unit plane normals of the triangles at that vertex, rounded
    to 32-bit floats at every step; with an index buffer the sum is
    normalized, without one it is stored as it is. *)
Theorem computeNormals_adds_unit_plane_normals
    (m : Mesh.t) (w : World) (st : option Usage) (vb : Buffer.t) (vs : TypedArray) (n : Z) :
  obj_get (Mesh.vertexBuffers m) "vertices" = Some vb ->
  Buffer.data vb = Typed vs ->
  TA.length vs = 3 * n ->
  9 * n <= JS.safe_bound ->
  (obj_get (Mesh.indexBuffers m) "triangles" = None ->
   exists b m' w' normals,
     Mesh.computeNormals st (m, w) = (Ok (Some b), (m', w')) /\
     obj_get (Mesh.vertexBuffers m') "normals" = Some b /\
     Buffer.data b = Typed normals /\
     forall k, 0 <= k < n ->
       vertex normals k = accumulated_normal vs (unindexed_triangles (3 * n)) k) /\
  (forall tb tris,
     obj_get (Mesh.indexBuffers m) "triangles" = Some tb ->
     Mesh.index_values (Buffer.data tb) = Some (index_data tris) ->
     Forall (in_range n) tris ->
     exists b m' w' normals,
       Mesh.computeNormals st (m, w) = (Ok (Some b), (m', w')) /\
       obj_get (Mesh.vertexBuffers m') "normals" = Some b /\
       Buffer.data b = Typed normals /\
       forall k, 0 <= k < n ->
         vertex normals k = Mesh.normalize_f32 (accumulated_normal vs tris k)).
Proof.
  intros Hvb Hdata Hlen Hsafe.
  assert (Hn : 0 <= n) by (unfold TA.length in Hlen; lia).
  destruct (computeNormals_array_spec (S:=Mesh.St) vs n (m, w) Hlen Hn Hsafe) as [Hun Hix].
  split.
  - intros Htri. destruct Hun as (normals & Harr & Hkind & Hv).
    destruct (store_normals st m w normals Hkind) as (b & m' & w' & Hstore & Hget & Hd).
    exists b, m', w', normals. split; [|auto].
    unfold Mesh.computeNormals. unfold bind at 1. unfold Mesh.this at 1. cbn [fst].
    rewrite Hvb, Hdata. cbn [Mesh.data_length]. rewrite Hlen, Htri.
    unfold bind at 1. rewrite Harr. exact Hstore.
  - intros tb tris Htri Hvals Hrange.
    destruct (Hix tris Hrange) as (normals & Harr & Hkind & Hv).
    destruct (store_normals st m w normals Hkind) as (b & m' & w' & Hstore & Hget & Hd).
    exists b, m', w', normals. split; [|auto].
    unfold Mesh.computeNormals. unfold bind at 1. unfold Mesh.this at 1. cbn [fst].
    rewrite Hvb, Hdata. cbn [Mesh.data_length]. rewrite Hlen, Htri, Hvals.
    unfold bind at 1. rewrite Harr. exact Hstore.
Qed.

(** C1, counterexample. Two triangles of areas 1/2 and 1 share the
    vertex 0; [computeNormals] stores the bisector of their plane normals
    there, where the sum of the cross products, normalized, leans to the
    normal of the larger triangle. *)
Lemma computeNormals_ignores_the_areas :
  exists b normals,
    fst (Mesh.computeNormals None (two_triangles_mesh, w0)) = Ok (Some b) /\
    Buffer.data b = Typed normals /\
    vertex normals 0 = (Flt 0.7071067690849304, Flt 0, Flt 0.7071067690849304) /\
    area_weighted_normal two_triangles_vertices two_triangles 0
    = (Flt 0.89442718029022217, Flt 0, Flt 0.44721359014511108) /\
    vertex normals 0 <> area_weighted_normal two_triangles_vertices two_triangles 0.
Proof.
  eexists _, _. split; [vm_compute; reflexivity|]. split; [reflexivity|].
  split; [vm_compute; reflexivity|]. split; [vm_compute; reflexivity|].
  intros H. apply (f_equal (fun v : vec3.t => JS.to_float (fst (fst v)))) in H.
  vm_compute in H. revert H. apply float_neq. reflexivity.
Qed.

(* ================================================================= *)
(** * The statements at concrete inputs *)

Lemma upload_widens_int32_vertex_attributes_witness :
  exists wb w',
    Buffer.upload None (int32_buffer, w0) = (Ok tt, (Buffer.set_buffer (Some wb) int32_buffer, w')) /\
    Buffer.gl_type wb = Some FLOAT.
Proof.
  destruct (upload_widens_int32_vertex_attributes None int32_buffer w0
              (TA.of_list Int32Array [Int 1; Int 2; Int 3]) INT
              eq_refl eq_refl eq_refl (or_intror eq_refl))
    as (wb & w' & new & Hrun & _ & Hwide & _).
  exists wb, w'. split; [exact Hrun|].
  apply Hwide. split; [reflexivity|left; reflexivity].
Defined.

Lemma setData_longer_payload_throws_witness :
  let b := plain_buffer ARRAY_BUFFER (TA.of_list Float32Array [Int 1; Int 2]) in
  Buffer.setData (fun a _ _ => a) (Typed (TA.of_list Float32Array [Int 1; Int 2; Int 3]))
    false None (b, w0)
  = (Throw (Thrown "buffer is not big enough, you cannot set data to a smaller buffer"),
     (b, w0)).
Proof.
  intros b.
  apply (setData_longer_payload_throws (fun a _ _ => a) b w0
           (TA.of_list Float32Array [Int 1; Int 2])
           (TA.of_list Float32Array [Int 1; Int 2; Int 3]) false None);
    reflexivity.
Defined.

Lemma toJSON_fromJSON_round_trip_witness :
  let a := TA.of_list Uint16Array [Int 0; Int 1; Int 2] in
  let b := plain_buffer ELEMENT_ARRAY_BUFFER a in
  exists o b' w',
    Buffer.toJSON (b, w0) = (Ok (Some o), (b, w0)) /\
    Buffer.fromJSON o (plain_buffer ARRAY_BUFFER (TA.zeros Float32Array 0), w0) = (Ok tt, (b', w')) /\
    Buffer.spacing b' = Buffer.spacing b /\
    Buffer.attribute b' = Buffer.attribute b /\
    Buffer.target b' = Buffer.target b /\
    Buffer.data b' = Typed a.
Proof.
  intros a b.
  apply (toJSON_fromJSON_round_trip b w0 a); [reflexivity|repeat constructor|discriminate|reflexivity].
Defined.

Lemma index_width_follows_vertex_count_witness :
  exists b m' w',
    Mesh.createIndexBuffer "triangles" (PlainArray [Int 0; Int 1; Int 2]) None
      (unskinned_mesh, w0) = (Ok b, (m', w')) /\
    Buffer.data b = Typed (TA.of_list Uint16Array [Int 0; Int 1; Int 2]).
Proof.
  destruct (index_width_follows_vertex_count unskinned_mesh w0
              (plain_buffer ARRAY_BUFFER (TA.of_list Float32Array [Int 0; Int 0; Int 0]))
              (TA.of_list Float32Array [Int 0; Int 0; Int 0])
              "triangles" [Int 0; Int 1; Int 2] None eq_refl eq_refl)
    as (k & H16 & _ & (b & m' & w' & Hrun & _ & Hdata) & _).
  exists b, m', w'. split; [exact Hrun|].
  rewrite Hdata, (H16 eq_refl). reflexivity.
Defined.

Lemma computeBoundingBox_resets_on_NaN_witness :
  Mesh.computeBoundingBox (zero3, zero3) (fun _ center half_size => (center, half_size))
    (Typed nan_vertices) None None w0
  = (Ok (Some (zero3, zero3)), emit (console_warn Mesh.NaN_warning) w0).
Proof.
  apply (computeBoundingBox_resets_on_NaN (zero3, zero3)
           (fun _ center half_size => (center, half_size)) nan_vertices None None w0);
    reflexivity.
Defined.

Lemma mergeMeshes_index_width_witness :
  exists merged a,
    fst (Mesh.mergeMeshes keep4 keep3 only_data_options
           [Mesh.mkMeshInfo two_triangles_mesh []; Mesh.mkMeshInfo two_triangles_mesh []])
    = Ok merged /\
    obj_get (Mesh.m_indexBuffers merged) "triangles" = Some a /\
    TA.kind a = Uint16Array.
Proof.
  destruct (Mesh.mergeMeshes keep4 keep3 only_data_options
              [Mesh.mkMeshInfo two_triangles_mesh []; Mesh.mkMeshInfo two_triangles_mesh []])
    as [[merged|e] meshes'] eqn:Hrun; [|vm_compute in Hrun; discriminate].
  destruct (obj_get (Mesh.m_indexBuffers merged) "triangles") as [a|] eqn:Hget.
  - exists merged, a. split; [reflexivity|]. split; [exact Hget|].
    apply (mergeMeshes_index_width keep4 keep3 only_data_options _ meshes' merged Hrun
             "triangles" a Hget).
    reflexivity.
  - vm_compute in Hrun. injection Hrun as <- _. vm_compute in Hget. discriminate.
Defined.

Lemma processors_keep_the_positions_witness :
  obj_get (Mesh.vertexBuffers (fst (snd (Mesh.computeNormals None (two_triangles_mesh, w0)))))
    "vertices"
  = obj_get (Mesh.vertexBuffers two_triangles_mesh) "vertices".
Proof.
  destruct (Mesh.computeNormals None (two_triangles_mesh, w0)) as [[r|e] [m' w']] eqn:Hrun;
    [|vm_compute in Hrun; discriminate].
  exact (proj1 processors_keep_the_positions None two_triangles_mesh w0 r m' w' Hrun).
Defined.

Lemma computeIndices_welds_two_vertices_witness :
  let a := TA.of_list Float32Array [Flt 1; Flt 2; Flt 3; Flt 1; Flt 2; Flt 3] in
  let m := Mesh.mk false [("vertices", plain_buffer ARRAY_BUFFER a)] [] [] None in
  exists m' w' vb' tb',
    Mesh.computeIndices (m, w0) = (Ok tt, (m', w')) /\
    obj_get (Mesh.vertexBuffers m') "vertices" = Some vb' /\
    Buffer.data vb' = Typed (TA.of_list Float32Array [Flt 1; Flt 2; Flt 3]) /\
    obj_get (Mesh.indexBuffers m') "triangles" = Some tb' /\
    Buffer.data tb' = Typed (TA.mk Uint16Array [Int 0; Int 0]).
Proof.
  intros a m.
  apply (proj1 computeIndices_welds_two_vertices m w0 (plain_buffer ARRAY_BUFFER a) a
           (Flt 1) (Flt 2) (Flt 3)); try reflexivity; exact I.
Defined.

Lemma computeNormals_adds_unit_plane_normals_witness :
  exists b m' w' normals,
    Mesh.computeNormals None (two_triangles_mesh, w0) = (Ok (Some b), (m', w')) /\
    obj_get (Mesh.vertexBuffers m') "normals" = Some b /\
    Buffer.data b = Typed normals /\
    forall k, 0 <= k < 4 ->
      vertex normals k
      = Mesh.normalize_f32 (accumulated_normal two_triangles_vertices two_triangles k).
Proof.
  apply (proj2 (computeNormals_adds_unit_plane_normals two_triangles_mesh w0 None
                  (plain_buffer ARRAY_BUFFER two_triangles_vertices) two_triangles_vertices 4
                  eq_refl eq_refl eq_refl ltac:(vm_compute; discriminate))
           (plain_buffer ELEMENT_ARRAY_BUFFER (TA.of_list Uint16Array (index_data two_triangles)))
           two_triangles eq_refl eq_refl).
  repeat constructor; lia.
Defined.

(* ================================================================= *)
(** * Runs on small meshes *)

(** The normals of a triangle in the plane z = 0 point along z. *)
Example computeNormals_one_triangle :
  option_map Buffer.data
    (match fst (Mesh.computeNormals None (one_triangle, w0)) with
     | Ok r => r
     | Throw _ => None
     end)
  = Some (Typed (TA.mk Float32Array
                   [Flt 0; Flt 0; Flt 1;  Flt 0; Flt 0; Flt 1;  Flt 0; Flt 0; Flt 1])).
Proof. vm_compute. reflexivity. Qed.

(** The box of the vertices (-1,-1,-1) and (1,1,1). *)
Example computeBoundingBox_unit_cube :
  Mesh.computeBoundingBox (zero3, zero3) (fun _ center half_size => (center, half_size))
    (Typed (TA.of_list Float32Array [Int (-1); Int (-1); Int (-1); Int 1; Int 1; Int 1]))
    None None w0
  = (Ok (Some (zero3, (Flt 1, Flt 1, Flt 1))), w0).
Proof. vm_compute. reflexivity. Qed.

(** The indices of the second of two merged triangles are offset by the
    three vertices of the first. *)
Example mergeMeshes_offsets_indices :
  match fst (Mesh.mergeMeshes keep4 keep3 only_data_options
               [Mesh.mkMeshInfo one_triangle []; Mesh.mkMeshInfo one_triangle []]) with
  | Ok merged => Some (Mesh.m_indexBuffers merged)
  | Throw _ => None
  end
  = Some [("triangles",
           TA.mk Uint16Array [Int 0; Int 1; Int 2; Int 3; Int 4; Int 5])].
Proof. vm_compute. reflexivity. Qed.

(* ================================================================= *)
(** * Further properties of the buffers, the container and the processors *)

(** ** GL.Buffer: upload *)

(** X2. [upload] looks at the data only when the buffer has a context. *)
Theorem upload_checks_data_only_with_context (st : option Usage) (b : Buffer.t) (w : World) :
  (Buffer.gl b = false -> Buffer.upload st (b, w) = (Ok tt, (b, w))) /\
  (Buffer.gl b = true -> Buffer.data b = NoData ->
   Buffer.upload st (b, w) = (Throw (Thrown "No data supplied"), (b, w))) /\
  (Buffer.gl b = true -> forall xs, Buffer.data b = PlainArray xs ->
   Buffer.upload st (b, w) = (Throw (Thrown "Buffers must be typed arrays"), (b, w))).
Proof.
  repeat split.
  - intros Hgl. unfold Buffer.upload. mstep. rewrite Hgl. reflexivity.
  - intros Hgl Hd. unfold Buffer.upload. mstep. rewrite Hgl, Hd. reflexivity.
  - intros Hgl xs Hd. unfold Buffer.upload. mstep. rewrite Hgl, Hd. reflexivity.
Qed.

Lemma upload_checks_data_only_with_context_witness :
  let b := Buffer.mk true None (Some ARRAY_BUFFER) None false NoData (Int 3) None None in
  Buffer.upload None (b, w0) = (Throw (Thrown "No data supplied"), (b, w0)).
Proof.
  intros b.
  apply (proj1 (proj2 (upload_checks_data_only_with_context None b w0))); reflexivity.
Defined.

(** X3. [upload] of a Float64Array on a buffer without a handle throws after
    it made the handle: the buffer keeps a handle that holds no data. *)
Theorem upload_unsupported_kind_keeps_the_handle
    (st : option Usage) (b : Buffer.t) (w : World) (a : TypedArray) :
  Buffer.gl b = true ->
  Buffer.data b = Typed a ->
  Buffer.gl_type_of (TA.kind a) = None ->
  Buffer.buffer b = None ->
  context_lost w = false ->
  exists w',
    Buffer.upload st (b, w)
    = (Throw (Thrown "unsupported buffer type"),
       (Buffer.set_buffer
          (Some (Buffer.mkWebGLBuffer (next_handle w) (Some (TA.length a))
                   (Some (if JS.truthy (Buffer.spacing b) then Buffer.spacing b else Int 3))
                   None)) b, w')) /\
    events w' = events w ++ [gl_createBuffer (Some (next_handle w))] /\
    next_handle w' = Datatypes.S (next_handle w).
Proof.
  intros Hgl Hd Hty Hb Hl.
  unfold Buffer.upload. munfold. rewrite Hgl, Hd. munfold. rewrite Hb. munfold.
  rewrite Hl. munfold. rewrite Hty. munfold.
  eexists. split; [reflexivity|]. split; reflexivity.
Qed.

(** X4. on a lost context [createBuffer] gives no handle, and [upload]
    returns without a word: the buffer is as it was, without a handle. *)
Theorem upload_on_a_lost_context
    (st : option Usage) (b : Buffer.t) (w : World) (a : TypedArray) :
  Buffer.gl b = true ->
  Buffer.data b = Typed a ->
  Buffer.buffer b = None ->
  context_lost w = true ->
  Buffer.upload st (b, w) = (Ok tt, (b, emit (gl_createBuffer None) w)).
Proof.
  intros Hgl Hd Hb Hl.
  unfold Buffer.upload. munfold. rewrite Hgl, Hd. munfold. rewrite Hb. munfold.
  rewrite Hl. munfold. destruct b; simpl in *; subst. reflexivity.
Qed.

Lemma upload_unsupported_kind_keeps_the_handle_witness :
  let a := TA.of_list Float64Array [Int 1; Int 2; Int 3] in
  let b := Buffer.mk true None (Some ARRAY_BUFFER) None false (Typed a) (Int 3) None None in
  exists w',
    Buffer.upload None (b, w0)
    = (Throw (Thrown "unsupported buffer type"),
       (Buffer.set_buffer
          (Some (Buffer.mkWebGLBuffer 0 (Some 3) (Some (Int 3)) None)) b, w')) /\
    events w' = [gl_createBuffer (Some 0%nat)] /\
    next_handle w' = 1%nat.
Proof.
  intros a b.
  apply (upload_unsupported_kind_keeps_the_handle None b w0 a); reflexivity.
Defined.

Lemma upload_on_a_lost_context_witness :
  let w := mkWorld true true 0 false [] in
  Buffer.upload None (int32_buffer, w)
  = (Ok tt, (int32_buffer, emit (gl_createBuffer None) w)).
Proof.
  intros w.
  apply (upload_on_a_lost_context None int32_buffer w
           (TA.of_list Int32Array [Int 1; Int 2; Int 3])); reflexivity.
Defined.

(** ** GL.Buffer: two uploads *)

Lemma widen_by_kind b a ty :
  Buffer.gl_type_of (TA.kind a) = Some ty ->
  bool_decide (Buffer.target b = Some ARRAY_BUFFER)
    && (bool_decide (ty = INT) || bool_decide (ty = UNSIGNED_INT))
  = bool_decide (Buffer.target b = Some ARRAY_BUFFER)
    && (bool_decide (TA.kind a = Int32Array) || bool_decide (TA.kind a = Uint32Array)).
Proof.
  intros Hty. f_equal.
  destruct (TA.kind a); simpl in Hty; inversion Hty; subst; reflexivity.
Qed.

(** What [upload] does on a buffer that has a context, typed data of a
    supported kind and a handle already. *)
Lemma upload_with_handle st b w a ty wb :
  Buffer.gl b = true ->
  Buffer.data b = Typed a ->
  Buffer.gl_type_of (TA.kind a) = Some ty ->
  Buffer.buffer b = Some wb ->
  exists wb' w',
    Buffer.upload st (b, w) = (Ok tt, (Buffer.set_buffer (Some wb') b, w')) /\
    Buffer.handle wb' = Buffer.handle wb /\
    Buffer.length wb' = Some (TA.length a) /\
    events w' = events w ++ upload_events st b a (Buffer.handle wb) /\
    next_handle w' = next_handle w /\
    context_lost w' = context_lost w /\ global_gl w' = global_gl w /\ debug w' = debug w.
Proof.
  intros Hgl Hd Hty Hb.
  unfold Buffer.upload. munfold. rewrite Hgl, Hd. munfold. rewrite Hb. munfold.
  rewrite Hty. munfold. unfold upload_events, uploaded_data.
  rewrite (widen_by_kind b a ty Hty).
  destruct (bool_decide (Buffer.target b = Some ARRAY_BUFFER)
            && (bool_decide (TA.kind a = Int32Array) || bool_decide (TA.kind a = Uint32Array)));
    munfold; eexists _, _; (split; [reflexivity|]); simpl;
    rewrite <- ?app_assoc; repeat split; reflexivity.
Qed.

(** The same on a buffer without a handle, on a context that is not
    lost. *)
Lemma upload_without_handle st b w a ty :
  Buffer.gl b = true ->
  Buffer.data b = Typed a ->
  Buffer.gl_type_of (TA.kind a) = Some ty ->
  Buffer.buffer b = None ->
  context_lost w = false ->
  exists wb' w',
    Buffer.upload st (b, w) = (Ok tt, (Buffer.set_buffer (Some wb') b, w')) /\
    Buffer.handle wb' = next_handle w /\
    Buffer.length wb' = Some (TA.length a) /\
    events w' = events w ++ gl_createBuffer (Some (next_handle w))
                  :: upload_events st b a (next_handle w) /\
    next_handle w' = Datatypes.S (next_handle w) /\
    context_lost w' = false /\ global_gl w' = global_gl w /\ debug w' = debug w.
Proof.
  intros Hgl Hd Hty Hb Hl.
  unfold Buffer.upload. munfold. rewrite Hgl, Hd. munfold. rewrite Hb. munfold.
  rewrite Hl. munfold.
  rewrite Hty. munfold. unfold upload_events, uploaded_data.
  rewrite (widen_by_kind b a ty Hty).
  destruct (bool_decide (Buffer.target b = Some ARRAY_BUFFER)
            && (bool_decide (TA.kind a = Int32Array) || bool_decide (TA.kind a = Uint32Array)));
    munfold; eexists _, _; (split; [reflexivity|]); simpl;
    rewrite <- ?app_assoc; repeat split; try reflexivity; try assumption.
Qed.

(** X5. a second [upload] uses the handle the first one made: one
    [createBuffer] for the two. *)
Theorem upload_twice_creates_one_handle
    (st1 st2 : option Usage) (b : Buffer.t) (w : World) (a : TypedArray) :
  Buffer.gl b = true ->
  Buffer.data b = Typed a ->
  supported_kind (TA.kind a) ->
  Buffer.buffer b = None ->
  context_lost w = false ->
  exists wb w',
    (Buffer.upload st1;;; Buffer.upload st2) (b, w)
    = (Ok tt, (Buffer.set_buffer (Some wb) b, w')) /\
    Buffer.handle wb = next_handle w /\
    events w' = events w
                  ++ gl_createBuffer (Some (next_handle w))
                  :: upload_events st1 b a (next_handle w)
                  ++ upload_events st2 b a (next_handle w).
Proof.
  intros Hgl Hd Hk Hb Hl.
  destruct (Buffer.gl_type_of (TA.kind a)) as [ty|] eqn:Hty; [|now elim Hk].
  destruct (upload_without_handle st1 b w a ty Hgl Hd Hty Hb Hl)
    as (wb1 & w1 & Hrun1 & Hh1 & _ & Hev1 & _).
  destruct (upload_with_handle st2 (Buffer.set_buffer (Some wb1) b) w1 a ty wb1)
    as (wb2 & w2 & Hrun2 & Hh2 & _ & Hev2 & _); try assumption; try reflexivity.
  exists wb2, w2. split.
  - unfold bind. rewrite Hrun1, Hrun2. reflexivity.
  - split; [congruence|]. rewrite Hev2, Hev1, Hh1. rewrite <- app_assoc. reflexivity.
Qed.

Lemma upload_twice_creates_one_handle_witness :
  exists wb w',
    (Buffer.upload None;;; Buffer.upload (Some DYNAMIC_DRAW)) (int32_buffer, w0)
    = (Ok tt, (Buffer.set_buffer (Some wb) int32_buffer, w')) /\
    Buffer.handle wb = 0%nat.
Proof.
  destruct (upload_twice_creates_one_handle None (Some DYNAMIC_DRAW) int32_buffer w0
              (TA.of_list Int32Array [Int 1; Int 2; Int 3]))
    as (wb & w' & Hrun & Hh & _); try reflexivity; try discriminate.
  exists wb, w'. split; [exact Hrun|exact Hh].
Defined.

(** ** GL.Buffer: setData and uploadRange *)

Lemma set_from_whole (old : TypedArray) (src : list num) :
  Z.of_nat (List.length src) = TA.length old ->
  TA.set_from old src 0 = Some (TA.of_list (TA.kind old) src).
Proof.
  intros Hlen. unfold TA.set_from, TA.of_list.
  assert ((0 <? 0) = false) as -> by reflexivity.
  assert ((TA.length old <? 0 + Z.of_nat (List.length src)) = false) as ->
    by (apply Z.ltb_ge; lia).
  cbn [orb]. change (Z.to_nat 0) with 0%nat. cbn [take Nat.add].
  rewrite drop_ge by (unfold TA.length in Hlen; lia).
  now rewrite app_nil_r.
Qed.

(** X6. the first data of a buffer is stored as it is given and uploaded
    whole. *)
Theorem setData_installs_the_first_data
    (set_bytes : TypedArray -> TypedArray -> Z -> TypedArray)
    (b : Buffer.t) (w : World) (a : TypedArray) (same : bool) (offset : option Z) :
  Buffer.data b = NoData ->
  Buffer.gl b = true ->
  Buffer.buffer b = None ->
  context_lost w = false ->
  supported_kind (TA.kind a) ->
  exists wb w',
    Buffer.setData set_bytes (Typed a) same offset (b, w)
    = (Ok tt, (Buffer.set_buffer (Some wb) (Buffer.set_data (Typed a) b), w')) /\
    Buffer.length wb = Some (TA.length a) /\
    events w' = events w ++ gl_createBuffer (Some (next_handle w))
                  :: upload_events None b a (next_handle w).
Proof.
  intros Hd Hgl Hb Hl Hk.
  destruct (Buffer.gl_type_of (TA.kind a)) as [ty|] eqn:Hty; [|now elim Hk].
  destruct (upload_without_handle None (Buffer.set_data (Typed a) b) w a ty)
    as (wb & w' & Hrun & _ & Hlen & Hev & _); try assumption; try reflexivity.
  exists wb, w'. split; [|split; [exact Hlen|exact Hev]].
  unfold Buffer.setData. mstep. rewrite Hd. mstep.
  exact Hrun.
Qed.

Lemma setData_installs_the_first_data_witness :
  let a := TA.of_list Float32Array [Flt 1; Flt 2; Flt 3] in
  let b := Buffer.mk true None (Some ARRAY_BUFFER) None false NoData (Int 3) None None in
  exists wb w',
    Buffer.setData (fun a _ _ => a) (Typed a) false None (b, w0)
    = (Ok tt, (Buffer.set_buffer (Some wb) (Buffer.set_data (Typed a) b), w')) /\
    Buffer.length wb = Some 3 /\
    events w' = [gl_createBuffer (Some 0%nat);
                 gl_bindBuffer (Some ARRAY_BUFFER) (Some 0%nat);
                 gl_bufferData (Some ARRAY_BUFFER) a STATIC_DRAW].
Proof.
  intros a b.
  apply (setData_installs_the_first_data (fun a _ _ => a) b w0 a false None);
    try reflexivity.
  discriminate.
Defined.

(** X7. data of the length of the storage is copied into the storage, which
    keeps its kind: the values are converted to it. *)
Theorem setData_same_length_converts
    (set_bytes : TypedArray -> TypedArray -> Z -> TypedArray)
    (b : Buffer.t) (w : World) (old new : TypedArray) (offset : option Z) :
  Buffer.data b = Typed old ->
  TA.length new = TA.length old ->
  let stored := TA.of_list (TA.kind old) (TA.elems new) in
  (Buffer.gl b = false ->
   Buffer.setData set_bytes (Typed new) false offset (b, w)
   = (Ok tt, (Buffer.set_data (Typed stored) b, w))) /\
  (forall wb,
     Buffer.gl b = true -> Buffer.buffer b = Some wb -> supported_kind (TA.kind old) ->
     exists wb' w',
       Buffer.setData set_bytes (Typed new) false offset (b, w)
       = (Ok tt, (Buffer.set_buffer (Some wb') (Buffer.set_data (Typed stored) b), w')) /\
       events w' = events w ++ upload_events None b stored (Buffer.handle wb)).
Proof.
  intros Hd Hlen stored.
  assert (Hset : TA.set_from old (TA.elems new) 0 = Some stored)
    by (apply set_from_whole; exact Hlen).
  assert (Hstart : forall s : Buffer.St, fst s = b ->
            Buffer.setData set_bytes (Typed new) false offset s
            = Buffer.upload None (Buffer.set_data (Typed stored) (fst s), snd s)).
  { intros [b' w'] Hb'. simpl in Hb'. subst b'.
    unfold Buffer.setData. mstep. rewrite Hd. cbv beta iota.
    rewrite Hlen, Z.ltb_irrefl, Z.eqb_refl. cbv beta iota. rewrite Hset. mstep.
    reflexivity. }
  split.
  - intros Hgl. rewrite (Hstart (b, w) eq_refl). cbn [fst snd].
    unfold Buffer.upload. mstep. cbn [Buffer.gl Buffer.set_data]. rewrite Hgl. reflexivity.
  - intros wb Hgl Hb Hk.
    destruct (Buffer.gl_type_of (TA.kind old)) as [ty|] eqn:Hty; [|now elim Hk].
    destruct (upload_with_handle None (Buffer.set_data (Typed stored) b) w stored ty wb)
      as (wb' & w' & Hrun & _ & _ & Hev & _); try assumption; try reflexivity.
    exists wb', w'. rewrite (Hstart (b, w) eq_refl). cbn [fst snd]. split; [exact Hrun|].
    exact Hev.
Qed.

Lemma setData_same_length_converts_witness :
  let b := plain_buffer ARRAY_BUFFER (TA.of_list Int16Array [Int 0; Int 0]) in
  Buffer.setData (fun a _ _ => a) (Typed (TA.of_list Float32Array [Flt 1.5; Flt (-2.5)]))
    false None (b, w0)
  = (Ok tt, (Buffer.set_data (Typed (TA.mk Int16Array [Int 1; Int (-2)])) b, w0)).
Proof.
  intros b.
  apply (proj1 (setData_same_length_converts (fun a _ _ => a) b w0
                  (TA.of_list Int16Array [Int 0; Int 0])
                  (TA.of_list Float32Array [Flt 1.5; Flt (-2.5)]) None eq_refl eq_refl)).
  reflexivity.
Defined.



(** X9. [uploadRange] checks the range against the bytes of the data, needs
    a context, and never makes the WebGL buffer: it binds the handle the
    buffer has, which is none before the first [upload]. *)
Theorem uploadRange_binds_what_there_is
    (b : Buffer.t) (w : World) (a : TypedArray) (start size : Z) :
  Buffer.data b = Typed a ->
  ((start < 0 \/ size < 0 \/ TA.byteLength a < start + size) ->
   Buffer.uploadRange start size (b, w) = (Throw RangeError, (b, w))) /\
  (0 <= start -> 0 <= size -> start + size <= TA.byteLength a ->
   (Buffer.gl b = false ->
    Buffer.uploadRange start size (b, w) = (Throw TypeError, (b, w))) /\
   (Buffer.gl b = true ->
    Buffer.uploadRange start size (b, w)
    = (Ok tt,
       (b, emit (gl_bufferSubData (Buffer.target b) start (mkByteRange a start size))
             (emit (gl_bindBuffer (Buffer.target b)
                      (option_map Buffer.handle (Buffer.buffer b))) w))))).
Proof.
  intros Hd. split.
  - intros Hbad. unfold Buffer.uploadRange. mstep. rewrite Hd.
    assert ((start <? 0) || (size <? 0) || (TA.byteLength a <? start + size) = true) as ->.
    { rewrite !orb_true_iff, !Z.ltb_lt. tauto. }
    reflexivity.
  - intros H1 H2 H3.
    assert (Hr : (start <? 0) || (size <? 0) || (TA.byteLength a <? start + size) = false).
    { rewrite !orb_false_iff, !Z.ltb_ge. lia. }
    split; intros Hgl; unfold Buffer.uploadRange; mstep; rewrite Hd, Hr, Hgl; reflexivity.
Qed.

Lemma uploadRange_binds_what_there_is_witness :
  let a := TA.of_list Float32Array [Flt 1; Flt 2] in
  Buffer.uploadRange 4 8 (plain_buffer ARRAY_BUFFER a, w0)
  = (Throw RangeError, (plain_buffer ARRAY_BUFFER a, w0)).
Proof.
  intros a.
  apply (proj1 (uploadRange_binds_what_there_is (plain_buffer ARRAY_BUFFER a) w0 a 4 8 eq_refl)).
  right. right. reflexivity.
Defined.

(** ** createVertexBuffer: the attribute name *)

(** X12. a stream that [Mesh.common_buffers] does not list needs its
    attribute name: without it [createVertexBuffer] throws and the mesh is
    as it was; a listed stream takes the attribute of the table. *)
Theorem createVertexBuffer_needs_an_attribute
    (name : string) (spacing : option num) (d : Data) (st : option Usage)
    (m : Mesh.t) (w : World) :
  (obj_get Mesh.common_buffers name = None ->
   forall attribute, Mesh.string_truthy attribute = false ->
     Mesh.createVertexBuffer name attribute spacing d st (m, w)
     = (Throw (Thrown "Buffer added to mesh without attribute name"), (m, w))) /\
  (forall c a b m' w' attribute,
     obj_get Mesh.common_buffers name = Some c ->
     Mesh.string_truthy attribute = false ->
     Mesh.createVertexBuffer name attribute spacing (Typed a) st (m, w) = (Ok b, (m', w')) ->
     Buffer.attribute b = Some (Mesh.si_attribute c) /\
     obj_get (Mesh.vertexBuffers m') name = Some b).
Proof.
  split.
  - intros Hc attribute Ha. unfold Mesh.createVertexBuffer. rewrite Hc, Ha. reflexivity.
  - intros c a b m' w' attribute Hc Ha Hrun.
    pose proof (createVertexBuffer_frame _ _ _ _ _ _ _ _ _ _ Hrun) as Hm'.
    split; [|subst m'; apply obj_get_set_eq].
    unfold Mesh.createVertexBuffer in Hrun. rewrite Hc, Ha in Hrun.
    destruct (negb (Mesh.string_truthy (Some (Mesh.si_attribute c)))); [discriminate|].
    mstep'.
    match type of Hrun with context [Buffer.new ?t ?d ?sp ?s ?g ?x] =>
      destruct (Buffer.new t d sp s g x) as [[b1|] [m1 w1]] end; [|discriminate].
    injection Hrun as <- _ _.
    destruct (_ && _); reflexivity.
Qed.

Lemma createVertexBuffer_needs_an_attribute_witness :
  Mesh.createVertexBuffer "heat" None None NoData None (unskinned_mesh, w0)
  = (Throw (Thrown "Buffer added to mesh without attribute name"), (unskinned_mesh, w0)).
Proof.
  apply (proj1 (createVertexBuffer_needs_an_attribute "heat" None NoData None unskinned_mesh w0));
    reflexivity.
Defined.

(** ** createVertexBuffer: a stream of zeros *)

(** The buffer [new GL.Buffer] returns for a typed array of a supported
    kind: the fields of the constructor, and the handle [upload] set. *)
Lemma Buffer_new_fields {T} target (a : TypedArray) spacing st glarg (s : T * World) ty :
  Buffer.gl_type_of (TA.kind a) = Some ty ->
  exists gl wb w',
    Buffer.new target (Typed a) spacing st glarg s
    = (Ok (Buffer.mk gl wb target None false (Typed a) (spacing_or_3 spacing) None None),
       (fst s, w')).
Proof.
  intros Hty. destruct s as [t w]. unfold Buffer.new. mstep.
  fold (spacing_or_3 spacing). set (sp := spacing_or_3 spacing).
  assert (Hup : forall w1, exists wb w',
            Buffer.upload st (Buffer.mk true None target None false (Typed a) sp None None, w1)
            = (Ok tt, (Buffer.set_buffer wb
                         (Buffer.mk true None target None false (Typed a) sp None None), w'))).
  { intros w1. set (b1 := Buffer.mk true None target None false (Typed a) sp None None).
    destruct (context_lost w1) eqn:Hl.
    - unfold Buffer.upload. mstep. cbn [Buffer.gl Buffer.data Buffer.buffer b1 negb].
      mstep. rewrite Hl. mstep. eexists _, _. reflexivity.
    - destruct (upload_without_handle st b1 w1 a ty eq_refl eq_refl Hty eq_refl Hl)
        as (wb & w' & Hrun & _).
      eexists _, _. exact Hrun. }
  destruct (debug w); mstep;
    (destruct glarg; [| destruct (global_gl _) |]); cbn [andb]; mstep;
    try (eexists _, _, _; reflexivity);
    match goal with |- context [Buffer.upload st (_, ?w1)] =>
      destruct (Hup w1) as (wb & w' & ->) end;
    mstep; eexists _, _, _; reflexivity.
Qed.

Lemma common_buffers_entry name c :
  obj_get Mesh.common_buffers name = Some c ->
  1 <= Mesh.si_spacing c <= 4 /\ Mesh.string_truthy (Some (Mesh.si_attribute c)) = true.
Proof.
  unfold Mesh.common_buffers. cbn [obj_get].
  repeat (destruct (String.eqb _ name);
          [intros [= <-]; split; [simpl; lia|reflexivity]|]).
  discriminate.
Qed.

(** X13. [createVertexBuffer] without data makes the stream of a listed name
    for the vertices the mesh has: zeros, as many per vertex as the table
    says. *)
Theorem createVertexBuffer_allocates_zeros
    (name : string) (c : Mesh.StreamInfo) (st : option Usage)
    (m : Mesh.t) (w : World) (vb : Buffer.t) (vs : TypedArray) (n : Z) :
  obj_get Mesh.common_buffers name = Some c ->
  obj_get (Mesh.vertexBuffers m) "vertices" = Some vb ->
  Buffer.data vb = Typed vs ->
  Buffer.spacing vb = Int 3 ->
  TA.length vs = 3 * n ->
  0 < n ->
  4 * n <= JS.safe_bound ->
  exists b w',
    Mesh.createVertexBuffer name None None NoData st (m, w)
    = (Ok b, (Mesh.set_vertexBuffers (obj_set (Mesh.vertexBuffers m) name b) m, w')) /\
    Buffer.data b
    = Typed (TA.zeros Float32Array (Z.to_nat (n * Mesh.si_spacing c))) /\
    Buffer.spacing b = Int (Mesh.si_spacing c) /\
    Buffer.attribute b = Some (Mesh.si_attribute c) /\
    Buffer.name b = Some name.
Proof.
  intros Hc Hvb Hvs Hsp Hlen Hn Hsafe.
  destruct (common_buffers_entry name c Hc) as [Hrange Hattr].
  unfold Mesh.createVertexBuffer. rewrite Hc.
  change (Mesh.string_truthy None) with false. cbv iota.
  rewrite Hattr. cbn [negb Mesh.num_truthy].
  assert ((Mesh.si_spacing c =? 0) = false) as -> by (apply Z.eqb_neq; lia).
  cbn [negb]. unfold Mesh.getNumVertices. mstep'. rewrite Hvb, Hvs.
  cbn [Mesh.data_length]. rewrite Hsp, Hlen. mstep'.
  assert (Hdiv : (Int (3 * n) / Int 3)%js = Int n).
  { unfold JS.div. change (3 =? 0) with false. cbn [negb andb].
    replace (3 * n) with (n * 3) by lia.
    rewrite Z.rem_mul by lia. rewrite Z.quot_mul by lia.
    change (0 =? 0) with true. change (3 <? 0) with false.
    rewrite andb_false_r. reflexivity. }
  rewrite Hdiv. cbn [JS.truthy].
  assert ((n =? 0) = false) as -> by (apply Z.eqb_neq; lia).
  cbn [negb JS.of_undefined default from_option id].
  assert (Hmul : (Int n * Int (Mesh.si_spacing c))%js = Int (n * Mesh.si_spacing c)).
  { unfold JS.mul.
    assert ((n * Mesh.si_spacing c =? 0) = false) as -> by (apply Z.eqb_neq; nia).
    cbn [andb]. unfold JS.of_Z.
    assert ((Z.abs (n * Mesh.si_spacing c) <=? JS.safe_bound) = true) as ->
      by (apply Z.leb_le; nia).
    reflexivity. }
  rewrite Hmul. cbn [JS.to_index].
  assert ((n * Mesh.si_spacing c <? 0) = false) as -> by (apply Z.ltb_ge; nia).
  mstep'.
  match goal with |- context [Buffer.new ?t (Typed ?a) ?sp' ?s ?g ?x] =>
    destruct (Buffer_new_fields t a sp' s g x FLOAT eq_refl) as (gl & wb & w' & Hnew) end.
  rewrite Hnew. mstep'. cbn [TA.kind TA.zeros Mesh.is_integer_kind Mesh.default_datatype andb].
  eexists _, w'. split; [reflexivity|]. cbn.
  assert ((Mesh.si_spacing c =? 0) = false) as -> by (apply Z.eqb_neq; lia).
  repeat split.
Qed.

Lemma createVertexBuffer_allocates_zeros_witness :
  exists b m' w',
    Mesh.createVertexBuffer "coords" None None NoData None (one_triangle, w0)
    = (Ok b, (m', w')) /\
    Buffer.data b = Typed (TA.zeros Float32Array 6).
Proof.
  destruct (createVertexBuffer_allocates_zeros "coords"
              (Mesh.mkStreamInfo 2 "a_coord" false None) None one_triangle w0
              (plain_buffer ARRAY_BUFFER
                 (TA.of_list Float32Array
                    [Int 0; Int 0; Int 0;  Int 1; Int 0; Int 0;  Int 0; Int 1; Int 0]))
              (TA.of_list Float32Array
                 [Int 0; Int 0; Int 0;  Int 1; Int 0; Int 0;  Int 0; Int 1; Int 0])
              3 eq_refl eq_refl eq_refl eq_refl eq_refl eq_refl ltac:(discriminate))
    as (b & w' & Hrun & Hd & _).
  eexists b, _, w'. split; [exact Hrun|exact Hd].
Defined.

(** ** Missing buffers *)



(** X16. on a mesh without vertices [createIndexBuffer] does not convert a
    plain [Array]: without a context the index buffer holds the [Array]
    itself, and with one the constructor of the buffer throws and the mesh
    gets no index buffer. *)
Theorem createIndexBuffer_without_vertices
    (name : string) (xs : list num) (st : option Usage) (m : Mesh.t) (w : World) :
  obj_get (Mesh.vertexBuffers m) "vertices" = None ->
  debug w = false ->
  (Mesh.gl m = false -> global_gl w = false ->
   exists b,
     Mesh.createIndexBuffer name (PlainArray xs) st (m, w)
     = (Ok b, (Mesh.set_indexBuffers (obj_set (Mesh.indexBuffers m) name b) m, w)) /\
     Buffer.data b = PlainArray xs) /\
  (Mesh.gl m = true ->
   Mesh.createIndexBuffer name (PlainArray xs) st (m, w)
   = (Throw (Thrown "Buffers must be typed arrays"), (m, w))).
Proof.
  intros Hv Hdbg. split.
  - intros Hgl Hglobal. unfold Mesh.createIndexBuffer, Buffer.new, Mesh.gl_arg.
    mstep. rewrite Hv, Hgl. mstep. rewrite Hdbg, Hglobal. mstep. cbn [andb]. mstep.
    eexists. split; reflexivity.
  - intros Hgl. unfold Mesh.createIndexBuffer, Buffer.new, Mesh.gl_arg.
    mstep. rewrite Hv, Hgl. mstep. rewrite Hdbg. mstep. cbn [andb].
    unfold Buffer.upload. mstep. cbn [Buffer.gl Buffer.data negb]. mstep.
    destruct m, w; reflexivity.
Qed.

Lemma createIndexBuffer_without_vertices_witness :
  Mesh.createIndexBuffer "triangles" (PlainArray [Int 0; Int 1; Int 2]) None
    (Mesh.mk true [] [] [] None, w0)
  = (Throw (Thrown "Buffers must be typed arrays"), (Mesh.mk true [] [] [] None, w0)).
Proof.
  apply (proj2 (createIndexBuffer_without_vertices "triangles" [Int 0; Int 1; Int 2] None
                  (Mesh.mk true [] [] [] None) w0 eq_refl eq_refl)).
  reflexivity.
Defined.

(** X27. [computeTangents] asks for the normals, the texture coordinates and
    the triangles as well: when one of them is missing it writes one error
    on the console and leaves the mesh as it is. *)
Theorem computeTangents_needs_every_stream (m : Mesh.t) (w : World) (vb : Buffer.t) :
  obj_get (Mesh.vertexBuffers m) "vertices" = Some vb ->
  obj_get (Mesh.vertexBuffers m) "normals" = None \/
  obj_get (Mesh.vertexBuffers m) "coords" = None \/
  obj_get (Mesh.indexBuffers m) "triangles" = None ->
  exists msg,
    Mesh.computeTangents (m, w) = (Ok tt, (m, emit (console_error msg) w)) /\
    (obj_get (Mesh.vertexBuffers m) "normals" = None ->
     msg = "Cannot compute tangents of a mesh without normals").
Proof.
  intros Hv Hmiss. unfold Mesh.computeTangents. mstep. rewrite Hv.
  destruct (obj_get (Mesh.vertexBuffers m) "normals") as [nb|] eqn:Hn.
  2:{ eexists. split; [reflexivity|]. reflexivity. }
  destruct (obj_get (Mesh.vertexBuffers m) "coords") as [cb|] eqn:Hc.
  2:{ eexists. split; [reflexivity|]. discriminate. }
  destruct (obj_get (Mesh.indexBuffers m) "triangles") as [tb|] eqn:Ht.
  2:{ eexists. split; [reflexivity|]. discriminate. }
  destruct Hmiss as [H|[H|H]]; discriminate.
Qed.

Lemma computeTangents_needs_every_stream_witness :
  exists msg,
    Mesh.computeTangents (one_triangle, w0)
    = (Ok tt, (one_triangle, emit (console_error msg) w0)).
Proof.
  destruct (computeTangents_needs_every_stream one_triangle w0 _ eq_refl (or_introl eq_refl))
    as (msg & Hrun & _).
  exists msg. exact Hrun.
Defined.

(** ** computeIndices: the welding loop *)

Lemma find_candidate_in_range nv v cs : forall j0,
  Forall (fun c => 0 <= c < Z.of_nat (List.length nv)) cs ->
  exists j, Mesh.find_candidate nv v cs j0 = Some j /\
            j0 <= j <= j0 + Z.of_nat (List.length cs).
Proof.
  induction cs as [|c cs IH]; intros j0 Hcs; simpl.
  - exists j0. split; [reflexivity|lia].
  - apply Forall_cons in Hcs. destruct Hcs as [Hc Hcs].
    destruct (nv !! Z.to_nat c) as [v2|] eqn:Hv2.
    + destruct (_ < _)%js.
      * exists j0. split; [reflexivity|lia].
      * destruct (IH (j0 + 1) Hcs) as (j & Hj & Hr). exists j. split; [exact Hj|lia].
    + apply lookup_ge_None in Hv2. lia.
Qed.

Lemma vector_at_length (a : TypedArray) (i n : Z) :
  0 <= i < n -> TA.length a = 3 * n ->
  List.length (TA.view_elems a (TA.subarray a (Int (i * 3)) (Int ((i + 1) * 3)))) = 3%nat.
Proof.
  intros Hi Hlen. unfold TA.view_elems, TA.subarray, JS.relative_index. cbn [TA.v_len TA.v_off].
  assert ((i * 3 <? 0) = false) as -> by (apply Z.ltb_ge; lia).
  assert (((i + 1) * 3 <? 0) = false) as -> by (apply Z.ltb_ge; lia).
  rewrite Hlen. rewrite !Z.min_l by lia.
  rewrite Z.max_l by lia.
  rewrite length_take, length_drop. unfold TA.length in Hlen. lia.
Qed.

(** One iteration of the welding loop, on typed data. *)
Lemma computeIndices_step_ok (a : TypedArray) nd cd st i n (s : Mesh.St) :
  0 <= i < n -> TA.length a = 3 * n ->
  typed_or_nothing nd -> typed_or_nothing cd ->
  welding_ok nd cd st ->
  exists st',
    Mesh.computeIndices_step (Typed a) nd cd st i s = (Ok st', s) /\
    welding_ok nd cd st' /\
    List.length (Mesh.indices st') = Datatypes.S (List.length (Mesh.indices st)) /\
    (List.length (Mesh.new_vertices st) <= List.length (Mesh.new_vertices st')
     <= Datatypes.S (List.length (Mesh.new_vertices st)))%nat /\
    (Mesh.new_vertices st = [] -> Mesh.new_vertices st' <> []).
Proof.
  intros Hi Hlen Hnd Hcd Hok.
  set (v := TA.view_elems a (TA.subarray a (Int (i * 3)) (Int ((i + 1) * 3)))).
  assert (Hv : Mesh.vector_at (Typed a) i 3 s = (Ok v, s)) by reflexivity.
  assert (Hvlen : List.length v = 3%nat) by (eapply vector_at_length; eassumption).
  destruct Hok as [Hb Hidx Hrows Hn Hc].
  destruct (Mesh.indexer st !! Mesh.bucket_key v) as [cs|] eqn:Hkey.
  - destruct (Hb _ _ Hkey) as [Hcs Hcslen].
    destruct (find_candidate_in_range (Mesh.new_vertices st) v cs 0 Hcs) as (j & Hfind & Hj).
    destruct (Z.eq_dec j (Z.of_nat (List.length cs))) as [Heq|Hne].
    + (* no candidate is near: a new vertex *)
      destruct (computeIndices_step_new (Typed a) nd cd st i v s j (cs ++ [j]) Hv Hnd Hcd)
        as (ns & cs' & Hrun & Hn1 & Hn2 & Hc1 & Hc2).
      { right. exists cs. subst j. auto. }
      eexists. split; [exact Hrun|]. cbn.
      split; [|rewrite !length_app; cbn; split; [lia|split; [lia|]];
               intros _; destruct (Mesh.new_vertices st); discriminate].
      constructor; cbn; rewrite ?length_app; cbn.
      * intros key cs0 Hlk. destruct (decide (key = Mesh.bucket_key v)) as [->|Hk].
        -- rewrite lookup_insert_eq in Hlk. injection Hlk as <-.
           split; [|rewrite length_app; cbn; lia].
           apply Forall_app. split.
           ++ eapply Forall_impl; [exact Hcs|]. cbn. intros; lia.
           ++ constructor; [lia|constructor].
        -- rewrite lookup_insert_ne in Hlk by congruence.
           destruct (Hb _ _ Hlk) as [H1 H2]. split; [|lia].
           eapply Forall_impl; [exact H1|]. cbn. intros; lia.
      * apply Forall_app. split.
        -- eapply Forall_impl; [exact Hidx|]. cbn. intros x (j' & -> & Hj'). exists j'.
           split; [reflexivity|lia].
        -- constructor; [|constructor]. exists j. split; [reflexivity|lia].
      * apply Forall_app. split; [exact Hrows|]. constructor; [exact Hvlen|constructor].
      * intros _ Hd. auto.
      * intros _ Hd. auto.
    + (* welded to the candidate at the position j *)
      rewrite (computeIndices_step_weld (Typed a) nd cd st i v cs j s Hv Hkey Hfind Hne).
      eexists. split; [reflexivity|]. cbn.
      split; [|rewrite length_app; cbn; split; [lia|split; [lia|]];
               intros E; rewrite E in Hcslen; cbn in Hcslen; lia].
      constructor; cbn; try assumption.
      apply Forall_app. split; [exact Hidx|].
      constructor; [|constructor]. exists j. split; [reflexivity|lia].
  - destruct (computeIndices_step_new (Typed a) nd cd st i v s 0 [0] Hv Hnd Hcd)
      as (ns & cs' & Hrun & Hn1 & Hn2 & Hc1 & Hc2).
    { left. auto. }
    eexists. split; [exact Hrun|]. cbn.
    split; [|rewrite !length_app; cbn; split; [lia|split; [lia|]];
             intros _; destruct (Mesh.new_vertices st); discriminate].
    constructor; cbn; rewrite ?length_app; cbn.
    * intros key cs0 Hlk. destruct (decide (key = Mesh.bucket_key v)) as [->|Hk].
      -- rewrite lookup_insert_eq in Hlk. injection Hlk as <-.
         split; [|cbn; lia]. constructor; [lia|constructor].
      -- rewrite lookup_insert_ne in Hlk by congruence.
         destruct (Hb _ _ Hlk) as [H1 H2]. split; [|lia].
         eapply Forall_impl; [exact H1|]. cbn. intros; lia.
    * apply Forall_app. split.
      -- eapply Forall_impl; [exact Hidx|]. cbn. intros x (j' & -> & Hj'). exists j'.
         split; [reflexivity|lia].
      -- constructor; [|constructor]. exists 0. split; [reflexivity|lia].
    * apply Forall_app. split; [exact Hrows|]. constructor; [exact Hvlen|constructor].
    * intros _ Hd. auto.
    * intros _ Hd. auto.
Qed.

(** The whole loop. *)
Lemma computeIndices_loop_ok (a : TypedArray) nd cd n (s : Mesh.St) :
  TA.length a = 3 * n ->
  typed_or_nothing nd -> typed_or_nothing cd ->
  forall (ids : list Z) st,
    Forall (fun i => 0 <= i < n) ids ->
    welding_ok nd cd st ->
    exists st',
      Mesh.fold_M (Mesh.computeIndices_step (Typed a) nd cd) ids st s = (Ok st', s) /\
      welding_ok nd cd st' /\
      List.length (Mesh.indices st') = (List.length (Mesh.indices st) + List.length ids)%nat /\
      (List.length (Mesh.new_vertices st) <= List.length (Mesh.new_vertices st')
       <= List.length (Mesh.new_vertices st) + List.length ids)%nat /\
      (ids <> [] -> Mesh.new_vertices st' <> []).
Proof.
  intros Hlen Hnd Hcd. induction ids as [|i ids IH]; intros st Hids Hok.
  - exists st. cbn. split; [reflexivity|]. split; [exact Hok|]. split; [lia|].
    split; [lia|congruence].
  - apply Forall_cons in Hids. destruct Hids as [Hi Hids].
    destruct (computeIndices_step_ok a nd cd st i n s Hi Hlen Hnd Hcd Hok)
      as (st1 & Hrun1 & Hok1 & Hl1 & Hv1 & Hne1).
    destruct (IH st1 Hids Hok1) as (st' & Hrun & Hok' & Hl & Hv & Hne).
    exists st'. cbn [Mesh.fold_M]. unfold bind. rewrite Hrun1.
    split; [exact Hrun|]. split; [exact Hok'|]. cbn [List.length].
    split; [lia|]. split; [lia|].
    intros _. destruct (Mesh.new_vertices st') eqn:E; [|discriminate].
    cbn in Hv. destruct (Mesh.new_vertices st1) eqn:E1; [|cbn in Hv; lia].
    destruct (Mesh.new_vertices st) eqn:E0; [|cbn in Hv1; lia].
    now elim (Hne1 eq_refl).
Qed.

Lemma div_3_exact (n : Z) : 0 <= n -> (Int (3 * n) / Int 3)%js = Int n.
Proof.
  intros Hn. unfold JS.div. change (3 =? 0) with false. cbn [negb andb].
  replace (3 * n) with (n * 3) by lia.
  rewrite Z.rem_mul by lia. rewrite Z.quot_mul by lia.
  change (0 =? 0) with true. change (3 <? 0) with false.
  rewrite andb_false_r. reflexivity.
Qed.

Lemma filter_below (n : Z) (ks : list nat) :
  Forall (fun k => Z.of_nat k < n) ks ->
  filter (fun i => (Int i < Int n)%js = true) (map (fun k => 0 + 1 * Z.of_nat k) ks)
  = map (fun k => 0 + 1 * Z.of_nat k) ks.
Proof.
  induction 1 as [|k ks Hk _ IH]; [reflexivity|].
  cbn [map]. rewrite filter_cons_True by (cbn; apply Z.ltb_lt; lia). now rewrite IH.
Qed.

Lemma filter_not_below (n : Z) (ks : list nat) :
  Forall (fun k => n <= Z.of_nat k) ks ->
  filter (fun i => (Int i < Int n)%js = true) (map (fun k => 0 + 1 * Z.of_nat k) ks) = [].
Proof.
  induction 1 as [|k ks Hk _ IH]; [reflexivity|].
  cbn [map]. rewrite filter_cons_False; [exact IH|].
  cbn. intros H. apply Z.ltb_lt in H. lia.
Qed.

(** The loop over the vertices of an array of [3 * n] elements goes
    through [0, ..., n - 1]. *)
Lemma loop_below_vertices (n : Z) :
  0 <= n ->
  Mesh.loop_below (Int (3 * n) / Int 3)%js (3 * n)
  = map (fun k => 0 + 1 * Z.of_nat k) (seq 0 (Z.to_nat n)).
Proof.
  intros Hn. rewrite div_3_exact by exact Hn. unfold Mesh.loop_below, count_up.
  replace ((3 * n - 0 + 1 - 1) / 1) with (3 * n) by (rewrite Z.div_1_r; lia).
  replace (Z.to_nat (3 * n)) with (Z.to_nat n + Z.to_nat (2 * n))%nat by lia.
  rewrite seq_app, map_app, filter_app.
  rewrite filter_below, filter_not_below.
  - apply app_nil_r.
  - apply Forall_forall. intros k Hk. apply elem_of_seq in Hk. lia.
  - apply Forall_forall. intros k Hk. apply elem_of_seq in Hk. lia.
Qed.

(** ** linearizeArray and the indices *)

Lemma read_every_component (row : list num) :
  map (fun j => JS.of_undefined (row !! j)) (seq 0 (List.length row)) = row.
Proof.
  apply list_eq. intros i. rewrite list_lookup_fmap.
  destruct (row !! i) as [x|] eqn:Hx.
  - rewrite lookup_seq_lt by (apply lookup_lt_Some in Hx; lia). cbn. now rewrite Hx.
  - rewrite lookup_seq_ge by (apply lookup_ge_None in Hx; lia). reflexivity.
Qed.

Lemma linearizeArray_uniform {S} (rows : list (list num)) (first : list num) :
  head rows = Some first ->
  Forall (fun row => List.length row = List.length first) rows ->
  Mesh.linearizeArray (S:=S) rows = ret (TA.of_list Float32Array (concat rows)).
Proof.
  intros Hhead Hrows.
  destruct rows as [|r rest]; [discriminate|]. injection Hhead as ->.
  unfold Mesh.linearizeArray. do 2 f_equal.
  induction Hrows as [|row rows Hrow _ IH]; [reflexivity|].
  cbn [map concat]. rewrite IH. f_equal.
  rewrite <- Hrow. apply read_every_component.
Qed.

(** X30. [linearizeArray] on vectors that all have the length of the first
    one gives the [Float32Array] of their components in order; on no vector
    at all it throws. *)
Theorem linearizeArray_concatenates {S} (rows : list (list num)) (first : list num) (s : S) :
  head rows = Some first ->
  Forall (fun row => List.length row = List.length first) rows ->
  Mesh.linearizeArray rows s = (Ok (TA.of_list Float32Array (concat rows)), s) /\
  Mesh.linearizeArray (S:=S) [] s = (Throw TypeError, s).
Proof.
  intros Hhead Hrows. split; [|reflexivity].
  now rewrite (linearizeArray_uniform rows first Hhead Hrows).
Qed.

Lemma linearizeArray_concatenates_witness :
  Mesh.linearizeArray [[Int 1; Int 2]; [Int 3; Int 4]] tt
  = (Ok (TA.of_list Float32Array [Int 1; Int 2; Int 3; Int 4]), tt).
Proof.
  apply (proj1 (linearizeArray_concatenates [[Int 1; Int 2]; [Int 3; Int 4]] [Int 1; Int 2] tt
                  eq_refl ltac:(repeat constructor))).
Defined.

Lemma length_concat_rows (rows : list (list num)) (c : nat) :
  Forall (fun row => List.length row = c) rows ->
  List.length (concat rows) = (List.length rows * c)%nat.
Proof. induction 1 as [|row rows Hrow _ IH]; cbn; [reflexivity|]. rewrite length_app. lia. Qed.

Lemma coerce_index (nv j : Z) :
  0 <= j < nv -> nv <= 2 ^ 32 ->
  TA.coerce (Mesh.index_datatype (Int nv)) (Int j) = Int j.
Proof.
  intros Hj Hnv. unfold Mesh.index_datatype, JS.gt, JS.lt.
  destruct (256 * 256 <? nv) eqn:E; cbn [TA.coerce JS.trunc]; unfold JS.wrap_unsigned; f_equal.
  - apply Z.mod_small. lia.
  - apply Z.ltb_ge in E. apply Z.mod_small. lia.
Qed.

(** What [computeIndices] leaves on a mesh with at least one vertex. *)
Lemma computeIndices_returns_indices
    (m : Mesh.t) (w : World) (vb : Buffer.t) (a : TypedArray) (n : Z) :
  obj_get (Mesh.vertexBuffers m) "vertices" = Some vb ->
  Buffer.data vb = Typed a ->
  TA.length a = 3 * n ->
  0 < n <= 2 ^ 32 ->
  typed_or_nothing (Mesh.buffer_data (Mesh.vertexBuffers m) "normals") ->
  typed_or_nothing (Mesh.buffer_data (Mesh.vertexBuffers m) "coords") ->
  exists m' w' vb' tb' kept idx k,
    Mesh.computeIndices (m, w) = (Ok tt, (m', w')) /\
    obj_get (Mesh.vertexBuffers m') "vertices" = Some vb' /\
    Buffer.data vb' = Typed kept /\
    obj_get (Mesh.indexBuffers m') "triangles" = Some tb' /\
    Buffer.data tb' = Typed idx /\
    TA.length idx = n /\
    TA.length kept = 3 * k /\ 1 <= k <= n /\
    Forall (fun x => exists j, x = Int j /\ 0 <= j < k) (TA.elems idx).
Proof.
  intros Hvb Hdata Hlen Hn Hnd Hcd.
  set (nd := Mesh.buffer_data (Mesh.vertexBuffers m) "normals") in *.
  set (cd := Mesh.buffer_data (Mesh.vertexBuffers m) "coords") in *.
  set (ids := map (fun k => 0 + 1 * Z.of_nat k) (seq 0 (Z.to_nat n))).
  assert (Hids : Forall (fun i => 0 <= i < n) ids).
  { apply Forall_forall. intros i Hi. apply list_elem_of_fmap in Hi.
    destruct Hi as (k & -> & Hk). apply elem_of_seq in Hk. lia. }
  assert (Hok0 : welding_ok nd cd (Mesh.mkWelding [] [] [] [] ∅)).
  { constructor; cbn; try constructor; try congruence.
    all: intros; match goal with H : ∅ !! _ = Some _ |- _ =>
                   rewrite lookup_empty in H; discriminate H end. }
  destruct (computeIndices_loop_ok a nd cd n (m, w) Hlen Hnd Hcd ids _ Hids Hok0)
    as (st & Hrun & Hok & Hil & Hvl & Hne).
  cbn in Hil, Hvl.
  assert (Hidsl : List.length ids = Z.to_nat n) by (unfold ids; now rewrite length_map, length_seq).
  assert (Hnv : Mesh.new_vertices st <> []).
  { apply Hne. intros E. rewrite E in Hidsl. cbn in Hidsl. lia. }
  destruct Hok as [_ Hidx Hrows Hnn Hcc].
  destruct (Mesh.new_vertices st) as [|first rest] eqn:Env; [congruence|].
  rewrite <- Env in *.
  assert (Hfirst : List.length first = 3%nat).
  { rewrite Env in Hrows. now apply Forall_cons in Hrows. }
  assert (Hlin : Mesh.linearizeArray (S:=Mesh.St) (Mesh.new_vertices st)
                 = ret (TA.of_list Float32Array (concat (Mesh.new_vertices st)))).
  { apply (linearizeArray_uniform _ first); [now rewrite Env|].
    eapply Forall_impl; [exact Hrows|]. cbn. intros; congruence. }
  set (kept := TA.of_list Float32Array (concat (Mesh.new_vertices st))) in *.
  set (k := Z.of_nat (List.length (Mesh.new_vertices st))).
  assert (Hkl : TA.length kept = 3 * k).
  { unfold kept, TA.length, TA.of_list. cbn [TA.elems]. rewrite length_map.
    rewrite (length_concat_rows _ 3 Hrows). unfold k. lia. }
  assert (Hk : 1 <= k <= n).
  { unfold k. rewrite Env. cbn [List.length]. rewrite Env in Hvl. cbn [List.length] in Hvl. lia. }
  destruct (computeIndices_finish m w vb a st kept Hvb Hdata)
    as (m' & w' & vb' & tb' & Hci & Hv' & Hd' & Ht' & Htd');
    [rewrite Hlen, loop_below_vertices by lia; exact Hrun
    |exact Hlin|reflexivity|auto|auto|].
  eexists m', w', vb', tb', kept, _, k.
  split; [exact Hci|]. split; [exact Hv'|]. split; [exact Hd'|]. split; [exact Ht'|].
  split; [exact Htd'|].
  rewrite Hkl, div_3_exact by lia.
  split; [|split; [reflexivity|split; [exact Hk|]]].
  - unfold TA.length, TA.of_list. cbn [TA.elems]. rewrite length_map, Hil, Hidsl. lia.
  - unfold TA.of_list. cbn [TA.elems]. apply Forall_fmap.
    eapply Forall_impl; [exact Hidx|]. cbn. intros x (j & -> & Hj).
    exists j. split; [|exact Hj]. apply coerce_index; lia.
Qed.

(** X22. [computeIndices] returns on every mesh with at least one vertex,
    and gives one index per vertex of the mesh, each of them the position
    of a vertex it kept. *)
Theorem computeIndices_indexes_every_vertex
    (m : Mesh.t) (w : World) (vb : Buffer.t) (a : TypedArray) (n : Z) :
  obj_get (Mesh.vertexBuffers m) "vertices" = Some vb ->
  Buffer.data vb = Typed a ->
  TA.length a = 3 * n ->
  0 < n <= 2 ^ 32 ->
  typed_or_nothing (Mesh.buffer_data (Mesh.vertexBuffers m) "normals") ->
  typed_or_nothing (Mesh.buffer_data (Mesh.vertexBuffers m) "coords") ->
  exists m' w' vb' tb' kept idx k,
    Mesh.computeIndices (m, w) = (Ok tt, (m', w')) /\
    obj_get (Mesh.vertexBuffers m') "vertices" = Some vb' /\
    Buffer.data vb' = Typed kept /\
    obj_get (Mesh.indexBuffers m') "triangles" = Some tb' /\
    Buffer.data tb' = Typed idx /\
    TA.length idx = n /\
    TA.length kept = 3 * k /\ 1 <= k <= n /\
    Forall (fun x => exists j, x = Int j /\ 0 <= j < k) (TA.elems idx).
Proof. exact (computeIndices_returns_indices m w vb a n). Qed.

Lemma computeIndices_indexes_every_vertex_witness :
  let a := TA.of_list Float32Array [Flt 1; Flt 2; Flt 3; Flt 1; Flt 2; Flt 3] in
  let m := Mesh.mk false [("vertices", plain_buffer ARRAY_BUFFER a)] [] [] None in
  exists m' w' tb' idx,
    Mesh.computeIndices (m, w0) = (Ok tt, (m', w')) /\
    obj_get (Mesh.indexBuffers m') "triangles" = Some tb' /\
    Buffer.data tb' = Typed idx /\
    TA.length idx = 2.
Proof.
  intros a m.
  destruct (computeIndices_indexes_every_vertex m w0 (plain_buffer ARRAY_BUFFER a) a 2
              eq_refl eq_refl eq_refl ltac:(split; [reflexivity|discriminate]) I I)
    as (m' & w' & vb' & tb' & kept & idx & k & Hrun & _ & _ & Ht & Hd & Hl & _).
  exists m', w', tb', idx. auto.
Defined.

(** ** computeIndices: buckets and streams *)

(** X23. the index [computeIndices] gives to a vertex it keeps is the
    position of the vertex in its bucket, not among the kept vertices: two
    vertices of different buckets are both kept, and both get the index
    0. *)
Theorem computeIndices_numbers_vertices_per_bucket
    (m : Mesh.t) (w : World) (vb : Buffer.t) (a : TypedArray) (x1 y1 z1 x2 y2 z2 : num) :
  obj_get (Mesh.vertexBuffers m) "vertices" = Some vb ->
  Buffer.data vb = Typed a ->
  TA.elems a = [x1; y1; z1; x2; y2; z2] ->
  typed_or_nothing (Mesh.buffer_data (Mesh.vertexBuffers m) "normals") ->
  typed_or_nothing (Mesh.buffer_data (Mesh.vertexBuffers m) "coords") ->
  Mesh.bucket_key [x1; y1; z1] <> Mesh.bucket_key [x2; y2; z2] ->
  exists m' w' vb' tb',
    Mesh.computeIndices (m, w) = (Ok tt, (m', w')) /\
    obj_get (Mesh.vertexBuffers m') "vertices" = Some vb' /\
    Buffer.data vb' = Typed (TA.of_list Float32Array [x1; y1; z1; x2; y2; z2]) /\
    obj_get (Mesh.indexBuffers m') "triangles" = Some tb' /\
    Buffer.data tb' = Typed (TA.mk Uint16Array [Int 0; Int 0]).
Proof.
  intros Hvb Hdata Helems Hnd Hcd Hkeys.
  destruct (computeIndices_two_vertices m w vb a x1 y1 z1 x2 y2 z2 Hvb Hdata Helems Hnd Hcd)
    as (m' & w' & vb' & tb' & Hrun & Hv & Hd & Ht & Htd).
  rewrite bool_decide_eq_false_2 in Hd, Htd by exact Hkeys.
  exists m', w', vb', tb'. auto.
Qed.

Lemma computeIndices_numbers_vertices_per_bucket_witness :
  let a := TA.of_list Float32Array [Flt 0; Flt 0; Flt 0; Flt 1; Flt 0; Flt 0] in
  let m := Mesh.mk false [("vertices", plain_buffer ARRAY_BUFFER a)] [] [] None in
  exists m' w' tb',
    Mesh.computeIndices (m, w0) = (Ok tt, (m', w')) /\
    obj_get (Mesh.indexBuffers m') "triangles" = Some tb' /\
    Buffer.data tb' = Typed (TA.mk Uint16Array [Int 0; Int 0]).
Proof.
  intros a m.
  destruct (computeIndices_numbers_vertices_per_bucket m w0 (plain_buffer ARRAY_BUFFER a) a
              (Flt 0) (Flt 0) (Flt 0) (Flt 1) (Flt 0) (Flt 0)
              eq_refl eq_refl eq_refl I I ltac:(vm_compute; discriminate))
    as (m' & w' & vb' & tb' & Hrun & _ & _ & Ht & Hd).
  exists m', w', tb'. auto.
Defined.

(** ** What [computeIndices] leaves of the mesh *)

Lemma push_vector_state {S} d i n rows (s : S) r s' :
  Mesh.push_vector d i n rows s = (r, s') -> s' = s.
Proof.
  unfold Mesh.push_vector, Mesh.vector_at, bind. intros H.
  destruct d; cbv zeta in H; repeat case_match_hyp H;
    repeat match goal with
           | E : Mesh.typed _ _ = _ |- _ => apply typed_state in E
           end;
    unfold ret, throw in *; congruence.
Qed.

Lemma computeIndices_step_state vd nd cd st i (s : Mesh.St) r s' :
  Mesh.computeIndices_step vd nd cd st i s = (r, s') -> s' = s.
Proof.
  unfold Mesh.computeIndices_step, Mesh.vector_at. unfold bind at 1 2 3. intros H.
  destruct (Mesh.typed vd s) as [[a|e] s1] eqn:E; apply typed_state in E; subst s1;
    [|unfold ret, throw in H; congruence].
  unfold ret at 1 in H. cbv zeta in H.
  match type of H with context [match ?x s with _ => _ end] =>
    assert (Hj : forall r1 s1, x s = (r1, s1) -> s1 = s) end.
  { intros r1 s1 Hx. repeat case_match_hyp Hx; unfold ret, throw in Hx; congruence. }
  match type of H with context [match ?x s with _ => _ end] =>
    destruct (x s) as [[j|e] s1] eqn:Ej; specialize (Hj _ _ eq_refl); subst s1 end;
    [|congruence].
  destruct (match Mesh.indexer st !! _ with Some _ => _ | None => _ end).
  - unfold ret in H. congruence.
  - unfold bind in H.
    match type of H with context [Mesh.push_vector ?d ?i ?n ?rows s] =>
      destruct (Mesh.push_vector d i n rows s) as [[ns|e] s1] eqn:E1;
      apply push_vector_state in E1; subst s1 end; [|congruence].
    match type of H with context [Mesh.push_vector ?d ?i ?n ?rows s] =>
      destruct (Mesh.push_vector d i n rows s) as [[cs|e] s1] eqn:E2;
      apply push_vector_state in E2; subst s1 end; [|congruence].
    unfold ret in H. congruence.
Qed.

Lemma createIndexBuffer_frame name d st (m : Mesh.t) (w : World) b m' w' :
  Mesh.createIndexBuffer name d st (m, w) = (Ok b, (m', w')) ->
  m' = Mesh.set_indexBuffers (obj_set (Mesh.indexBuffers m) name b) m.
Proof.
  unfold Mesh.createIndexBuffer. mstep'. intros H.
  match type of H with context [match ?x (m, w) with _ => _ end] =>
    assert (Hd : forall r1 s1, x (m, w) = (r1, s1) -> s1 = (m, w)) end.
  { intros r1 s1 Hx. repeat case_match_hyp Hx; unfold ret, throw in Hx; congruence. }
  match type of H with context [match ?x (m, w) with _ => _ end] =>
    destruct (x (m, w)) as [[d1|e] s1] eqn:Ed; specialize (Hd _ _ eq_refl); subst s1 end;
    [|discriminate].
  match type of H with context [Buffer.new ?t ?d ?sp ?s ?g ?x] =>
    destruct (Buffer.new t d sp s g x) as [[b1|] [m1 w1]] eqn:E end; [|discriminate].
  apply Buffer_new_state in E. cbn [fst] in E. subst m1.
  injection H as <- <- <-. reflexivity.
Qed.

Lemma create_stream_frame d name attr sp rows (m : Mesh.t) (w : World) m' w' :
  Mesh.create_stream d name attr sp rows (m, w) = (Ok tt, (m', w')) ->
  m' = m \/ exists b, m' = Mesh.set_vertexBuffers (obj_set (Mesh.vertexBuffers m) name b) m.
Proof.
  unfold Mesh.create_stream. intros H.
  assert (Hc : (a <- Mesh.linearizeArray rows;;
                Mesh.createVertexBuffer name (Some attr) (Some (Int sp)) (Typed a) None;;;
                ret tt) (m, w) = (Ok tt, (m', w')) ->
               exists b, m' = Mesh.set_vertexBuffers (obj_set (Mesh.vertexBuffers m) name b) m).
  { clear H. unfold Mesh.linearizeArray. intros H. destruct rows as [|first rest];
      [discriminate|]. mstep'.
    match type of H with context [Mesh.createVertexBuffer ?n ?at' ?sp' ?d' ?s ?x] =>
      destruct (Mesh.createVertexBuffer n at' sp' d' s x) as [[b1|] [m1 w1]] eqn:E end;
      [|discriminate].
    apply createVertexBuffer_frame in E. injection H as <- _. eauto. }
  destruct d; [left; unfold ret in H; congruence| |]; right; auto.
Qed.

(** X24. [computeIndices] rebuilds the vertex buffers from nothing: of the
    streams the mesh had, only the vertices, the normals and the texture
    coordinates are there afterwards; the index buffers other than the
    triangles stay as they were. *)
Theorem computeIndices_keeps_three_streams (m : Mesh.t) (w : World) (m' : Mesh.t) (w' : World) :
  Mesh.computeIndices (m, w) = (Ok tt, (m', w')) ->
  (forall name, name <> "vertices" -> name <> "normals" -> name <> "coords" ->
     obj_get (Mesh.vertexBuffers m') name = None) /\
  (forall name, name <> "triangles" ->
     obj_get (Mesh.indexBuffers m') name = obj_get (Mesh.indexBuffers m) name) /\
  Mesh.groups m' = Mesh.groups m /\ Mesh.bones m' = Mesh.bones m.
Proof.
  unfold Mesh.computeIndices. unfold bind at 1. unfold Mesh.this at 1. cbn [fst].
  intros H.
  destruct (obj_get (Mesh.vertexBuffers m) "vertices") as [vb|]; [|discriminate].
  cbv zeta in H.
  destruct (Mesh.data_length (Buffer.data vb)) as [len|]; [|discriminate].
  unfold bind at 1 in H.
  match type of H with context [Mesh.fold_M ?f ?xs ?a0 ?s0] =>
    destruct (Mesh.fold_M f xs a0 s0) as [[st|e] s1] eqn:E end; [|discriminate].
  apply fold_M_state in E; [|intros; eapply computeIndices_step_state; eassumption].
  subst s1.
  unfold bind at 1 in H. unfold Mesh.update, modify in H. cbn [fst snd] in H.
  unfold bind at 1 in H. unfold Mesh.linearizeArray at 1 in H.
  destruct (Mesh.new_vertices st) as [|first rest]; [discriminate|].
  unfold ret at 1 in H.
  set (m0 := Mesh.set_vertexBuffers [] m) in H.
  unfold bind at 1 in H.
  match type of H with context [Mesh.createVertexBuffer ?n ?at' ?sp' ?d' ?s ?x] =>
    destruct (Mesh.createVertexBuffer n at' sp' d' s x) as [[b1|] [m1 w1]] eqn:E1 end;
    [|discriminate].
  apply createVertexBuffer_frame in E1.
  unfold bind at 1 in H.
  match type of H with context [Mesh.create_stream ?d ?n ?at' ?sp' ?rows ?x] =>
    destruct (Mesh.create_stream d n at' sp' rows x) as [[[]|] [m2 w2]] eqn:E2 end;
    [|discriminate].
  apply create_stream_frame in E2.
  unfold bind at 1 in H.
  match type of H with context [Mesh.create_stream ?d ?n ?at' ?sp' ?rows ?x] =>
    destruct (Mesh.create_stream d n at' sp' rows x) as [[[]|] [m3 w3]] eqn:E3 end;
    [|discriminate].
  apply create_stream_frame in E3.
  unfold bind at 1 in H.
  match type of H with context [Mesh.createIndexBuffer ?n ?d ?s ?x] =>
    destruct (Mesh.createIndexBuffer n d s x) as [[b4|] [m4 w4]] eqn:E4 end;
    [|discriminate].
  apply createIndexBuffer_frame in E4.
  unfold ret in H. injection H as <- _.
  assert (Hv3 : forall name, name <> "vertices" -> name <> "normals" -> name <> "coords" ->
            obj_get (Mesh.vertexBuffers m3) name = None).
  { intros name H1 H2 H3.
    assert (Hv1 : obj_get (Mesh.vertexBuffers m1) name = None).
    { subst m1 m0. cbn [Mesh.vertexBuffers Mesh.set_vertexBuffers].
      rewrite obj_get_set_ne by congruence. reflexivity. }
    assert (Hv2 : obj_get (Mesh.vertexBuffers m2) name = None).
    { destruct E2 as [->|[b ->]]; [exact Hv1|]. cbn. rewrite obj_get_set_ne by congruence.
      exact Hv1. }
    destruct E3 as [->|[b ->]]; [exact Hv2|]. cbn. rewrite obj_get_set_ne by congruence.
    exact Hv2. }
  assert (Hrest : Mesh.indexBuffers m3 = Mesh.indexBuffers m /\
                  Mesh.groups m3 = Mesh.groups m /\ Mesh.bones m3 = Mesh.bones m).
  { assert (H1 : Mesh.indexBuffers m1 = Mesh.indexBuffers m /\
                 Mesh.groups m1 = Mesh.groups m /\ Mesh.bones m1 = Mesh.bones m)
      by (subst m1 m0; repeat split).
    assert (H2 : Mesh.indexBuffers m2 = Mesh.indexBuffers m /\
                 Mesh.groups m2 = Mesh.groups m /\ Mesh.bones m2 = Mesh.bones m)
      by (destruct E2 as [->|[b ->]]; [exact H1|exact H1]).
    destruct E3 as [->|[b ->]]; [exact H2|exact H2]. }
  destruct Hrest as (Hi & Hg & Hb). subst m4. cbn.
  split; [exact Hv3|]. split; [|split; assumption].
  intros name Hname. rewrite obj_get_set_ne by congruence. now rewrite Hi.
Qed.

Lemma computeIndices_keeps_three_streams_witness :
  let a := TA.of_list Float32Array [Flt 1; Flt 2; Flt 3] in
  let m := Mesh.mk false
             [("vertices", plain_buffer ARRAY_BUFFER a);
              ("tangents", plain_buffer ARRAY_BUFFER (TA.zeros Float32Array 4))] [] [] None in
  obj_get (Mesh.vertexBuffers (fst (snd (Mesh.computeIndices (m, w0))))) "tangents" = None.
Proof.
  intros a m.
  destruct (Mesh.computeIndices (m, w0)) as [[[]|e] [m' w']] eqn:Hrun;
    [|vm_compute in Hrun; discriminate].
  apply (proj1 (computeIndices_keeps_three_streams m w0 m' w' Hrun)); discriminate.
Defined.

(** ** Triangle counts, delete and clone *)

(** X25. a mesh without indices has as many triangles after [computeIndices]
    as before: a third of the number of its vertices. *)
Theorem computeIndices_keeps_the_triangle_count
    (m : Mesh.t) (w : World) (vb : Buffer.t) (a : TypedArray) (n : Z) :
  obj_get (Mesh.vertexBuffers m) "vertices" = Some vb ->
  Buffer.data vb = Typed a ->
  Buffer.spacing vb = Int 3 ->
  TA.length a = 3 * n ->
  0 < n <= 2 ^ 32 ->
  typed_or_nothing (Mesh.buffer_data (Mesh.vertexBuffers m) "normals") ->
  typed_or_nothing (Mesh.buffer_data (Mesh.vertexBuffers m) "coords") ->
  obj_get (Mesh.indexBuffers m) "triangles" = None ->
  exists m' w',
    Mesh.computeIndices (m, w) = (Ok tt, (m', w')) /\
    Mesh.getNumTriangles (m, w) = (Ok (Int n / Int 3)%js, (m, w)) /\
    Mesh.getNumTriangles (m', w') = (Ok (Int n / Int 3)%js, (m', w')).
Proof.
  intros Hvb Hd Hsp Hlen Hn Hnd Hcd Hnone.
  destruct (computeIndices_returns_indices m w vb a n Hvb Hd Hlen Hn Hnd Hcd)
    as (m' & w' & vb' & tb' & kept & idx & k & Hrun & _ & _ & Ht & Htd & Hil & _).
  exists m', w'. split; [exact Hrun|]. split.
  - unfold Mesh.getNumTriangles, Mesh.getNumVertices. mstep. rewrite Hnone. mstep.
    rewrite Hvb, Hd. cbn [Mesh.data_length]. mstep. rewrite Hsp, Hlen.
    rewrite div_3_exact by lia. reflexivity.
  - unfold Mesh.getNumTriangles. mstep. rewrite Ht, Htd. cbn [Mesh.data_length].
    rewrite Hil. reflexivity.
Qed.

Lemma computeIndices_keeps_the_triangle_count_witness :
  let a := TA.of_list Float32Array
             [Flt 0; Flt 0; Flt 0;  Flt 1; Flt 0; Flt 0;  Flt 0; Flt 1; Flt 0] in
  let m := Mesh.mk false [("vertices", plain_buffer ARRAY_BUFFER a)] [] [] None in
  exists m' w',
    Mesh.computeIndices (m, w0) = (Ok tt, (m', w')) /\
    Mesh.getNumTriangles (m', w') = (Ok (Int 1), (m', w')).
Proof.
  intros a m.
  destruct (computeIndices_keeps_the_triangle_count m w0 (plain_buffer ARRAY_BUFFER a) a 3
              eq_refl eq_refl eq_refl eq_refl ltac:(split; [reflexivity|discriminate])
              I I eq_refl)
    as (m' & w' & Hrun & _ & Hcount).
  exists m', w'. split; [exact Hrun|exact Hcount].
Defined.



(** X10. [clone] with [share] gives a buffer with the fields of the
    original.  Without it, a buffer that holds data is never copied: the
    call throws; a buffer without data gives a buffer with its target,
    context and spacing, and without its attribute name. *)
Theorem clone_copies_no_data (b : Buffer.t) (w : World) :
  Buffer.clone true (b, w) = (Ok b, (b, after_new_buffer w)) /\
  (Buffer.data b <> NoData ->
   Buffer.clone false (b, w) = (Throw TypeError, (b, after_new_buffer w))) /\
  (Buffer.data b = NoData ->
   Buffer.clone false (b, w)
   = (Ok (Buffer.mk (Buffer.gl b || global_gl w) None (Buffer.target b) None false NoData
            (if JS.truthy (Buffer.spacing b) then Buffer.spacing b else Int 3) None None),
      (b, after_new_buffer w))).
Proof.
  unfold Buffer.clone, Buffer.new, after_new_buffer.
  repeat split.
  - mstep. destruct (debug w); mstep; cbn [andb]; mstep; reflexivity.
  - intros Hd. mstep.
    destruct (debug w); mstep; cbn [andb]; mstep;
      destruct (Buffer.data b); try congruence; reflexivity.
  - intros Hd. mstep.
    destruct (debug w); mstep; cbn [andb]; mstep; rewrite Hd;
      destruct (Buffer.target b), (Buffer.gl b), (JS.truthy (Buffer.spacing b));
      reflexivity.
Qed.

Lemma clone_copies_no_data_witness :
  Buffer.clone false (int32_buffer, w0) = (Throw TypeError, (int32_buffer, w0)).
Proof.
  apply (proj1 (proj2 (clone_copies_no_data int32_buffer w0))). discriminate.
Defined.

(** ** removeVertexBuffer *)

Lemma obj_get_delete_eq {V} (o : Obj V) k : obj_get (obj_delete o k) k = None.
Proof.
  induction o as [|[k' v] o IH]; [reflexivity|]. unfold obj_delete in *. cbn.
  destruct (String.eqb k' k) eqn:E; cbn; [exact IH|]. now rewrite E.
Qed.

Lemma obj_get_delete_ne {V} (o : Obj V) k k' :
  k <> k' -> obj_get (obj_delete o k) k' = obj_get o k'.
Proof.
  intros Hne. induction o as [|[k0 v] o IH]; [reflexivity|]. unfold obj_delete in *. cbn.
  destruct (String.eqb k0 k) eqn:E; cbn.
  - apply String.eqb_eq in E. subst k0.
    destruct (String.eqb k k') eqn:E'; [apply String.eqb_eq in E'; congruence|exact IH].
  - destruct (String.eqb k0 k'); [reflexivity|exact IH].
Qed.

(** X15. [removeVertexBuffer] takes the one entry out of the mesh and leaves
    the other buffers alone; the handle is given back to the driver only
    when [free] is set. *)
Theorem removeVertexBuffer_removes_one_entry
    (name : string) (free : bool) (m : Mesh.t) (w : World) (b : Buffer.t) :
  obj_get (Mesh.vertexBuffers m) name = Some b ->
  free = false \/ Buffer.gl b = true ->
  exists m',
    Mesh.removeVertexBuffer name free (m, w)
    = (Ok tt, (m', if free
                   then emit (gl_deleteBuffer (option_map Buffer.handle (Buffer.buffer b))) w
                   else w)) /\
    obj_get (Mesh.vertexBuffers m') name = None /\
    (forall k, k <> name ->
       obj_get (Mesh.vertexBuffers m') k = obj_get (Mesh.vertexBuffers m) k) /\
    Mesh.indexBuffers m' = Mesh.indexBuffers m.
Proof.
  intros Hb Hfree. unfold Mesh.removeVertexBuffer. mstep. rewrite Hb.
  destruct free.
  - destruct Hfree as [Hf|Hgl]; [discriminate|].
    unfold Mesh.on_vertex_buffer, Buffer.delete. mstep. rewrite Hb. mstep. rewrite Hgl.
    mstep. eexists. split; [reflexivity|]. cbn [Mesh.vertexBuffers Mesh.set_vertexBuffers
      Mesh.indexBuffers fst].
    split; [apply obj_get_delete_eq|]. split; [|reflexivity].
    intros k Hk. rewrite obj_get_delete_ne by congruence.
    apply obj_get_set_ne. congruence.
  - mstep. eexists. split; [reflexivity|]. cbn [Mesh.vertexBuffers Mesh.set_vertexBuffers
      Mesh.indexBuffers fst].
    split; [apply obj_get_delete_eq|]. split; [|reflexivity].
    intros k Hk. apply obj_get_delete_ne. congruence.
Qed.

Lemma removeVertexBuffer_removes_one_entry_witness :
  exists m',
    Mesh.removeVertexBuffer "bone_indices" false (skinned_mesh, w0) = (Ok tt, (m', w0)) /\
    obj_get (Mesh.vertexBuffers m') "bone_indices" = None.
Proof.
  destruct (removeVertexBuffer_removes_one_entry "bone_indices" false skinned_mesh w0 _
              eq_refl (or_introl eq_refl))
    as (m' & Hrun & Hgone & _).
  exists m'. split; [exact Hrun|exact Hgone].
Defined.

(** ** deleteBuffers *)

Lemma obj_get_app_fresh {V} (done : Obj V) k v rest :
  k ∉ obj_keys done -> obj_get (done ++ (k, v) :: rest) k = Some v.
Proof.
  induction done as [|[k' v'] done IH]; cbn; intros Hk.
  - now rewrite String.eqb_refl.
  - apply not_elem_of_cons in Hk. destruct Hk as [Hne Hk].
    destruct (String.eqb_spec k' k); [congruence|]. auto.
Qed.

Lemma obj_set_app_fresh {V} (done : Obj V) k v v' rest :
  k ∉ obj_keys done -> obj_set (done ++ (k, v) :: rest) k v' = done ++ (k, v') :: rest.
Proof.
  induction done as [|[k0 v0] done IH]; cbn; intros Hk.
  - now rewrite String.eqb_refl.
  - apply not_elem_of_cons in Hk. destruct Hk as [Hne Hk].
    destruct (String.eqb_spec k0 k); [congruence|]. now rewrite IH.
Qed.


Lemma events_emit_all es w : events (emit_all es w) = events w ++ es.
Proof.
  revert w. induction es as [|e es IH]; intros w; cbn.
  - now rewrite app_nil_r.
  - rewrite IH. cbn. now rewrite <- app_assoc.
Qed.







(** ** flipNormals: the two passes *)

(** [upload] only ever writes the field [buffer] of the buffer. *)
Lemma upload_frame st (b : Buffer.t) (w : World) r b' w' :
  Buffer.upload st (b, w) = (r, (b', w')) -> exists wb, b' = Buffer.set_buffer wb b.
Proof.
  unfold Buffer.upload. mstep. intros H.
  destruct (negb (Buffer.gl b)).
  { injection H as _ <- _. exists (Buffer.buffer b). destruct b; reflexivity. }
  destruct (Buffer.data b) as [|xs|a].
  1,2: injection H as _ <- _; exists (Buffer.buffer b); destruct b; reflexivity.
  destruct (Buffer.buffer b) as [wb|] eqn:Hb; mstep.
  - destruct (Buffer.gl_type_of (TA.kind a)); mstep.
    + destruct (_ && _); mstep; injection H as _ <- _; eexists; reflexivity.
    + injection H as _ <- _. eexists; reflexivity.
  - destruct (context_lost w); mstep.
    + injection H as _ <- _. eexists; reflexivity.
    + destruct (Buffer.gl_type_of (TA.kind a)); mstep.
      * destruct (_ && _); mstep; injection H as _ <- _; eexists; reflexivity.
      * injection H as _ <- _. eexists; reflexivity.
Qed.

Lemma wf_set a i v : TA.wf a -> TA.coerce (TA.kind a) v = v -> TA.wf (TA.set a i v).
Proof.
  unfold TA.wf, TA.set. intros Ha Hv. destruct (i <? 0); [exact Ha|]. cbn.
  rewrite Hv. destruct (decide (Z.to_nat i < List.length (TA.elems a))%nat) as [Hlt|Hge].
  - apply Forall_insert; assumption.
  - rewrite list_insert_ge by lia. exact Ha.
Qed.

Lemma wf_get a i x : TA.wf a -> TA.get a i = Some x -> TA.coerce (TA.kind a) x = x.
Proof.
  unfold TA.wf, TA.get. intros Ha Hx. destruct (i <? 0); [discriminate|].
  rewrite Forall_forall in Ha. apply Ha. eapply list_elem_of_lookup_2. exact Hx.
Qed.

Lemma get_in_range a i : 0 <= i < TA.length a -> exists x, TA.get a i = Some x.
Proof.
  unfold TA.get, TA.length. intros H.
  destruct (i <? 0) eqn:E; [apply Z.ltb_lt in E; lia|].
  apply lookup_lt_is_Some. lia.
Qed.

(** One iteration of the loop that reverses the winding, on a whole
    triangle. *)
Lemma swap_pair_whole a i :
  TA.wf a -> 0 <= i -> i + 1 < TA.length a ->
  let a' := Mesh.swap_pair a i in
  TA.wf a' /\ TA.length a' = TA.length a /\ TA.kind a' = TA.kind a /\
  TA.get a' i = TA.get a (i + 1) /\
  TA.get a' (i + 1) = TA.get a i /\
  forall j, j <> i -> j <> i + 1 -> TA.get a' j = TA.get a j.
Proof.
  intros Hwf Hi Hlen. unfold Mesh.swap_pair.
  destruct (get_in_range a i ltac:(lia)) as (x & Hx).
  destruct (get_in_range a (i + 1) ltac:(lia)) as (y & Hy).
  rewrite Hx, Hy. cbn [JS.of_undefined default from_option id].
  pose proof (wf_get a _ _ Hwf Hx) as Hcx. pose proof (wf_get a _ _ Hwf Hy) as Hcy.
  set (a1 := TA.set a i y).
  assert (Hk1 : TA.kind a1 = TA.kind a) by apply kind_set.
  assert (Hw1 : TA.wf a1) by (apply wf_set; assumption).
  assert (Hl1 : TA.length a1 = TA.length a) by apply length_set.
  cbv zeta. split; [apply wf_set; [exact Hw1|now rewrite Hk1]|].
  split; [now rewrite length_set|]. split; [now rewrite kind_set|].
  split; [|split].
  - rewrite get_set_ne by lia. unfold a1. rewrite get_set_eq by lia. now rewrite Hcy.
  - rewrite get_set_eq by lia. now rewrite Hk1, Hcx.
  - intros j H1 H2. rewrite get_set_ne by lia. unfold a1. now rewrite get_set_ne by lia.
Qed.

Lemma swap_pass (n : Z) (p : nat) : forall a,
  TA.wf a -> TA.length a = 3 * n -> Z.of_nat p <= n ->
  let a' := fold_left Mesh.swap_pair (map (fun j => 3 * Z.of_nat j) (seq 0 p)) a in
  TA.wf a' /\ TA.length a' = 3 * n /\ TA.kind a' = TA.kind a /\
  forall t, 0 <= t < n ->
    corners_of a' t
    = if t <? Z.of_nat p
      then (TA.get a (3 * t + 1), TA.get a (3 * t), TA.get a (3 * t + 2))
      else corners_of a t.
Proof.
  induction p as [|p IH]; intros a Hwf Hlen Hp.
  - cbn [seq map fold_left]. repeat split; try assumption. intros t Ht.
    assert ((t <? Z.of_nat 0) = false) as -> by (apply Z.ltb_ge; lia). reflexivity.
  - rewrite seq_S, map_app, fold_left_app. cbn [map fold_left plus].
    destruct (IH a Hwf Hlen ltac:(lia)) as (Hw1 & Hl1 & Hk1 & Hc1). cbv zeta in *.
    set (a1 := fold_left _ _ a) in *.
    destruct (swap_pair_whole a1 (3 * Z.of_nat p) Hw1 ltac:(lia) ltac:(lia))
      as (Hw2 & Hl2 & Hk2 & Hg0 & Hg1 & Hgo).
    cbv zeta in *. split; [exact Hw2|]. split; [congruence|]. split; [congruence|].
    intros t Ht. unfold corners_of in *.
    destruct (Z.eq_dec t (Z.of_nat p)) as [->|Hne].
    + assert ((Z.of_nat p <? Z.of_nat (S p)) = true) as -> by (apply Z.ltb_lt; lia).
      rewrite Hg0, Hg1, Hgo by lia.
      specialize (Hc1 (Z.of_nat p) ltac:(lia)). rewrite Z.ltb_irrefl in Hc1.
      injection Hc1 as -> -> ->. reflexivity.
    + rewrite !Hgo by lia. rewrite (Hc1 t Ht).
      destruct (t <? Z.of_nat p) eqn:E.
      * assert ((t <? Z.of_nat (S p)) = true) as -> by (apply Z.ltb_lt; apply Z.ltb_lt in E; lia).
        reflexivity.
      * assert ((t <? Z.of_nat (S p)) = false) as ->
          by (apply Z.ltb_ge; apply Z.ltb_ge in E; lia).
        reflexivity.
Qed.

(** The loop on an array of whole triangles. *)
Lemma reverse_winding_whole (a : TypedArray) (n : Z) :
  TA.wf a -> TA.length a = 3 * n ->
  exists a',
    Mesh.reverse_winding (Typed a) = Typed a' /\
    TA.wf a' /\ TA.length a' = 3 * n /\ TA.kind a' = TA.kind a /\
    forall t, 0 <= t < n ->
      corners_of a' t = (TA.get a (3 * t + 1), TA.get a (3 * t), TA.get a (3 * t + 2)).
Proof.
  intros Hwf Hlen.
  assert (Hn : 0 <= n) by (unfold TA.length in Hlen; lia).
  assert (Hcount : count_up 0 (3 * n) 3
                   = map (fun j => 3 * Z.of_nat j) (seq 0 (Z.to_nat n))).
  { rewrite <- count_up_by_3. do 2 f_equal. lia. }
  exists (fold_left Mesh.swap_pair (map (fun j => 3 * Z.of_nat j) (seq 0 (Z.to_nat n))) a).
  split; [cbn [Mesh.reverse_winding]; now rewrite Hlen, Hcount|].
  destruct (swap_pass n (Z.to_nat n) a Hwf Hlen ltac:(lia)) as (Hw & Hl & Hk & Hc).
  cbv zeta in *. split; [exact Hw|]. split; [exact Hl|]. split; [exact Hk|].
  intros t Ht. rewrite (Hc t Ht).
  assert ((t <? Z.of_nat (Z.to_nat n)) = true) as -> by (apply Z.ltb_lt; lia). reflexivity.
Qed.

(** ** flipNormals *)

(** Storing data in a buffer and uploading it. *)
Lemma store_and_upload d st (b : Buffer.t) (w : World) r b' w' :
  (Buffer.update (Buffer.set_data d);;; Buffer.upload st) (b, w) = (r, (b', w')) ->
  Buffer.data b' = d.
Proof.
  unfold bind, Buffer.update, modify. cbn [fst snd]. intros H.
  apply upload_frame in H. destruct H as [wb ->]. reflexivity.
Qed.

(** X21. [flipNormals] on an indexed mesh multiplies the normals by -1 and
    exchanges the first two corners of every triangle; on a mesh without
    normals it does nothing, and the winding stays. *)
Theorem flipNormals_reverses_the_winding (st : option Usage) (m : Mesh.t) (w : World) :
  (obj_get (Mesh.vertexBuffers m) "normals" = None ->
   Mesh.flipNormals st (m, w) = (Ok tt, (m, w))) /\
  (forall m' w' nb tb a n,
     Mesh.flipNormals st (m, w) = (Ok tt, (m', w')) ->
     obj_get (Mesh.vertexBuffers m) "normals" = Some nb ->
     obj_get (Mesh.indexBuffers m) "triangles" = Some tb ->
     Buffer.data tb = Typed a ->
     TA.wf a ->
     TA.length a = 3 * n ->
     exists nb' tb' a',
       obj_get (Mesh.vertexBuffers m') "normals" = Some nb' /\
       Buffer.data nb' = Mesh.negate_all (Buffer.data nb) /\
       obj_get (Mesh.indexBuffers m') "triangles" = Some tb' /\
       Buffer.data tb' = Typed a' /\
       TA.kind a' = TA.kind a /\ TA.length a' = 3 * n /\
       forall t, 0 <= t < n ->
         corners_of a' t = (TA.get a (3 * t + 1), TA.get a (3 * t), TA.get a (3 * t + 2))).
Proof.
  split.
  - intros Hn. unfold Mesh.flipNormals. mstep'. now rewrite Hn.
  - intros m' w' nb tb a n Hrun Hn Ht Hd Hwf Hlen.
    destruct (reverse_winding_whole a n Hwf Hlen) as (a' & Hrev & _ & Hl' & Hk' & Hc').
    unfold Mesh.flipNormals in Hrun. unfold bind at 1 in Hrun. unfold Mesh.this at 1 in Hrun.
    cbn [fst] in Hrun. rewrite Hn in Hrun.
    assert (Hgo : forall d, d = Buffer.data nb -> d <> NoData ->
              (Mesh.on_vertex_buffer "normals"
                 (Buffer.update (Buffer.set_data (Mesh.negate_all d));;; Buffer.upload st);;;
               m0 <- Mesh.this;;
               match obj_get (Mesh.indexBuffers m0) "triangles" with
               | None => Mesh.computeIndices
               | Some _ => ret tt
               end;;;
               m0 <- Mesh.this;;
               match obj_get (Mesh.indexBuffers m0) "triangles" with
               | None => throw TypeError
               | Some triangles_buffer =>
                   match Buffer.data triangles_buffer with
                   | NoData => throw TypeError
                   | PlainArray xs =>
                       Mesh.on_index_buffer "triangles"
                         (Buffer.update (Buffer.set_data (Mesh.reverse_winding (PlainArray xs)));;;
                          Buffer.upload st)
                   | Typed a0 =>
                       Mesh.on_index_buffer "triangles"
                         (Buffer.update (Buffer.set_data (Mesh.reverse_winding (Typed a0)));;;
                          Buffer.upload st)
                   end
               end) (m, w) = (Ok tt, (m', w')) ->
              exists nb' tb' a'0,
                obj_get (Mesh.vertexBuffers m') "normals" = Some nb' /\
                Buffer.data nb' = Mesh.negate_all (Buffer.data nb) /\
                obj_get (Mesh.indexBuffers m') "triangles" = Some tb' /\
                Buffer.data tb' = Typed a'0 /\
                TA.kind a'0 = TA.kind a /\ TA.length a'0 = 3 * n /\
                forall t, 0 <= t < n ->
                  corners_of a'0 t
                  = (TA.get a (3 * t + 1), TA.get a (3 * t), TA.get a (3 * t + 2))).
    { clear Hrun. intros d Hdn Hne H.
      unfold bind at 1 in H. unfold Mesh.on_vertex_buffer at 1 in H. cbn [fst snd] in H.
      rewrite Hn in H.
      match type of H with context [(Buffer.update ?f;;; Buffer.upload ?s) ?x] =>
        destruct ((Buffer.update f;;; Buffer.upload s) x) as [r1 [b1 w1]] eqn:E1 end.
      apply store_and_upload in E1.
      destruct r1 as [[]|e]; [|discriminate].
      unfold bind at 1 in H. unfold Mesh.this at 1 in H.
      cbn [fst Mesh.indexBuffers Mesh.set_vertexBuffers] in H. rewrite Ht in H.
      unfold bind at 1 in H. unfold ret at 1 in H.
      unfold bind at 1 in H. unfold Mesh.this at 1 in H.
      cbn [fst Mesh.indexBuffers Mesh.set_vertexBuffers] in H. rewrite Ht, Hd in H.
      unfold Mesh.on_index_buffer in H.
      cbn [fst snd Mesh.indexBuffers Mesh.set_vertexBuffers] in H. rewrite Ht in H.
      match type of H with context [(Buffer.update ?f;;; Buffer.upload ?s) ?x] =>
        destruct ((Buffer.update f;;; Buffer.upload s) x) as [r2 [b2 w2]] eqn:E2 end.
      apply store_and_upload in E2.
      injection H as _ <- _.
      exists b1, b2, a'.
      cbn [Mesh.vertexBuffers Mesh.indexBuffers Mesh.set_vertexBuffers Mesh.set_indexBuffers].
      split; [apply obj_get_set_eq|]. split; [now rewrite E1, Hdn|].
      split; [apply obj_get_set_eq|]. split; [now rewrite E2, Hrev|].
      auto. }
    destruct (Buffer.data nb) as [|xs|ns] eqn:Hnd; [discriminate| |].
    + apply (Hgo (PlainArray xs)); [reflexivity|discriminate|exact Hrun].
    + apply (Hgo (Typed ns)); [reflexivity|discriminate|exact Hrun].
Qed.

Lemma flipNormals_reverses_the_winding_witness :
  exists m' w' tb' a',
    Mesh.flipNormals None (triangle_with_normals, w0) = (Ok tt, (m', w')) /\
    obj_get (Mesh.indexBuffers m') "triangles" = Some tb' /\
    Buffer.data tb' = Typed a' /\
    corners_of a' 0 = (Some (Int 1), Some (Int 0), Some (Int 2)).
Proof.
  destruct (Mesh.flipNormals None (triangle_with_normals, w0)) as [[[]|e] [m' w']] eqn:Hrun;
    [|vm_compute in Hrun; discriminate].
  destruct (proj2 (flipNormals_reverses_the_winding None triangle_with_normals w0)
              m' w' _ _ (TA.of_list Uint16Array [Int 0; Int 1; Int 2]) 1
              Hrun eq_refl eq_refl eq_refl ltac:(repeat constructor) eq_refl)
    as (nb' & tb' & a' & _ & _ & Ht & Hd & _ & _ & Hc).
  exists m', w', tb', a'. split; [reflexivity|]. split; [exact Ht|]. split; [exact Hd|].
  apply (Hc 0). lia.
Defined.

(** ** computeBoundingBox: the mask *)

Lemma nan_unique (f : float) : is_nan f = true -> f = nan.
Proof.
  intros H. rewrite <- (SF2Prim_Prim2SF f). unfold Prim2SF. rewrite H. reflexivity.
Qed.

Lemma SFltb_irrefl (s : spec_float) : SFltb s s = false.
Proof.
  unfold SFltb. destruct s as [[]|[]| |[] m e]; cbn; try reflexivity;
    rewrite Z.compare_refl;
    change (Pos.compare_cont Eq m m) with (Pos.compare m m);
    rewrite Pos.compare_refl; reflexivity.
Qed.

Lemma fmin_self (f : float) : JS.fmin f f = f.
Proof.
  unfold JS.fmin. destruct (is_nan f) eqn:Hn.
  - cbn [orb]. symmetry. now apply nan_unique.
  - cbn [orb]. rewrite ltb_spec, SFltb_irrefl. destruct (get_sign f); reflexivity.
Qed.

Lemma fmax_self (f : float) : JS.fmax f f = f.
Proof.
  unfold JS.fmax. destruct (is_nan f) eqn:Hn.
  - cbn [orb]. symmetry. now apply nan_unique.
  - cbn [orb]. rewrite ltb_spec, SFltb_irrefl. destruct (get_sign f); reflexivity.
Qed.

(** A component read from a [Float32Array]: an element, or [NaN] past
    the end; storing it in a [Float32Array] gives it back. *)
Lemma float32_component (a : TypedArray) (v : View) (k : Z) :
  TA.kind a = Float32Array -> TA.wf a ->
  let x := JS.of_undefined (TA.view_get a v k) in
  TA.coerce Float32Array x = x /\ JS.min x x = x /\ JS.max x x = x.
Proof.
  intros Hk Hwf x.
  assert (Hx : TA.coerce Float32Array x = x).
  { unfold x, TA.view_get. destruct (_ && _); [|reflexivity].
    destruct (TA.get a (TA.v_off v + k)) as [y|] eqn:Hy; [|reflexivity].
    cbn [JS.of_undefined default from_option id]. rewrite <- Hk.
    eapply wf_get; eassumption. }
  split; [exact Hx|].
  destruct x as [z|f]; [discriminate|].
  cbn. rewrite fmin_self, fmax_self. split; reflexivity.
Qed.

Lemma float32_vector (a : TypedArray) (v : View) :
  TA.kind a = Float32Array -> TA.wf a ->
  let x := vec3.read a v in
  vec3.f32 x = x /\ vec3.f32 (vec3.min x x) = x /\ vec3.f32 (vec3.max x x) = x.
Proof.
  intros Hk Hwf. unfold vec3.read. cbv zeta.
  destruct (float32_component a v 0 Hk Hwf) as (H0 & Hn0 & Hx0).
  destruct (float32_component a v 1 Hk Hwf) as (H1 & Hn1 & Hx1).
  destruct (float32_component a v 2 Hk Hwf) as (H2 & Hn2 & Hx2).
  cbv zeta in *. unfold vec3.f32, vec3.min, vec3.max.
  rewrite Hn0, Hn1, Hn2, Hx0, Hx1, Hx2, H0, H1, H2. auto.
Qed.

Lemma first_marked_none (marks : list num) : forall i,
  Forall (fun x => JS.truthy x = false) marks -> Mesh.first_marked marks i = 0.
Proof.
  induction marks as [|x marks IH]; intros i H; [reflexivity|].
  apply Forall_cons in H. destruct H as [Hx H]. cbn. rewrite Hx. auto.
Qed.

Lemma fold_left_fixed {A B} (f : A -> B -> A) (xs : list B) (a : A) :
  Forall (fun x => f a x = a) xs -> fold_left f xs a = a.
Proof. induction 1 as [|x xs Hx _ IH]; cbn; [reflexivity|]. now rewrite Hx. Qed.

(** X28. the warning for a mask that marks no vertex is only given for the
    empty mask.  A mask of zeros is taken as if it marked the first
    vertex: the box is the box of that vertex. *)
Theorem computeBoundingBox_mask_of_zeros
    {BBox : Type} (create : BBox) (setCenterHalfsize : BBox -> vec3.t -> vec3.t -> BBox)
    (vertices : TypedArray) (bb : option BBox) (marks : list num) (w : World) :
  TA.kind vertices = Float32Array ->
  TA.wf vertices ->
  marks <> [] ->
  Forall (fun x => JS.truthy x = false) marks ->
  Mesh.computeBoundingBox create setCenterHalfsize (Typed vertices) bb (Some marks) w
  = Mesh.computeBoundingBox create setCenterHalfsize (Typed vertices) bb (Some [Int 1]) w /\
  Mesh.computeBoundingBox create setCenterHalfsize (Typed vertices) bb (Some []) w
  = (Ok None, emit (console_warn "mask contains only zeros, no vertices marked") w).
Proof.
  intros Hk Hwf Hne Hz. split; [|reflexivity].
  unfold Mesh.computeBoundingBox.
  assert (Hstart : Mesh.mask_start (Some marks) = 0) by (apply first_marked_none, Hz).
  assert (Hrej : Mesh.mask_rejected (Some marks) = false).
  { unfold Mesh.mask_rejected. rewrite Hstart. apply Z.eqb_neq.
    destruct marks; [congruence|]. cbn. lia. }
  rewrite Hrej, Hstart.
  change (Mesh.mask_rejected (Some [Int 1])) with false.
  change (Mesh.mask_start (Some [Int 1])) with 0.
  cbv iota. unfold Mesh.typed, bind, ret.
  set (first := vec3.f32 (vec3.read vertices (Mesh.triple_at vertices (Int (0 * 3))))).
  assert (Hall : Mesh.reduce_min_max vertices (Some marks) 0 = (first, first)).
  { unfold Mesh.reduce_min_max. fold first. apply fold_left_fixed.
    apply Forall_forall. intros i _.
    assert (Hm : Mesh.masked_out (Some marks) i = true).
    { unfold Mesh.masked_out. destruct (marks !! Z.to_nat (i / 3)) as [x|] eqn:Hx; [|reflexivity].
      rewrite Forall_forall in Hz. rewrite (Hz x); [reflexivity|].
      eapply list_elem_of_lookup_2. exact Hx. }
    now rewrite Hm. }
  assert (Hone : Mesh.reduce_min_max vertices (Some [Int 1]) 0 = (first, first)).
  { unfold Mesh.reduce_min_max. fold first. apply fold_left_fixed.
    apply Forall_forall. intros i Hi. unfold count_up in Hi.
    apply list_elem_of_fmap in Hi. destruct Hi as (k & -> & _).
    destruct k as [|k].
    - change (0 * 3 + 3 * Z.of_nat 0) with 0.
      change (Mesh.masked_out (Some [Int 1]) 0) with false. cbv iota.
      change (TA.subarray vertices (Int 0) (Int (0 + 3)))
        with (Mesh.triple_at vertices (Int (0 * 3))).
      destruct (float32_vector vertices (Mesh.triple_at vertices (Int (0 * 3))) Hk Hwf)
        as (Hf & Hmin & Hmax). cbv zeta in *.
      unfold first. rewrite Hf, Hmin, Hmax. reflexivity.
    - assert (Hm : Mesh.masked_out (Some [Int 1]) (0 * 3 + 3 * Z.of_nat (S k)) = true).
      { unfold Mesh.masked_out.
        replace ((0 * 3 + 3 * Z.of_nat (S k)) / 3) with (Z.of_nat (S k))
          by (rewrite Z.add_0_l, Z.mul_comm, Z.div_mul; lia).
        rewrite Nat2Z.id. reflexivity. }
      now rewrite Hm. }
  rewrite Hall, Hone. reflexivity.
Qed.

Lemma computeBoundingBox_mask_of_zeros_witness :
  let vs := TA.of_list Float32Array [Flt 1; Flt 2; Flt 3; Flt 5; Flt 5; Flt 5] in
  Mesh.computeBoundingBox (zero3, zero3) (fun _ center half_size => (center, half_size))
    (Typed vs) None (Some [Int 0; Int 0]) w0
  = Mesh.computeBoundingBox (zero3, zero3) (fun _ center half_size => (center, half_size))
      (Typed vs) None (Some [Int 1]) w0.
Proof.
  intros vs.
  apply (proj1 (computeBoundingBox_mask_of_zeros (zero3, zero3)
                  (fun _ center half_size => (center, half_size)) vs None [Int 0; Int 0] w0
                  eq_refl ltac:(repeat constructor) ltac:(discriminate)
                  ltac:(repeat constructor))).
Defined.

(** ** mergeMeshes: the bones *)







(** ** explodeIndices *)

Lemma obj_set_fresh {V} (o : Obj V) k v : k ∉ obj_keys o -> obj_set o k v = o ++ [(k, v)].
Proof.
  induction o as [|[k0 v0] o IH]; cbn; intros Hk; [reflexivity|].
  apply not_elem_of_cons in Hk. destruct Hk as [Hne Hk].
  destruct (String.eqb_spec k0 k); [congruence|]. now rewrite IH.
Qed.

Lemma fold_M_update_each {S B V} (f : Obj V -> string * B -> M S (Obj V))
    (old new : string * B -> string * V) (bufs : Obj B) :
  NoDup (obj_keys bufs) ->
  (forall e, (old e).1 = e.1 /\ (new e).1 = e.1) ->
  (forall nb e s, e ∈ bufs -> obj_get nb e.1 = Some (old e).2 ->
     f nb e s = (Ok (obj_set nb e.1 (new e).2), s)) ->
  forall s, Mesh.fold_M f bufs (map old bufs) s = (Ok (map new bufs), s).
Proof.
  intros Hnd Hkey Hf s.
  enough (G : forall post pre, bufs = pre ++ post ->
            Mesh.fold_M f post (map new pre ++ map old post) s = (Ok (map new bufs), s)).
  { apply (G bufs []). reflexivity. }
  induction post as [|e post IH]; intros pre ->.
  - cbn. now rewrite !app_nil_r.
  - cbn [Mesh.fold_M map]. unfold bind.
    assert (Hfresh : e.1 ∉ obj_keys (map new pre)).
    { unfold obj_keys in *. rewrite map_map.
      rewrite (map_ext _ fst) by (intros a; apply Hkey).
      rewrite map_app in Hnd. apply NoDup_app in Hnd as (_ & Hd & _).
      intros Hin. apply (Hd _ Hin). cbn. left. }
    assert (Hold : old e = (e.1, (old e).2)).
    { destruct (Hkey e) as [H1 _]. destruct (old e); cbn in *; congruence. }
    assert (Hnew : (e.1, (new e).2) = new e).
    { destruct (Hkey e) as [_ H1]. destruct (new e); cbn in *; congruence. }
    rewrite Hf.
    + rewrite Hold at 1. rewrite obj_set_app_fresh by exact Hfresh.
      rewrite Hnew.
      specialize (IH (pre ++ [e])). rewrite <- app_assoc in IH. cbn in IH.
      rewrite map_app, <- app_assoc in IH. cbn in IH. now apply IH.
    + apply elem_of_app. right. left.
    + rewrite Hold at 1. now apply obj_get_app_fresh.
Qed.

Lemma allocate_spec {S} (indices : list Z) (bufs : Obj Buffer.t) n (s : S) :
  NoDup (obj_keys bufs) ->
  Forall (explodable n) bufs ->
  Mesh.explodeIndices_allocate (Z.of_nat (List.length indices)) bufs s
  = (Ok (map (exploding_stream indices 0) bufs), s).
Proof.
  intros Hnd Hall. unfold Mesh.explodeIndices_allocate.
  enough (G : forall post pre, bufs = pre ++ post ->
            Mesh.fold_M
              (fun new_buffers '(i, _) =>
                 match obj_get Mesh.common_buffers i with
                 | None => throw TypeError
                 | Some info =>
                     ret (obj_set new_buffers i
                            (TA.zeros (default Float32Array (Mesh.si_type info))
                               (Z.to_nat (Mesh.si_spacing info * Z.of_nat (List.length indices)))))
                 end)
              post (map (exploding_stream indices 0) pre) s
            = (Ok (map (exploding_stream indices 0) bufs), s)).
  { apply (G bufs []). reflexivity. }
  induction post as [|[j b] post IH]; intros pre ->.
  - cbn. now rewrite app_nil_r.
  - cbn [Mesh.fold_M]. unfold bind.
    assert (He : explodable n (j, b)).
    { rewrite Forall_forall in Hall. apply Hall, elem_of_app. right. left. }
    destruct He as (c & d & Hc & Hd & Hsp & Hlen). cbn [fst snd] in *.
    rewrite Hc. unfold ret at 1.
    rewrite obj_set_fresh.
    + specialize (IH (pre ++ [(j, b)])). rewrite <- app_assoc in IH. cbn in IH.
      rewrite map_app in IH. cbn [map] in IH.
      replace (exploding_stream indices 0 (j, b))
        with (j, TA.zeros (default Float32Array (Mesh.si_type c))
                   (Z.to_nat (Mesh.si_spacing c * Z.of_nat (List.length indices)))) in IH.
      * now apply IH.
      * unfold exploding_stream, stream_info, exploding, TA.zeros, gathered. cbn [fst snd].
        rewrite Hc. cbn [default from_option id take map concat app].
        destruct (common_buffers_entry _ _ Hc) as [Hs _].
        rewrite Nat.sub_0_r, Z2Nat.inj_mul, Nat2Z.id by lia. reflexivity.
    + unfold obj_keys in *. rewrite map_map. cbn [exploding_stream fst].
      rewrite map_app in Hnd. apply NoDup_app in Hnd as (_ & Hd' & _).
      intros Hin. apply (Hd' _ Hin). cbn. left.
Qed.

Lemma length_gathered s xs n js :
  0 <= s -> Z.of_nat (List.length xs) = s * n ->
  Forall (fun j => 0 <= j < n) js ->
  List.length (gathered s xs js) = (Z.to_nat s * List.length js)%nat.
Proof.
  intros Hs Hlen Hall. unfold gathered.
  induction Hall as [|j js Hj _ IH]; cbn [map concat List.length]; [lia|].
  rewrite length_app, IH, length_take, length_drop. nia.
Qed.

Lemma gathered_snoc s xs js j :
  gathered s xs (js ++ [j])
  = gathered s xs js ++ take (Z.to_nat s) (drop (Z.to_nat (j * s)) xs).
Proof. unfold gathered. rewrite map_app, concat_app. cbn. now rewrite app_nil_r. Qed.

Lemma copy_step {S} (js : list Z) n (p : nat) jz nb (e : string * Buffer.t) (s : S) :
  explodable n e ->
  n <= 2 ^ 32 -> Z.of_nat (List.length js) <= 2 ^ 32 ->
  Forall (fun j => 0 <= j < n) js ->
  js !! p = Some jz ->
  obj_get nb e.1 = Some (exploding_stream js p e).2 ->
  Mesh.explodeIndices_copy (Z.of_nat p) (Int jz) nb e s
  = (Ok (obj_set nb e.1 (exploding_stream js (Datatypes.S p) e).2), s).
Proof.
  intros (c & d & Hc & Hd & Hsp & Hlen) Hn Hl Hall Hp Hnb.
  destruct e as [j b]. cbn [fst snd] in *.
  destruct (common_buffers_entry _ _ Hc) as [Hs _].
  assert (Hjz : 0 <= jz < n).
  { rewrite Forall_forall in Hall. apply Hall. eapply list_elem_of_lookup_2, Hp. }
  assert (Hpl : (p < List.length js)%nat) by (eapply lookup_lt_Some, Hp).
  unfold Mesh.explodeIndices_copy. rewrite Hc, Hnb, Hsp, Hd.
  assert (Htr : JS.truthy (Int (Mesh.si_spacing c)) = true).
  { cbn. apply negb_true_iff, Z.eqb_neq. lia. }
  rewrite Htr. unfold Mesh.typed, bind, ret.
  assert (Hmul : forall x, 0 <= x <= 2 ^ 32 ->
            (Int x * Int (Mesh.si_spacing c))%js = Int (x * Mesh.si_spacing c)).
  { intros x Hx. unfold JS.mul.
    replace ((x <? 0) || (Mesh.si_spacing c <? 0)) with false
      by (symmetry; apply orb_false_iff; split; apply Z.ltb_ge; lia).
    rewrite andb_false_r. unfold JS.of_Z.
    replace (Z.abs (x * Mesh.si_spacing c) <=? JS.safe_bound) with true; [reflexivity|].
    symmetry. apply Z.leb_le. unfold JS.safe_bound.
    assert (x * Mesh.si_spacing c <= 2 ^ 32 * 4) by nia. lia. }
  rewrite (Hmul jz) by lia. rewrite (Hmul (Z.of_nat p)) by lia.
  assert (Hadd : (Int (jz * Mesh.si_spacing c) + Int (Mesh.si_spacing c))%js
                 = Int (jz * Mesh.si_spacing c + Mesh.si_spacing c)).
  { unfold JS.add, JS.of_Z.
    replace (Z.abs _ <=? JS.safe_bound) with true; [reflexivity|].
    symmetry. apply Z.leb_le. unfold JS.safe_bound.
    assert (jz * Mesh.si_spacing c + Mesh.si_spacing c <= 2 ^ 32 * 4) by nia. lia. }
  rewrite Hadd.
  set (sp := Mesh.si_spacing c) in *.
  assert (Hsrc : TA.view_elems d (TA.subarray d (Int (jz * sp)) (Int (jz * sp + sp)))
                 = take (Z.to_nat sp) (drop (Z.to_nat (jz * sp)) (TA.elems d))).
  { unfold TA.view_elems, TA.subarray, JS.relative_index. cbn [TA.v_len TA.v_off].
    replace (jz * sp <? 0) with false by (symmetry; apply Z.ltb_ge; nia).
    replace (jz * sp + sp <? 0) with false by (symmetry; apply Z.ltb_ge; nia).
    rewrite !Z.min_l by nia. do 2 f_equal. lia. }
  rewrite Hsrc.
  cbn [JS.to_index].
  replace (Z.of_nat p * sp <? 0) with false by (symmetry; apply Z.ltb_ge; nia).
  assert (Hrow : List.length (take (Z.to_nat sp) (drop (Z.to_nat (jz * sp)) (TA.elems d)))
                 = Z.to_nat sp).
  { rewrite length_take, length_drop. unfold TA.length in Hlen. nia. }
  unfold exploding_stream at 1. cbn [fst snd].
  unfold stream_info, data_elems. rewrite Hc, Hd. cbn [default from_option id].
  fold sp. set (K := from_option id Float32Array (Mesh.si_type c)).
  assert (Hg : List.length (gathered sp (TA.elems d) (take p js)) = (Z.to_nat sp * p)%nat).
  { rewrite (length_gathered sp _ n); [rewrite length_take; lia|lia|exact Hlen|].
    now apply Forall_take. }
  unfold TA.set_from, exploding, TA.length. cbn [TA.elems TA.kind].
  rewrite Hrow, length_app, length_map, Hg, length_replicate.
  replace ((Z.of_nat (Z.to_nat (Z.of_nat p * sp)) <? 0)
           || (Z.of_nat (Z.to_nat sp * p + Z.to_nat sp * (List.length js - p))
               <? Z.of_nat (Z.to_nat (Z.of_nat p * sp)) + Z.of_nat (Z.to_nat sp)))
    with false.
  2:{ symmetry. apply orb_false_iff. split; apply Z.ltb_ge; [lia|]. nia. }
  do 3 f_equal. unfold exploding_stream, stream_info, data_elems, exploding. cbn [fst snd].
  rewrite Hc, Hd. cbn [default from_option id]. fold sp K. f_equal.
  rewrite (take_S_r _ _ jz) by exact Hp.
  rewrite gathered_snoc, map_app, <- app_assoc. 
  rewrite Nat2Z.id.
  replace (Z.to_nat (Z.of_nat p * sp)) with (Z.to_nat sp * p)%nat
    by (rewrite Z2Nat.inj_mul, Nat2Z.id by lia; apply Nat.mul_comm).
  rewrite take_app_length'; [|now rewrite length_map].
  f_equal. f_equal.
  rewrite drop_app, drop_ge by (rewrite length_map; lia).
  rewrite length_map, Hg, drop_replicate. cbn [app]. f_equal. nia.
Qed.

Lemma copy_loop {S} (js : list Z) n (bufs : Obj Buffer.t) (s : S) :
  NoDup (obj_keys bufs) ->
  Forall (explodable n) bufs ->
  n <= 2 ^ 32 -> Z.of_nat (List.length js) <= 2 ^ 32 ->
  Forall (fun j => 0 <= j < n) js ->
  Mesh.fold_M (fun new_buffers '(i, index) =>
                 Mesh.fold_M (Mesh.explodeIndices_copy i index) bufs new_buffers)
              (imap (fun i index => (Z.of_nat i, index)) (map Int js))
              (map (exploding_stream js 0) bufs) s
  = (Ok (map (exploding_stream js (List.length js)) bufs), s).
Proof.
  intros Hnd Hall Hn Hl Hjs.
  enough (G : forall rest p, drop p js = rest ->
            Mesh.fold_M (fun new_buffers '(i, index) =>
                           Mesh.fold_M (Mesh.explodeIndices_copy i index) bufs new_buffers)
                        (imap (fun i index => (Z.of_nat (p + i), index)) (map Int rest))
                        (map (exploding_stream js p) bufs) s
            = (Ok (map (exploding_stream js (List.length js)) bufs), s)).
  { apply (G js 0%nat). reflexivity. }
  induction rest as [|jz rest IH]; intros p Hp.
  - cbn. unfold ret. do 2 f_equal. apply map_ext. intros e.
    assert (List.length js <= p)%nat.
    { apply (f_equal List.length) in Hp. rewrite length_drop in Hp. cbn in Hp. lia. }
    unfold exploding_stream. rewrite !take_ge by lia.
    replace (List.length js - p)%nat with (List.length js - List.length js)%nat by lia.
    reflexivity.
  - assert (Hlk : js !! p = Some jz).
    { rewrite <- (Nat.add_0_r p), <- lookup_drop, Hp. reflexivity. }
    cbn [map]. rewrite imap_cons. cbn [Mesh.fold_M]. unfold bind at 1.
    rewrite Nat.add_0_r.
    rewrite (fold_M_update_each _ (exploding_stream js p) (exploding_stream js (Datatypes.S p))).
    + rewrite (imap_ext _ (fun i index => (Z.of_nat (Datatypes.S p + i), index))).
      * apply IH. replace (Datatypes.S p) with (p + 1)%nat by lia.
        rewrite <- drop_drop, Hp. reflexivity.
      * intros i x _. cbn. do 2 f_equal. lia.
    + exact Hnd.
    + intros e. split; reflexivity.
    + intros nb e s0 He Hget. apply (copy_step js n); try assumption.
      rewrite Forall_forall in Hall. now apply Hall.
Qed.

Lemma createVertexBuffer_listed name c attr sp (a : TypedArray) st (m : Mesh.t) (w : World) ty :
  obj_get Mesh.common_buffers name = Some c ->
  Buffer.gl_type_of (TA.kind a) = Some ty ->
  exists b w',
    Mesh.createVertexBuffer name attr sp (Typed a) st (m, w)
    = (Ok b, (Mesh.set_vertexBuffers (obj_set (Mesh.vertexBuffers m) name b) m, w')) /\
    Buffer.data b = Typed a.
Proof.
  intros Hc Hty. unfold Mesh.createVertexBuffer. rewrite Hc.
  destruct (common_buffers_entry _ _ Hc) as [Hs Hattr].
  assert (Hat : Mesh.string_truthy
                  (if Mesh.string_truthy attr then attr else Some (Mesh.si_attribute c)) = true).
  { destruct (Mesh.string_truthy attr) eqn:E; [exact E|exact Hattr]. }
  rewrite Hat. cbn [negb]. mstep'.
  match goal with |- context [Buffer.new ?t ?d ?sp' ?s ?g ?x] =>
    destruct (Buffer_new_typed t a sp' s g x ty Hty) as (b & w' & Hnew & Hd & _) end.
  rewrite Hnew. mstep'.
  eexists _, w'. split; [reflexivity|].
  destruct (_ && _); exact Hd.
Qed.

Lemma keys_rebuilt js (pre pre' : Obj Buffer.t) :
  Forall2 (rebuilt js) pre pre' -> obj_keys pre' = obj_keys pre.
Proof.
  induction 1 as [|e e' pre pre' [Hk _] _ IH]; [reflexivity|].
  unfold obj_keys in *. cbn. now rewrite Hk, IH.
Qed.

Lemma rebuild_spec js n (bufs : Obj Buffer.t) (m : Mesh.t) (w : World) :
  NoDup (obj_keys bufs) ->
  Forall (explodable n) bufs ->
  Mesh.vertexBuffers m = bufs ->
  exists m' w',
    for_each (map (exploding_stream js (List.length js)) bufs)
      (fun '(i, a) =>
         m <- Mesh.this;;
         match obj_get (Mesh.vertexBuffers m) i with
         | None => throw TypeError
         | Some old =>
             Mesh.createVertexBuffer i (Buffer.attribute old) (Some (Buffer.spacing old))
               (Typed a) None;;;
             ret tt
         end) (m, w)
    = (Ok tt, (m', w')) /\
    Mesh.indexBuffers m' = Mesh.indexBuffers m /\
    Forall2 (rebuilt js) bufs (Mesh.vertexBuffers m').
Proof.
  intros Hnd Hall Hm.
  enough (G : forall post pre pre' m w,
            bufs = pre ++ post -> Forall2 (rebuilt js) pre pre' ->
            Mesh.vertexBuffers m = pre' ++ post ->
            exists m' w',
              for_each (map (exploding_stream js (List.length js)) post)
                (fun '(i, a) =>
                   m <- Mesh.this;;
                   match obj_get (Mesh.vertexBuffers m) i with
                   | None => throw TypeError
                   | Some old =>
                       Mesh.createVertexBuffer i (Buffer.attribute old)
                         (Some (Buffer.spacing old)) (Typed a) None;;;
                       ret tt
                   end) (m, w)
              = (Ok tt, (m', w')) /\
              Mesh.indexBuffers m' = Mesh.indexBuffers m /\
              Forall2 (rebuilt js) bufs (Mesh.vertexBuffers m')).
  { apply (G bufs [] []); [reflexivity|constructor|exact Hm]. }
  clear m w Hm. induction post as [|[j b] post IH]; intros pre pre' m w Hb Hpre Hm.
  - exists m, w. cbn. split; [reflexivity|]. split; [reflexivity|].
    rewrite Hm, Hb, !app_nil_r. exact Hpre.
  - assert (He : explodable n (j, b)).
    { rewrite Forall_forall in Hall. apply Hall. rewrite Hb. apply elem_of_app. right. left. }
    destruct He as (c & d & Hc & Hd & Hsp & Hlen). cbn [fst snd] in *.
    assert (Hfresh : j ∉ obj_keys pre').
    { rewrite (keys_rebuilt js pre pre' Hpre). rewrite Hb in Hnd.
      unfold obj_keys in *. rewrite map_app in Hnd. apply NoDup_app in Hnd as (_ & Hd' & _).
      intros Hin. apply (Hd' _ Hin). cbn. left. }
    cbn [map for_each exploding_stream fst snd]. unfold bind at 1.
    unfold Mesh.this at 1. cbn [fst]. unfold bind at 1. cbn [fst snd].
    rewrite Hm, (obj_get_app_fresh pre' j b post Hfresh).
    set (a := exploding _ _ _ _ _).
    assert (Hty : exists ty, Buffer.gl_type_of (TA.kind a) = Some ty).
    { subst a. unfold exploding, stream_info. cbn [TA.kind]. rewrite Hc.
      cbn [default from_option id].
      revert Hc. unfold Mesh.common_buffers. cbn [obj_get].
      repeat (destruct (String.eqb _ j); [intros [= <-]; cbn; eauto|]). discriminate. }
    destruct Hty as (ty & Hty).
    destruct (createVertexBuffer_listed j c (Buffer.attribute b) (Some (Buffer.spacing b)) a
                None m w ty Hc Hty) as (b' & w1 & Hrun & Hdata).
    unfold bind at 1. rewrite Hrun. unfold ret at 1.
    destruct (IH (pre ++ [(j, b)]) (pre' ++ [(j, b')])
                (Mesh.set_vertexBuffers (obj_set (Mesh.vertexBuffers m) j b') m) w1)
      as (m' & w' & Hrest & Hidx & Hall').
    + rewrite <- app_assoc. exact Hb.
    + apply Forall2_app; [exact Hpre|]. constructor; [|constructor].
      split; [reflexivity|]. cbn [fst snd exploding_stream]. exact Hdata.
    + cbn [Mesh.set_vertexBuffers Mesh.vertexBuffers]. rewrite Hm.
      rewrite obj_set_app_fresh by exact Hfresh. now rewrite <- app_assoc.
    + exists m', w'. split; [exact Hrest|]. split; [|exact Hall'].
      rewrite Hidx. reflexivity.
Qed.

Lemma rebuilt_lookup js (bufs bufs' : Obj Buffer.t) j b :
  Forall2 (rebuilt js) bufs bufs' ->
  obj_get bufs j = Some b ->
  exists b', obj_get bufs' j = Some b' /\
    Buffer.data b' = Typed (exploding_stream js (List.length js) (j, b)).2.
Proof.
  induction 1 as [|[k x] [k' x'] bufs bufs' [Hk Hd] _ IH]; cbn; [discriminate|].
  cbn in Hk, Hd. subst k'.
  destruct (String.eqb_spec k j) as [->|Hne].
  - intros [= <-]. exists x'. split; [reflexivity|exact Hd].
  - exact IH.
Qed.

(** X26. [explodeIndices] replaces every vertex buffer by one that holds,
    for each index of the index buffer in turn, the components of the
    vertex the index names, and removes the index buffer. *)
Theorem explodeIndices_copies_the_indexed_vertices
    (buffer_name : option string) (m : Mesh.t) (w : World) (ib : Buffer.t)
    (js : list Z) (n : Z) :
  obj_get (Mesh.indexBuffers m) (name_or_triangles buffer_name) = Some ib ->
  Mesh.index_values (Buffer.data ib) = Some (map Int js) ->
  NoDup (obj_keys (Mesh.vertexBuffers m)) ->
  Forall (explodable n) (Mesh.vertexBuffers m) ->
  n <= 2 ^ 32 -> Z.of_nat (List.length js) <= 2 ^ 32 ->
  Forall (fun j => 0 <= j < n) js ->
  exists m' w',
    Mesh.explodeIndices buffer_name (m, w) = (Ok tt, (m', w')) /\
    obj_get (Mesh.indexBuffers m') (name_or_triangles buffer_name) = None /\
    forall j b c d,
      obj_get (Mesh.vertexBuffers m) j = Some b ->
      obj_get Mesh.common_buffers j = Some c ->
      Buffer.data b = Typed d ->
      exists b',
        obj_get (Mesh.vertexBuffers m') j = Some b' /\
        Buffer.data b'
        = Typed (TA.of_list (default Float32Array (Mesh.si_type c))
                   (gathered (Mesh.si_spacing c) (TA.elems d) js)).
Proof.
  intros Hib Hidx Hnd Hall Hn Hl Hjs.
  destruct (rebuild_spec js n (Mesh.vertexBuffers m) m w Hnd Hall eq_refl)
    as (m1 & w1 & Hrebuild & Hi1 & Hall1).
  exists (Mesh.set_indexBuffers
            (obj_delete (Mesh.indexBuffers m1) (name_or_triangles buffer_name)) m1), w1.
  split; [|split].
  - unfold Mesh.explodeIndices. fold (name_or_triangles buffer_name).
    unfold bind at 1. unfold Mesh.this at 1. cbn [fst].
    rewrite Hib, Hidx. unfold bind at 1.
    rewrite length_map.
    rewrite (allocate_spec js _ n) by assumption.
    unfold bind at 1.
    rewrite (copy_loop js n) by assumption.
    unfold bind at 1. rewrite Hrebuild. reflexivity.
  - cbn [Mesh.set_indexBuffers Mesh.indexBuffers]. apply obj_get_delete_eq.
  - intros j b c d Hb Hc Hd.
    destruct (rebuilt_lookup js _ _ j b Hall1 Hb) as (b' & Hb' & Hdata).
    exists b'. split; [exact Hb'|]. rewrite Hdata.
    unfold exploding_stream, exploding, stream_info, data_elems, TA.of_list. cbn [fst snd].
    rewrite Hc, Hd. cbn [default from_option id].
    rewrite take_ge, Nat.sub_diag, Nat.mul_0_r by lia. cbn [replicate].
    now rewrite app_nil_r.
Qed.

Lemma explodeIndices_copies_the_indexed_vertices_witness :
  exists m' w',
    Mesh.explodeIndices None (two_triangles_mesh, w0) = (Ok tt, (m', w')) /\
    obj_get (Mesh.indexBuffers m') "triangles" = None /\
    forall j b c d,
      obj_get (Mesh.vertexBuffers two_triangles_mesh) j = Some b ->
      obj_get Mesh.common_buffers j = Some c ->
      Buffer.data b = Typed d ->
      exists b',
        obj_get (Mesh.vertexBuffers m') j = Some b' /\
        Buffer.data b'
        = Typed (TA.of_list (default Float32Array (Mesh.si_type c))
                   (gathered (Mesh.si_spacing c) (TA.elems d) [0; 1; 2; 0; 2; 3])).
Proof.
  apply (explodeIndices_copies_the_indexed_vertices None two_triangles_mesh w0
           (plain_buffer ELEMENT_ARRAY_BUFFER (TA.of_list Uint16Array (index_data two_triangles)))
           [0; 1; 2; 0; 2; 3] 4).
  - reflexivity.
  - reflexivity.
  - apply NoDup_singleton.
  - repeat constructor. eexists _, _. repeat split.
  - lia.
  - cbn. lia.
  - repeat constructor; lia.
Defined.

(** ** Mesh.upload *)






(** ** GL.Indexer and the wireframe of an indexed mesh *)

Section IndexerFacts.

Context {A : Type}.
Variable JSON_stringify : A -> string.

Lemma indexer_new_ok : indexer_ok JSON_stringify (@Indexer.new A).
Proof.
  split; [constructor|]. intros key k. cbn. rewrite lookup_nil. split; discriminate.
Qed.

Lemma indexer_add_ok (obj : A) (ix : Indexer.t A) :
  indexer_ok JSON_stringify ix ->
  indexer_ok JSON_stringify (snd (Indexer.add JSON_stringify obj ix)).
Proof.
  intros [Hnd Hmap]. unfold Indexer.add.
  destruct (obj_get (Indexer.map ix) (JSON_stringify obj)) as [k|] eqn:Hget; cbn [snd].
  { split; assumption. }
  assert (Hfresh : JSON_stringify obj ∉ map JSON_stringify (Indexer.unique ix)).
  { intros Hin. apply list_elem_of_lookup in Hin as [k Hk].
    apply Hmap in Hk. congruence. }
  split; cbn [Indexer.unique Indexer.map].
  - rewrite map_app. cbn. apply NoDup_app. split; [exact Hnd|]. split.
    + intros x Hx Hx'. apply list_elem_of_singleton in Hx'. subst x. contradiction.
    + apply NoDup_singleton.
  - intros key k. rewrite map_app. cbn [map].
    assert (Hlen : List.length (map JSON_stringify (Indexer.unique ix))
                   = List.length (Indexer.unique ix)) by apply length_map.
    destruct (decide (key = JSON_stringify obj)) as [->|Hne].
    + rewrite obj_get_set_eq. split.
      * intros [= <-]. rewrite lookup_app_r by lia. rewrite Hlen, Nat.sub_diag. reflexivity.
      * intros Hk. destruct (decide (k < List.length (Indexer.unique ix))%nat) as [Hlt|Hge].
        -- rewrite lookup_app_l in Hk by lia.
           exfalso. apply Hfresh. eapply list_elem_of_lookup_2, Hk.
        -- apply lookup_lt_Some in Hk as Hk'. rewrite length_app in Hk'. cbn in Hk'.
           f_equal. lia.
    + rewrite obj_get_set_ne by congruence. rewrite Hmap. split.
      * intros Hk. apply lookup_app_l_Some. exact Hk.
      * intros Hk. destruct (decide (k < List.length (Indexer.unique ix))%nat) as [Hlt|Hge].
        -- now rewrite lookup_app_l in Hk by lia.
        -- rewrite lookup_app_r in Hk by lia.
           destruct (k - _)%nat; cbn in Hk; [congruence|discriminate].
Qed.

Lemma indexer_fold_ok (objs : list A) (ix : Indexer.t A) :
  indexer_ok JSON_stringify ix ->
  indexer_ok JSON_stringify
    (fold_left (fun ix obj => snd (Indexer.add JSON_stringify obj ix)) objs ix).
Proof.
  revert ix. induction objs as [|o objs IH]; intros ix Hok; cbn; [exact Hok|].
  apply IH, indexer_add_ok, Hok.
Qed.

Lemma indexer_fold_unique (objs : list A) : forall (ix : Indexer.t A),
  indexer_ok JSON_stringify ix ->
  let ix' := fold_left (fun ix obj => snd (Indexer.add JSON_stringify obj ix)) objs ix in
  (forall o, o ∈ Indexer.unique ix' -> o ∈ Indexer.unique ix \/ o ∈ objs) /\
  (forall o, o ∈ Indexer.unique ix -> o ∈ Indexer.unique ix') /\
  (forall o, o ∈ objs ->
     JSON_stringify o ∈ map JSON_stringify (Indexer.unique ix')).
Proof.
  induction objs as [|x objs IH]; intros ix Hok; cbn zeta; cbn [fold_left].
  - split; [auto|]. split; [auto|]. intros o Ho. inversion Ho.
  - specialize (IH _ (indexer_add_ok x ix Hok)). cbn zeta in IH.
    destruct IH as (IH1 & IH2 & IH3).
    assert (Hstep : (forall o, o ∈ Indexer.unique (snd (Indexer.add JSON_stringify x ix)) ->
                       o ∈ Indexer.unique ix \/ o = x) /\
                    (forall o, o ∈ Indexer.unique ix ->
                       o ∈ Indexer.unique (snd (Indexer.add JSON_stringify x ix))) /\
                    JSON_stringify x
                    ∈ map JSON_stringify
                        (Indexer.unique (snd (Indexer.add JSON_stringify x ix)))).
    { unfold Indexer.add.
      destruct (obj_get (Indexer.map ix) (JSON_stringify x)) as [k|] eqn:Hget; cbn [snd].
      - split; [auto|]. split; [auto|].
        apply (proj2 Hok) in Hget. eapply list_elem_of_lookup_2, Hget.
      - cbn [Indexer.unique]. split; [|split].
        + intros o Ho. apply elem_of_app in Ho as [Ho|Ho]; [auto|].
          apply list_elem_of_singleton in Ho. auto.
        + intros o Ho. apply elem_of_app. auto.
        + rewrite map_app. apply elem_of_app. right. cbn. left. }
    destruct Hstep as (S1 & S2 & S3).
    split; [|split].
    + intros o Ho. apply IH1 in Ho as [Ho|Ho].
      * apply S1 in Ho as [Ho| ->]; [auto|]. right. left.
      * right. now right.
    + intros o Ho. apply IH2, S2, Ho.
    + intros o Ho. apply elem_of_cons in Ho as [->|Ho]; [|now apply IH3].
      apply list_elem_of_fmap in S3 as (o' & Heq & Ho').
      apply list_elem_of_fmap. exists o'. split; [exact Heq|]. now apply IH2.
Qed.

End IndexerFacts.

(** X1. an indexer keeps one object for each JSON text: whatever was added
    to a new indexer, no two objects of [unique] have the same text, every
    one of them was added, and adding an object again returns the position
    of the object that has its text and changes nothing. *)
Theorem Indexer_add_keeps_one_object_per_text {A} (JSON_stringify : A -> string)
    (objs : list A) :
  NoDup (map JSON_stringify (Indexer.unique (indexer_of JSON_stringify objs))) /\
  (forall o, o ∈ Indexer.unique (indexer_of JSON_stringify objs) -> o ∈ objs) /\
  (forall o, o ∈ objs ->
     exists k o',
       Indexer.add JSON_stringify o (indexer_of JSON_stringify objs)
       = (k, indexer_of JSON_stringify objs) /\
       Indexer.unique (indexer_of JSON_stringify objs) !! k = Some o' /\
       JSON_stringify o' = JSON_stringify o).
Proof.
  set (ix := indexer_of JSON_stringify objs).
  pose proof (indexer_fold_ok JSON_stringify objs _ (indexer_new_ok JSON_stringify)) as Hok.
  destruct (indexer_fold_unique JSON_stringify objs _ (indexer_new_ok JSON_stringify))
    as (H1 & _ & H3).
  fold (indexer_of JSON_stringify objs) in Hok, H1, H3. fold ix in Hok, H1, H3.
  split; [exact (proj1 Hok)|]. split.
  - intros o Ho. destruct (H1 o Ho) as [Hin|Hin]; [inversion Hin|exact Hin].
  - intros o Ho. specialize (H3 o Ho).
    apply list_elem_of_lookup in H3 as [k Hk].
    pose proof Hk as Hk'. apply (proj2 Hok) in Hk'.
    rewrite list_lookup_fmap in Hk.
    destruct (Indexer.unique ix !! k) as [o'|] eqn:Ho'; [|discriminate].
    cbn in Hk. injection Hk as Hk.
    exists k, o'. split; [|split; [exact Ho'|exact Hk]].
    unfold Indexer.add. now rewrite Hk'.
Qed.

Lemma Indexer_add_keeps_one_object_per_text_witness :
  exists k o',
    Indexer.add json_of_pair (edge 1 0) (indexer_of json_of_pair [edge 0 1; edge 1 2])
    = (k, indexer_of json_of_pair [edge 0 1; edge 1 2]) /\
    Indexer.unique (indexer_of json_of_pair [edge 0 1; edge 1 2]) !! k = Some o' /\
    json_of_pair o' = json_of_pair (edge 1 0).
Proof.
  apply (proj2 (proj2 (Indexer_add_keeps_one_object_per_text json_of_pair
                         [edge 0 1; edge 1 2]))).
  left.
Defined.

Lemma wireframe_add_triangle_edges JSON_stringify (d : TypedArray) tris k i1 i2 i3 ix :
  TA.elems d = index_data tris ->
  tris !! k = Some (i1, i2, i3) ->
  Mesh.wireframe_add_triangle JSON_stringify d ix (3 * Z.of_nat k)
  = fold_left (fun ix obj => snd (Indexer.add JSON_stringify obj ix))
      [edge i1 i2; edge i2 i3; edge i3 i1] ix.
Proof.
  intros Hd Hk. unfold Mesh.wireframe_add_triangle.
  assert (Hlen : TA.length d = 3 * Z.of_nat (List.length tris)).
  { unfold TA.length. rewrite Hd, index_data_length. lia. }
  assert (Hkl : (k < List.length tris)%nat) by (eapply lookup_lt_Some, Hk).
  assert (Hview : TA.subarray d (Int (3 * Z.of_nat k)) (Int (3 * Z.of_nat k + 3))
                  = TA.mkView (3 * Z.of_nat k) 3).
  { unfold TA.subarray, JS.relative_index.
    replace (3 * Z.of_nat k <? 0) with false by (symmetry; apply Z.ltb_ge; lia).
    replace (3 * Z.of_nat k + 3 <? 0) with false by (symmetry; apply Z.ltb_ge; lia).
    rewrite !Z.min_l by lia. f_equal. lia. }
  rewrite Hview. cbn [TA.v_len].
  change (count_up 0 3 1) with [0; 1; 2].
  destruct (index_data_lookup tris k i1 i2 i3 Hk) as (L1 & L2 & L3).
  assert (Hget : forall j x, 0 <= j < 3 ->
            index_data tris !! (3 * k + Z.to_nat j)%nat = Some x ->
            JS.of_undefined (TA.view_get d (TA.mkView (3 * Z.of_nat k) 3) j) = x).
  { intros j x Hj Hx. unfold TA.view_get, TA.get. cbn [TA.v_len TA.v_off].
    replace ((0 <=? j) && (j <? 3)) with true
      by (symmetry; apply andb_true_iff; split; [apply Z.leb_le|apply Z.ltb_lt]; lia).
    replace (3 * Z.of_nat k + j <? 0) with false by (symmetry; apply Z.ltb_ge; lia).
    rewrite Hd. replace (Z.to_nat (3 * Z.of_nat k + j)) with (3 * k + Z.to_nat j)%nat by lia.
    now rewrite Hx. }
  cbn [fold_left].
  change ((0 + 1) mod 3) with 1. change ((1 + 1) mod 3) with 2. change ((2 + 1) mod 3) with 0.
  rewrite (Hget 0 (Int i1)), (Hget 1 (Int i2)), (Hget 2 (Int i3));
    try lia; try assumption.
  - reflexivity.
  - now rewrite Nat.add_0_r.
Qed.

Lemma wireframe_loop_edges JSON_stringify (d : TypedArray) tris :
  TA.elems d = index_data tris ->
  fold_left (Mesh.wireframe_add_triangle JSON_stringify d)
    (count_up 0 (TA.length d) 3) Indexer.new
  = indexer_of JSON_stringify (triangle_edges tris).
Proof.
  intros Hd.
  assert (Hlen : TA.length d = 3 * Z.of_nat (List.length tris)).
  { unfold TA.length. rewrite Hd, index_data_length. lia. }
  rewrite Hlen, count_up_by_3. unfold indexer_of.
  enough (G : forall rest done ix, tris = done ++ rest ->
            fold_left (Mesh.wireframe_add_triangle JSON_stringify d)
              (map (fun j => 3 * Z.of_nat j) (seq (List.length done) (List.length rest))) ix
            = fold_left (fun ix obj => snd (Indexer.add JSON_stringify obj ix))
                (triangle_edges rest) ix).
  { apply (G tris []). reflexivity. }
  induction rest as [|[[i1 i2] i3] rest IH]; intros done ix Htris; [reflexivity|].
  cbn [List.length seq map fold_left].
  rewrite (wireframe_add_triangle_edges JSON_stringify d tris _ i1 i2 i3 ix Hd).
  2:{ rewrite Htris. rewrite lookup_app_r by lia. now rewrite Nat.sub_diag. }
  specialize (IH (done ++ [(i1, i2, i3)])). rewrite length_app in IH. cbn in IH.
  replace (Datatypes.S (List.length done)) with (List.length done + 1)%nat by lia.
  rewrite IH by (rewrite <- app_assoc; exact Htris).
  unfold triangle_edges. cbn [map concat]. reflexivity.
Qed.

Lemma line_data_snoc done a b : line_data (done ++ [(a, b)]) = line_data done ++ [a; b].
Proof. unfold line_data. rewrite map_app, concat_app. reflexivity. Qed.

Lemma length_line_data edges : List.length (line_data edges) = (List.length edges * 2)%nat.
Proof.
  induction edges as [|[a b] edges IH]; [reflexivity|].
  unfold line_data in *. cbn [map concat List.length app]. rewrite IH. lia.
Qed.

Lemma wireframe_fill {S} (K : ArrayKind) (unique : list (num * num)) (s : S) :
  Mesh.fold_M (fun buffer '(i, (a, b)) =>
                 match TA.set_from buffer [a; b] (Z.of_nat i * 2) with
                 | Some buffer => ret buffer
                 | None => throw RangeError
                 end)
              (imap (fun i obj => (i, obj)) unique)
              (TA.zeros K (List.length unique * 2)) s
  = (Ok (TA.of_list K (line_data unique)), s).
Proof.
  enough (G : forall rest done, unique = done ++ rest ->
            Mesh.fold_M (fun buffer '(i, (a, b)) =>
                           match TA.set_from buffer [a; b] (Z.of_nat i * 2) with
                           | Some buffer => ret buffer
                           | None => throw RangeError
                           end)
                        (imap (fun i obj => ((List.length done + i)%nat, obj)) rest)
                        (TA.mk K (map (TA.coerce K) (line_data done)
                                  ++ replicate (List.length rest * 2) (TA.coerce K (Int 0)))) s
            = (Ok (TA.of_list K (line_data unique)), s)).
  { apply (G unique []). reflexivity. }
  induction rest as [|[a b] rest IH]; intros done ->.
  - cbn. rewrite !app_nil_r. reflexivity.
  - rewrite imap_cons. cbn [Mesh.fold_M]. unfold bind at 1. rewrite Nat.add_0_r.
    unfold TA.set_from at 1. unfold TA.length. cbn [TA.elems TA.kind].
    rewrite length_app, length_map, length_line_data, length_replicate.
    cbn [List.length].
    replace ((Z.of_nat (List.length done) * 2 <? 0)
             || (Z.of_nat (List.length done * 2 + Datatypes.S (List.length rest) * 2)
                 <? Z.of_nat (List.length done) * 2 + Z.of_nat 2)) with false
      by (symmetry; apply orb_false_iff; split; apply Z.ltb_ge; lia).
    unfold ret at 1.
    replace (Z.to_nat (Z.of_nat (List.length done) * 2)) with (List.length done * 2)%nat by lia.
    rewrite take_app_length' by (now rewrite length_map, length_line_data).
    rewrite drop_app, drop_ge by (rewrite length_map, length_line_data; lia).
    rewrite length_map, length_line_data, drop_replicate. cbn [app].
    specialize (IH (done ++ [(a, b)])). rewrite <- app_assoc in IH. cbn [app] in IH.
    rewrite length_app in IH. cbn [List.length] in IH.
    rewrite line_data_snoc, map_app in IH. cbn [map] in IH. rewrite <- app_assoc in IH.
    cbn [app] in IH.
    replace (List.length done * 2 + 2 - List.length done * 2)%nat with 2%nat by lia.
    replace (Datatypes.S (List.length rest) * 2 - 2)%nat with (List.length rest * 2)%nat by lia.
    rewrite (imap_ext _ (fun i obj => ((List.length done + 1 + i)%nat, obj))).
    + now apply IH.
    + intros i x _. cbn. f_equal. lia.
Qed.

(** X20. on a mesh with an index buffer that lists triangles,
    [computeWireframe] stores under ["wireframe"] every line of every
    triangle once, whatever the direction the triangles go through it. *)
Theorem computeWireframe_lists_every_edge_once
    (JSON_stringify : num * num -> string) (m : Mesh.t) (w : World)
    (vb ib : Buffer.t) (vs d : TypedArray) (tris : list (Z * Z * Z)) :
  obj_get (Mesh.vertexBuffers m) "vertices" = Some vb ->
  Buffer.data vb = Typed vs ->
  obj_get (Mesh.indexBuffers m) "triangles" = Some ib ->
  Buffer.data ib = Typed d ->
  TA.elems d = index_data tris ->
  (forall p q, p ∈ triangle_edges tris -> q ∈ triangle_edges tris ->
     JSON_stringify p = JSON_stringify q -> p = q) ->
  exists m' w' b lines,
    Mesh.computeWireframe JSON_stringify (m, w) = (Ok tt, (m', w')) /\
    obj_get (Mesh.indexBuffers m') "wireframe" = Some b /\
    Buffer.data b
    = Typed (TA.of_list (Mesh.index_datatype (Int (TA.length vs) / Int 3)%js)
               (line_data lines)) /\
    NoDup lines /\
    (forall e, e ∈ lines <-> e ∈ triangle_edges tris).
Proof.
  intros Hvb Hvs Hib Hd Hdata Hinj.
  set (ix := indexer_of JSON_stringify (triangle_edges tris)).
  set (K := Mesh.index_datatype (Int (TA.length vs) / Int 3)%js).
  destruct (index_kinds_supported (Int (TA.length vs) / Int 3)%js
              (line_data (Indexer.unique ix))) as [ty Hty].
  destruct (createIndexBuffer_typed "wireframe" (TA.of_list K (line_data (Indexer.unique ix)))
              None m w ty Hty) as (b & w' & Hrun & Hb).
  pose proof (indexer_fold_ok JSON_stringify (triangle_edges tris) _
                (indexer_new_ok JSON_stringify)) as Hok.
  destruct (indexer_fold_unique JSON_stringify (triangle_edges tris) _
              (indexer_new_ok JSON_stringify)) as (H1 & _ & H3).
  fold (indexer_of JSON_stringify (triangle_edges tris)) in Hok, H1, H3.
  fold ix in Hok, H1, H3.
  assert (Hsub : forall e, e ∈ Indexer.unique ix -> e ∈ triangle_edges tris).
  { intros e He. destruct (H1 e He) as [Hin|Hin]; [inversion Hin|exact Hin]. }
  eexists _, w', b, (Indexer.unique ix). split; [|split; [|split; [|split]]].
  - unfold Mesh.computeWireframe. unfold bind at 1. unfold Mesh.this at 1. cbn [fst].
    rewrite Hvb, Hvs, Hib, Hd. cbn [Mesh.data_length].
    unfold bind at 1. unfold bind at 1. unfold ret at 1.
    rewrite (wireframe_loop_edges JSON_stringify d tris Hdata). fold ix.
    rewrite wireframe_fill. fold K.
    unfold bind at 1. rewrite Hrun. reflexivity.
  - cbn [Mesh.indexBuffers Mesh.set_indexBuffers]. apply obj_get_set_eq.
  - exact Hb.
  - eapply NoDup_fmap_1, (proj1 Hok).
  - intros e. split; [apply Hsub|].
    intros He. specialize (H3 e He).
    apply list_elem_of_fmap in H3 as (e' & Heq & He').
    rewrite (Hinj e e' He (Hsub _ He') Heq). exact He'.
Qed.

Lemma computeWireframe_lists_every_edge_once_witness :
  exists m' w' b lines,
    Mesh.computeWireframe json_of_pair (two_triangles_mesh, w0) = (Ok tt, (m', w')) /\
    obj_get (Mesh.indexBuffers m') "wireframe" = Some b /\
    Buffer.data b
    = Typed (TA.of_list (Mesh.index_datatype (Int (TA.length two_triangles_vertices) / Int 3)%js)
               (line_data lines)) /\
    NoDup lines /\
    (forall e, e ∈ lines <-> e ∈ triangle_edges two_triangles).
Proof.
  apply (computeWireframe_lists_every_edge_once json_of_pair two_triangles_mesh w0
           (plain_buffer ARRAY_BUFFER two_triangles_vertices)
           (plain_buffer ELEMENT_ARRAY_BUFFER (TA.of_list Uint16Array (index_data two_triangles)))
           two_triangles_vertices (TA.of_list Uint16Array (index_data two_triangles))
           two_triangles).
  - reflexivity.
  - reflexivity.
  - reflexivity.
  - reflexivity.
  - reflexivity.
  - intros p q Hp Hq.
    change (triangle_edges two_triangles)
      with [edge 0 1; edge 1 2; edge 2 0; edge 0 2; edge 2 3; edge 3 0] in Hp, Hq.
    repeat (apply elem_of_cons in Hp as [->|Hp]);
      try (now apply elem_of_nil in Hp);
      repeat (apply elem_of_cons in Hq as [->|Hq]);
      try (now apply elem_of_nil in Hq);
      vm_compute; intros H; first [reflexivity|discriminate H].
Defined.

(** ** The wireframe of a mesh without indices *)

Lemma unindexed_lines_S t :
  unindexed_lines (Datatypes.S t)
  = unindexed_lines t
    ++ [(Int (3 * Z.of_nat t), Int (3 * Z.of_nat t + 1));
        (Int (3 * Z.of_nat t + 1), Int (3 * Z.of_nat t + 2));
        (Int (3 * Z.of_nat t + 2), Int (3 * Z.of_nat t))].
Proof.
  unfold unindexed_lines. rewrite seq_S, map_app, concat_app. cbn. reflexivity.
Qed.

Lemma line_data_app xs ys : line_data (xs ++ ys) = line_data xs ++ line_data ys.
Proof. unfold line_data. now rewrite map_app, concat_app. Qed.

Lemma length_unindexed_lines t : List.length (unindexed_lines t) = (3 * t)%nat.
Proof.
  induction t as [|t IH]; [reflexivity|]. rewrite unindexed_lines_S, length_app, IH. cbn. lia.
Qed.

Lemma wireframe_filter (t : nat) :
  List.filter (fun i => (Int i < Int (3 * Z.of_nat t))%js) (count_up 0 (9 * Z.of_nat t + 1) 3)
  = map (fun k => 3 * Z.of_nat k) (seq 0 t).
Proof.
  unfold count_up.
  replace (9 * Z.of_nat t + 1 - 0 + 3 - 1) with ((3 * Z.of_nat t + 1) * 3) by lia.
  rewrite Z.div_mul by lia.
  replace (Z.to_nat (3 * Z.of_nat t + 1)) with (t + (2 * t + 1))%nat by lia.
  rewrite seq_app, map_app, List.filter_app. cbn [Nat.add].
  assert (H1 : forall ks, Forall (fun k => (k < t)%nat) ks ->
            List.filter (fun i => (Int i < Int (3 * Z.of_nat t))%js)
              (map (fun k => 0 + 3 * Z.of_nat k) ks)
            = map (fun k => 3 * Z.of_nat k) ks).
  { induction 1 as [|k ks Hk _ IH]; [reflexivity|]. cbn [map List.filter]. unfold JS.lt at 1.
    replace (0 + 3 * Z.of_nat k <? 3 * Z.of_nat t) with true
      by (symmetry; apply Z.ltb_lt; lia).
    now rewrite IH. }
  assert (H2 : forall ks, Forall (fun k => (t <= k)%nat) ks ->
            List.filter (fun i => (Int i < Int (3 * Z.of_nat t))%js)
              (map (fun k => 0 + 3 * Z.of_nat k) ks) = []).
  { induction 1 as [|k ks Hk _ IH]; [reflexivity|]. cbn [map List.filter]. unfold JS.lt at 1.
    replace (0 + 3 * Z.of_nat k <? 3 * Z.of_nat t) with false
      by (symmetry; apply Z.ltb_ge; lia).
    exact IH. }
  rewrite H1, H2, app_nil_r; [reflexivity| |].
  - apply Forall_forall. intros k Hk. apply elem_of_seq in Hk. lia.
  - apply Forall_forall. intros k Hk. apply elem_of_seq in Hk. lia.
Qed.

Lemma wireframe_unindexed_loop (K : ArrayKind) (t : nat) :
  fold_left
    (fun buffer i =>
       let buffer := TA.set buffer (i * 2) (Int i) in
       let buffer := TA.set buffer (i * 2 + 1) (Int (i + 1)) in
       let buffer := TA.set buffer (i * 2 + 2) (Int (i + 1)) in
       let buffer := TA.set buffer (i * 2 + 3) (Int (i + 2)) in
       let buffer := TA.set buffer (i * 2 + 4) (Int (i + 2)) in
       TA.set buffer (i * 2 + 5) (Int i))
    (map (fun k => 3 * Z.of_nat k) (seq 0 t))
    (TA.zeros K (6 * t))
  = TA.of_list K (line_data (unindexed_lines t)).
Proof.
  enough (G : forall rest done, (done + rest = t)%nat ->
            fold_left
              (fun buffer i =>
                 let buffer := TA.set buffer (i * 2) (Int i) in
                 let buffer := TA.set buffer (i * 2 + 1) (Int (i + 1)) in
                 let buffer := TA.set buffer (i * 2 + 2) (Int (i + 1)) in
                 let buffer := TA.set buffer (i * 2 + 3) (Int (i + 2)) in
                 let buffer := TA.set buffer (i * 2 + 4) (Int (i + 2)) in
                 TA.set buffer (i * 2 + 5) (Int i))
              (map (fun k => 3 * Z.of_nat k) (seq done rest))
              (TA.mk K (map (TA.coerce K) (line_data (unindexed_lines done))
                        ++ replicate (6 * rest) (TA.coerce K (Int 0))))
            = TA.of_list K (line_data (unindexed_lines t))).
  { apply (G t 0%nat). reflexivity. }
  induction rest as [|rest IH]; intros done Hsum.
  - cbn. rewrite Nat.add_0_r in Hsum. subst done. now rewrite app_nil_r.
  - cbn [seq map fold_left]. cbv zeta.
    rewrite <- (IH (Datatypes.S done)) by lia. f_equal.
    set (L := map (TA.coerce K) (line_data (unindexed_lines done))).
    assert (HL : List.length L = (6 * done)%nat).
    { subst L. rewrite length_map, length_line_data, length_unindexed_lines. lia. }
    replace (6 * Datatypes.S rest)%nat with (6 + 6 * rest)%nat by lia.
    rewrite replicate_add. cbn [replicate].
    unfold TA.set. cbn [TA.kind TA.elems].
    repeat match goal with
           | |- context [?x <? 0] =>
               replace (x <? 0) with false by (symmetry; apply Z.ltb_ge; lia)
           end.
    cbn [TA.kind TA.elems].
    replace (Z.to_nat (3 * Z.of_nat done * 2)) with (List.length L + 0)%nat by lia.
    replace (Z.to_nat (3 * Z.of_nat done * 2 + 1)) with (List.length L + 1)%nat by lia.
    replace (Z.to_nat (3 * Z.of_nat done * 2 + 2)) with (List.length L + 2)%nat by lia.
    replace (Z.to_nat (3 * Z.of_nat done * 2 + 3)) with (List.length L + 3)%nat by lia.
    replace (Z.to_nat (3 * Z.of_nat done * 2 + 4)) with (List.length L + 4)%nat by lia.
    replace (Z.to_nat (3 * Z.of_nat done * 2 + 5)) with (List.length L + 5)%nat by lia.
    rewrite !insert_app_r. cbn [insert list_insert app].
    rewrite unindexed_lines_S, line_data_app, map_app. fold L.
    rewrite <- app_assoc. reflexivity.
Qed.

(** X19. on a mesh without indices that holds whole triangles,
    [computeWireframe] stores under ["wireframe"] the three sides of every
    triplet of consecutive vertices. *)
Theorem computeWireframe_unindexed_sides
    (JSON_stringify : num * num -> string) (m : Mesh.t) (w : World)
    (vb : Buffer.t) (vs : TypedArray) (t : nat) :
  obj_get (Mesh.vertexBuffers m) "vertices" = Some vb ->
  Buffer.data vb = Typed vs ->
  TA.length vs = 9 * Z.of_nat t ->
  Z.of_nat t <= 2 ^ 32 ->
  obj_get (Mesh.indexBuffers m) "triangles" = None ->
  exists m' w' b,
    Mesh.computeWireframe JSON_stringify (m, w) = (Ok tt, (m', w')) /\
    obj_get (Mesh.indexBuffers m') "wireframe" = Some b /\
    Buffer.data b
    = Typed (TA.of_list (Mesh.index_datatype (Int (3 * Z.of_nat t)))
               (line_data (unindexed_lines t))).
Proof.
  intros Hvb Hvs Hlen Ht Hno.
  set (K := Mesh.index_datatype (Int (3 * Z.of_nat t))).
  destruct (index_kinds_supported (Int (3 * Z.of_nat t)) (line_data (unindexed_lines t)))
    as [ty Hty].
  destruct (createIndexBuffer_typed "wireframe" (TA.of_list K (line_data (unindexed_lines t)))
              None m w ty Hty) as (b & w' & Hrun & Hb).
  eexists _, w', b. split; [|split].
  - unfold Mesh.computeWireframe. unfold bind at 1. unfold Mesh.this at 1. cbn [fst].
    rewrite Hvb, Hvs, Hno. cbn [Mesh.data_length]. rewrite Hlen.
    replace (9 * Z.of_nat t) with (3 * (3 * Z.of_nat t)) by lia.
    rewrite div_3_exact by lia. unfold bind at 1.
    unfold Mesh.wireframe_unindexed. rewrite div_3_exact by lia.
    assert (Hmul : (Int (Z.of_nat t) * Int 6)%js = Int (6 * Z.of_nat t)).
    { unfold JS.mul. change (6 <? 0) with false.
      replace (Z.of_nat t <? 0) with false by (symmetry; apply Z.ltb_ge; lia).
      cbn [orb]. rewrite andb_false_r. unfold JS.of_Z.
      replace (Z.abs (Z.of_nat t * 6) <=? JS.safe_bound) with true
        by (symmetry; apply Z.leb_le; unfold JS.safe_bound; lia).
      f_equal. lia. }
    rewrite Hmul. cbn [JS.to_index].
    replace (6 * Z.of_nat t <? 0) with false by (symmetry; apply Z.ltb_ge; lia).
    unfold ret at 1.
    replace (3 * (3 * Z.of_nat t) + 1) with (9 * Z.of_nat t + 1) by lia.
    rewrite wireframe_filter.
    replace (Z.to_nat (6 * Z.of_nat t)) with (6 * t)%nat by lia.
    fold K. rewrite wireframe_unindexed_loop.
    unfold bind at 1. rewrite Hrun. reflexivity.
  - cbn [Mesh.indexBuffers Mesh.set_indexBuffers]. apply obj_get_set_eq.
  - exact Hb.
Qed.

Lemma computeWireframe_unindexed_sides_witness :
  let vs := TA.zeros Float32Array 9 in
  let m := Mesh.mk false [("vertices", plain_buffer ARRAY_BUFFER vs)] [] [] None in
  exists m' w' b,
    Mesh.computeWireframe json_of_pair (m, w0) = (Ok tt, (m', w')) /\
    obj_get (Mesh.indexBuffers m') "wireframe" = Some b /\
    Buffer.data b
    = Typed (TA.of_list Uint16Array [Int 0; Int 1; Int 1; Int 2; Int 2; Int 0]).
Proof.
  intros vs m.
  apply (computeWireframe_unindexed_sides json_of_pair m w0
           (plain_buffer ARRAY_BUFFER vs) vs 1).
  - reflexivity.
  - reflexivity.
  - reflexivity.
  - cbn. lia.
  - reflexivity.
Defined.
